(** * The training loop of the trainer (pytorch_lightning/trainer/train_loop_mixin.py)

    A shallow embedding of [TrainerTrainLoopMixin]: [train], [run_training_epoch],
    [run_training_batch] and the [optimizer_closure] it builds, followed by the
    properties of the control logic that sequences the computation.

    Conventions of the embedding.
    - Python integers are [Z]; [%] and [//] are [Z.modulo] and [Z.div] (both round
      towards minus infinity, as Python does) and raise [ZeroDivisionError] on a
      zero divisor.
    - Python floats and scalar tensors (losses, efficiency ratios, accumulation
      counters) are exact rationals [Q]; rounding is not modelled.
    - Dictionaries of metrics are [gmap string Q].
    - The trainer object is the record [Trainer] passed through a state and
      error monad; every call that leaves this file (model hooks, forward,
      backward, optimizer step, logger, progress bar, evaluation, schedulers)
      is recorded as an [Event], and the collaborators' own state is the
      abstract [World].  The trainer's methods that other mixins define
      ([run_evaluation], [log_metrics], [add_tqdm_metrics], [clip_gradients],
      [print_nan_gradients]) are such calls: they move the world and leave
      the attributes below alone.
    - The train dataloader is the finite list of the batches it yields. *)

From Stdlib Require Import ZArith QArith Lia Bool.

From stdpp Require Import base option list strings gmap.

Local Open Scope Z_scope.

(** ** Outcomes *)

Inductive result (A : Type) : Type :=
| Ok (a : A)
| ZeroDivisionError.

Arguments Ok {A} a.

Arguments ZeroDivisionError {A}.

(** ** The state and error monad

    A computation reads and writes a state [S], records the calls it makes as
    events [E], and either returns a value or raises. *)

Definition Prog (S E A : Type) : Type := S -> result (A * S * list E).

Definition ret {S E A} (a : A) : Prog S E A := fun st => Ok (a, st, []).

Definition bind {S E A B} (m : Prog S E A) (f : A -> Prog S E B) : Prog S E B :=
  fun st =>
    match m st with
    | Ok (a, st1, t1) =>
        match f a st1 with
        | Ok (b, st2, t2) => Ok (b, st2, t1 ++ t2)
        | ZeroDivisionError => ZeroDivisionError
        end
    | ZeroDivisionError => ZeroDivisionError
    end.

Definition raise {S E A} : Prog S E A := fun _ => ZeroDivisionError.

Definition gets {S E A} (f : S -> A) : Prog S E A := fun st => Ok (f st, st, []).

Definition modify {S E} (f : S -> S) : Prog S E unit := fun st => Ok (tt, f st, []).

Definition emit {S E} (ev : E) : Prog S E unit := fun st => Ok (tt, st, [ev]).

Definition when {S E} (b : bool) (m : Prog S E unit) : Prog S E unit :=
  if b then m else ret tt.

Declare Scope prog_scope.

Delimit Scope prog_scope with prog.

Notation "x <- m ;; k" := (bind m (fun x => k))
  (at level 100, m at next level, right associativity) : prog_scope.

Notation "m ;; k" := (bind m (fun _ => k))
  (at level 100, right associativity) : prog_scope.

Local Open Scope prog_scope.

(** [for x in l: body], and the same loop when the body can leave it early
    ([break], or [return] from the enclosing function): the body answers
    [true] to leave, and the loop answers whether it was left early. *)
Fixpoint for_each {S E A} (l : list A) (body : A -> Prog S E unit) : Prog S E unit :=
  match l with
  | [] => ret tt
  | x :: l' => body x ;; for_each l' body
  end.

Fixpoint for_break {S E A} (l : list A) (body : A -> Prog S E bool) : Prog S E bool :=
  match l with
  | [] => ret false
  | x :: l' => stop <- body x ;; if (stop : bool) then ret true else for_break l' body
  end.

(** Python's arithmetic that can raise. *)
Definition py_mod {S E} (a b : Z) : Prog S E Z :=
  if b =? 0 then raise else ret (a mod b).

Definition py_floordiv {S E} (a b : Z) : Prog S E Z :=
  if b =? 0 then raise else ret (a / b).

Definition py_truediv {S E} (a : Q) (b : Z) : Prog S E Q :=
  if b =? 0 then raise else ret (a / inject_Z b)%Q.

(** [enumerate(l)] and [range(a, b)]. *)
Fixpoint enumerate_from {A} (i : Z) (l : list A) : list (Z * A) :=
  match l with
  | [] => []
  | x :: l' => (i, x) :: enumerate_from (i + 1) l'
  end.

Definition enumerate {A} (l : list A) : list (Z * A) := enumerate_from 0 l.

Definition range (a b : Z) : list Z :=
  map (fun i => a + Z.of_nat i) (seq 0 (Z.to_nat (b - a))).

(** [np.mean(l[-100:])]: the mean of the last hundred entries, or of all of
    them when there are fewer. *)
Definition last_entries {A} (n : nat) (l : list A) : list A :=
  drop (length l - n) l.

Definition np_mean (l : list Q) : Q :=
  (foldr Qplus 0 l / inject_Z (Z.of_nat (length l)))%Q.

(** ** Reasoning about computations

    [wpg e m st Q]: run from [st], [m] returns a value, a state and a trace
    that satisfy [Q]; when it raises, the judgement is [e].  With [e := False]
    this is total correctness ([wp]: the computation does return), with
    [e := True] partial correctness ([wlp]). *)

Definition wpg {S E A} (e : Prop) (m : Prog S E A) (st : S)
    (Q : A -> S -> list E -> Prop) : Prop :=
  match m st with
  | Ok (a, st', t) => Q a st' t
  | ZeroDivisionError => e
  end.

Abbreviation wp := (wpg False).

Abbreviation wlp := (wpg True).

(** ** Relations kept by every step

    [keeps R m]: whenever [m] returns, the states before and after and the
    trace in between are related by [R].  When [R] is reflexive and
    transitive along traces, it is kept by sequences, branches and loops of
    steps that keep it. *)

Definition keeps {S E A} (R : S -> S -> list E -> Prop) (m : Prog S E A) : Prop :=
  forall st, wlp m st (fun _ st' t => R st st' t).

(** ** The data of the loop *)

Section Types.

Context {World Batch Hidden Optimizer Raw : Type}.

(** The canonical tuple [process_output] hands back to the closure:
    [(loss, progress_bar_metrics, log_metrics, callback_metrics, hiddens)]. *)
Record Output : Type := mkOutput {
  out_loss : Q;
  out_progress_bar : gmap string Q;
  out_log : gmap string Q;
  out_callback : gmap string Q;
  out_hiddens : option Hidden
}.

(** ** Calls to collaborators *)

Inductive Event : Type :=
| SamplerSetEpoch (epoch : Z)
| ModelSetCurrentEpoch (epoch : Z)
| ModelSetGlobalStep (step : Z)
| ProgressReset (nb_iterations : option Z)
| ProgressSetDescription (epoch_label : option Z)
| ProgressUpdate (n : Z)
| ProgressSetPostfix
| ProgressClose
| AccumulationOnEpochBegin (epoch : Z)
| LrSchedulerStep (scheduler : nat) (epoch : Z)
| EarlyStopOnEpochEnd (epoch : Z) (logs : gmap string Q) (should_stop : bool)
| LoggerSave
| LoggerFinalize (status : string)
| OnEpochStart
| OnEpochEnd
| OnBatchStart (batch : Batch) (response : option Z)
| OnBatchEnd
| OnAfterBackward
| TbpttSplitBatch (batch : Batch) (steps : Z) (splits : list Batch)
| TrainingForward (split_batch : Batch) (batch_idx opt_idx : Z)
    (hiddens_in : option Hidden) (output : Output)
| Backward (amp : bool) (loss : Q) (optimizer : Optimizer)
| AddTqdmMetrics (metrics : gmap string Q)
| PrintNanGradients
| GradNorm (norm_type : Z) (norms : gmap string Q)
| ClipGradients
| OptimizerStep (epoch batch_idx : Z) (optimizer : Optimizer) (opt_idx : Z)
| RunEvaluation (test : bool)
| LogMetrics (metrics grad_norms : gmap string Q).

(** The positional arguments of the model's step function, and the two ways
    [training_forward] reaches it: through the wrapped model ([self.model],
    which fans the call out over devices or processes) or directly
    ([self.model.training_step]). *)
Inductive Arg : Type :=
| ArgBatch (batch : Batch)
| ArgInt (z : Z)
| ArgHiddens (hiddens : option Hidden).

Inductive Entry : Type :=
| WrappedModel
| TrainingStep.

(** What [model.optimizer_step] does with the closure it is handed: it returns,
    or it evaluates the closure (second order methods) and goes on from the
    loss the closure returned and the world the evaluation left. *)
Inductive StepPlan : Type :=
| StepReturn (w : World)
| StepClosure (w : World) (k : World -> Q -> StepPlan).

(** The collaborators.  A call that returns nothing of interest only moves the
    world ([notify]); a call whose answer the loop reads has a function giving
    the answer in the current world, and the world then moves by [notify] on
    the recorded event. *)
Record Collaborators : Type := {
  notify : World -> Event -> World;
  on_batch_start : World -> Batch -> option Z;
  tbptt_split_batch : World -> Batch -> Z -> list Batch;
  model_call : World -> Entry -> list Arg -> Raw;
  transfer_batch_to_gpu : World -> Batch -> Z -> Batch;
  training_end : World -> Raw -> Raw;
  process_output : World -> Raw -> Output;
  grad_norm : World -> Z -> gmap string Q;
  optimizer_step : World -> Z -> Z -> Optimizer -> Z -> StepPlan;
  early_stop_on_epoch_end : World -> Z -> gmap string Q -> bool;
  accumulation_on_epoch_begin : World -> Z -> Z -> Z
}.

(** ** Configuration read by the loop and never written by it *)

Record Config : Type := {
  max_nb_epochs : Z;
  min_nb_epochs : Z;
  check_val_every_n_epoch : Z;
  val_check_batch : Z;
  log_save_interval : Z;
  row_log_interval : Z;
  nb_training_batches : Z;
  nb_val_batches : Z;
  fast_dev_run : bool;
  enable_early_stop : bool;
  use_ddp : bool;
  use_ddp2 : bool;
  use_dp : bool;
  single_gpu : bool;
  data_parallel_device_ids : option (Z * list Z);
  use_amp : bool;
  sampler_has_set_epoch : bool;
  is_iterable_train_dataloader : bool;
  progress_bar_disable : bool;
  truncated_bptt_steps : option Z;
  track_grad_norm : Z;
  print_nan_grads : bool;
  proc_rank : Z;
  has_logger : bool;
  testing : bool;
  optimizers : list Optimizer;
  lr_schedulers : option (list nat);
  train_dataloader : list (option Batch);
  is_function_implemented : string -> bool;
  is_overriden : string -> bool
}.

(** ** The trainer's mutable attributes

    The last three fields are the locals of [run_training_batch] that
    [optimizer_closure] captures and mutates. *)

Record Trainer : Type := {
  current_epoch : Z;
  global_step : Z;
  total_batch_nb : Z;
  batch_nb : Z;
  split_nb : Z;
  total_batches : Z;
  accumulate_grad_batches : Z;
  batch_loss_value : Q;
  running_loss : list Q;
  avg_loss : Q;
  hiddens : option Hidden;
  opt_idx_to_accumulate_grad_batches : gmap Z Q;
  callback_metrics : gmap string Q;
  world : World;
  grad_norm_dic : gmap string Q;
  all_callback_metrics : list (gmap string Q);
  all_log_metrics : list (gmap string Q)
}.

(** Attribute assignment, one function per attribute. *)

Definition set_current_epoch (v : Z) (st : Trainer) : Trainer :=
  {| current_epoch := v; global_step := global_step st; total_batch_nb := total_batch_nb st;
     batch_nb := batch_nb st; split_nb := split_nb st; total_batches := total_batches st;
     accumulate_grad_batches := accumulate_grad_batches st;
     batch_loss_value := batch_loss_value st; running_loss := running_loss st;
     avg_loss := avg_loss st; hiddens := hiddens st;
     opt_idx_to_accumulate_grad_batches := opt_idx_to_accumulate_grad_batches st;
     callback_metrics := callback_metrics st; world := world st;
     grad_norm_dic := grad_norm_dic st; all_callback_metrics := all_callback_metrics st;
     all_log_metrics := all_log_metrics st |}.

Definition set_global_step (v : Z) (st : Trainer) : Trainer :=
  {| current_epoch := current_epoch st; global_step := v; total_batch_nb := total_batch_nb st;
     batch_nb := batch_nb st; split_nb := split_nb st; total_batches := total_batches st;
     accumulate_grad_batches := accumulate_grad_batches st;
     batch_loss_value := batch_loss_value st; running_loss := running_loss st;
     avg_loss := avg_loss st; hiddens := hiddens st;
     opt_idx_to_accumulate_grad_batches := opt_idx_to_accumulate_grad_batches st;
     callback_metrics := callback_metrics st; world := world st;
     grad_norm_dic := grad_norm_dic st; all_callback_metrics := all_callback_metrics st;
     all_log_metrics := all_log_metrics st |}.

Definition set_total_batch_nb (v : Z) (st : Trainer) : Trainer :=
  {| current_epoch := current_epoch st; global_step := global_step st; total_batch_nb := v;
     batch_nb := batch_nb st; split_nb := split_nb st; total_batches := total_batches st;
     accumulate_grad_batches := accumulate_grad_batches st;
     batch_loss_value := batch_loss_value st; running_loss := running_loss st;
     avg_loss := avg_loss st; hiddens := hiddens st;
     opt_idx_to_accumulate_grad_batches := opt_idx_to_accumulate_grad_batches st;
     callback_metrics := callback_metrics st; world := world st;
     grad_norm_dic := grad_norm_dic st; all_callback_metrics := all_callback_metrics st;
     all_log_metrics := all_log_metrics st |}.

Definition set_batch_nb (v : Z) (st : Trainer) : Trainer :=
  {| current_epoch := current_epoch st; global_step := global_step st;
     total_batch_nb := total_batch_nb st; batch_nb := v; split_nb := split_nb st;
     total_batches := total_batches st; accumulate_grad_batches := accumulate_grad_batches st;
     batch_loss_value := batch_loss_value st; running_loss := running_loss st;
     avg_loss := avg_loss st; hiddens := hiddens st;
     opt_idx_to_accumulate_grad_batches := opt_idx_to_accumulate_grad_batches st;
     callback_metrics := callback_metrics st; world := world st;
     grad_norm_dic := grad_norm_dic st; all_callback_metrics := all_callback_metrics st;
     all_log_metrics := all_log_metrics st |}.

Definition set_split_nb (v : Z) (st : Trainer) : Trainer :=
  {| current_epoch := current_epoch st; global_step := global_step st;
     total_batch_nb := total_batch_nb st; batch_nb := batch_nb st; split_nb := v;
     total_batches := total_batches st; accumulate_grad_batches := accumulate_grad_batches st;
     batch_loss_value := batch_loss_value st; running_loss := running_loss st;
     avg_loss := avg_loss st; hiddens := hiddens st;
     opt_idx_to_accumulate_grad_batches := opt_idx_to_accumulate_grad_batches st;
     callback_metrics := callback_metrics st; world := world st;
     grad_norm_dic := grad_norm_dic st; all_callback_metrics := all_callback_metrics st;
     all_log_metrics := all_log_metrics st |}.

Definition set_total_batches (v : Z) (st : Trainer) : Trainer :=
  {| current_epoch := current_epoch st; global_step := global_step st;
     total_batch_nb := total_batch_nb st; batch_nb := batch_nb st; split_nb := split_nb st;
     total_batches := v; accumulate_grad_batches := accumulate_grad_batches st;
     batch_loss_value := batch_loss_value st; running_loss := running_loss st;
     avg_loss := avg_loss st; hiddens := hiddens st;
     opt_idx_to_accumulate_grad_batches := opt_idx_to_accumulate_grad_batches st;
     callback_metrics := callback_metrics st; world := world st;
     grad_norm_dic := grad_norm_dic st; all_callback_metrics := all_callback_metrics st;
     all_log_metrics := all_log_metrics st |}.

Definition set_accumulate_grad_batches (v : Z) (st : Trainer) : Trainer :=
  {| current_epoch := current_epoch st; global_step := global_step st;
     total_batch_nb := total_batch_nb st; batch_nb := batch_nb st; split_nb := split_nb st;
     total_batches := total_batches st; accumulate_grad_batches := v;
     batch_loss_value := batch_loss_value st; running_loss := running_loss st;
     avg_loss := avg_loss st; hiddens := hiddens st;
     opt_idx_to_accumulate_grad_batches := opt_idx_to_accumulate_grad_batches st;
     callback_metrics := callback_metrics st; world := world st;
     grad_norm_dic := grad_norm_dic st; all_callback_metrics := all_callback_metrics st;
     all_log_metrics := all_log_metrics st |}.

Definition set_batch_loss_value (v : Q) (st : Trainer) : Trainer :=
  {| current_epoch := current_epoch st; global_step := global_step st;
     total_batch_nb := total_batch_nb st; batch_nb := batch_nb st; split_nb := split_nb st;
     total_batches := total_batches st; accumulate_grad_batches := accumulate_grad_batches st;
     batch_loss_value := v; running_loss := running_loss st; avg_loss := avg_loss st;
     hiddens := hiddens st;
     opt_idx_to_accumulate_grad_batches := opt_idx_to_accumulate_grad_batches st;
     callback_metrics := callback_metrics st; world := world st;
     grad_norm_dic := grad_norm_dic st; all_callback_metrics := all_callback_metrics st;
     all_log_metrics := all_log_metrics st |}.

Definition set_running_loss (v : list Q) (st : Trainer) : Trainer :=
  {| current_epoch := current_epoch st; global_step := global_step st;
     total_batch_nb := total_batch_nb st; batch_nb := batch_nb st; split_nb := split_nb st;
     total_batches := total_batches st; accumulate_grad_batches := accumulate_grad_batches st;
     batch_loss_value := batch_loss_value st; running_loss := v; avg_loss := avg_loss st;
     hiddens := hiddens st;
     opt_idx_to_accumulate_grad_batches := opt_idx_to_accumulate_grad_batches st;
     callback_metrics := callback_metrics st; world := world st;
     grad_norm_dic := grad_norm_dic st; all_callback_metrics := all_callback_metrics st;
     all_log_metrics := all_log_metrics st |}.

Definition set_avg_loss (v : Q) (st : Trainer) : Trainer :=
  {| current_epoch := current_epoch st; global_step := global_step st;
     total_batch_nb := total_batch_nb st; batch_nb := batch_nb st; split_nb := split_nb st;
     total_batches := total_batches st; accumulate_grad_batches := accumulate_grad_batches st;
     batch_loss_value := batch_loss_value st; running_loss := running_loss st; avg_loss := v;
     hiddens := hiddens st;
     opt_idx_to_accumulate_grad_batches := opt_idx_to_accumulate_grad_batches st;
     callback_metrics := callback_metrics st; world := world st;
     grad_norm_dic := grad_norm_dic st; all_callback_metrics := all_callback_metrics st;
     all_log_metrics := all_log_metrics st |}.

Definition set_hiddens (v : option Hidden) (st : Trainer) : Trainer :=
  {| current_epoch := current_epoch st; global_step := global_step st;
     total_batch_nb := total_batch_nb st; batch_nb := batch_nb st; split_nb := split_nb st;
     total_batches := total_batches st; accumulate_grad_batches := accumulate_grad_batches st;
     batch_loss_value := batch_loss_value st; running_loss := running_loss st;
     avg_loss := avg_loss st; hiddens := v;
     opt_idx_to_accumulate_grad_batches := opt_idx_to_accumulate_grad_batches st;
     callback_metrics := callback_metrics st; world := world st;
     grad_norm_dic := grad_norm_dic st; all_callback_metrics := all_callback_metrics st;
     all_log_metrics := all_log_metrics st |}.

Definition set_opt_idx_to_accumulate_grad_batches (v : gmap Z Q) (st : Trainer) : Trainer :=
  {| current_epoch := current_epoch st; global_step := global_step st;
     total_batch_nb := total_batch_nb st; batch_nb := batch_nb st; split_nb := split_nb st;
     total_batches := total_batches st; accumulate_grad_batches := accumulate_grad_batches st;
     batch_loss_value := batch_loss_value st; running_loss := running_loss st;
     avg_loss := avg_loss st; hiddens := hiddens st; opt_idx_to_accumulate_grad_batches := v;
     callback_metrics := callback_metrics st; world := world st;
     grad_norm_dic := grad_norm_dic st; all_callback_metrics := all_callback_metrics st;
     all_log_metrics := all_log_metrics st |}.

Definition set_callback_metrics (v : gmap string Q) (st : Trainer) : Trainer :=
  {| current_epoch := current_epoch st; global_step := global_step st;
     total_batch_nb := total_batch_nb st; batch_nb := batch_nb st; split_nb := split_nb st;
     total_batches := total_batches st; accumulate_grad_batches := accumulate_grad_batches st;
     batch_loss_value := batch_loss_value st; running_loss := running_loss st;
     avg_loss := avg_loss st; hiddens := hiddens st;
     opt_idx_to_accumulate_grad_batches := opt_idx_to_accumulate_grad_batches st;
     callback_metrics := v; world := world st; grad_norm_dic := grad_norm_dic st;
     all_callback_metrics := all_callback_metrics st; all_log_metrics := all_log_metrics st |}.

Definition set_world (v : World) (st : Trainer) : Trainer :=
  {| current_epoch := current_epoch st; global_step := global_step st;
     total_batch_nb := total_batch_nb st; batch_nb := batch_nb st; split_nb := split_nb st;
     total_batches := total_batches st; accumulate_grad_batches := accumulate_grad_batches st;
     batch_loss_value := batch_loss_value st; running_loss := running_loss st;
     avg_loss := avg_loss st; hiddens := hiddens st;
     opt_idx_to_accumulate_grad_batches := opt_idx_to_accumulate_grad_batches st;
     callback_metrics := callback_metrics st; world := v; grad_norm_dic := grad_norm_dic st;
     all_callback_metrics := all_callback_metrics st; all_log_metrics := all_log_metrics st |}.

Definition set_grad_norm_dic (v : gmap string Q) (st : Trainer) : Trainer :=
  {| current_epoch := current_epoch st; global_step := global_step st;
     total_batch_nb := total_batch_nb st; batch_nb := batch_nb st; split_nb := split_nb st;
     total_batches := total_batches st; accumulate_grad_batches := accumulate_grad_batches st;
     batch_loss_value := batch_loss_value st; running_loss := running_loss st;
     avg_loss := avg_loss st; hiddens := hiddens st;
     opt_idx_to_accumulate_grad_batches := opt_idx_to_accumulate_grad_batches st;
     callback_metrics := callback_metrics st; world := world st; grad_norm_dic := v;
     all_callback_metrics := all_callback_metrics st; all_log_metrics := all_log_metrics st |}.

Definition set_all_callback_metrics (v : list (gmap string Q)) (st : Trainer) : Trainer :=
  {| current_epoch := current_epoch st; global_step := global_step st;
     total_batch_nb := total_batch_nb st; batch_nb := batch_nb st; split_nb := split_nb st;
     total_batches := total_batches st; accumulate_grad_batches := accumulate_grad_batches st;
     batch_loss_value := batch_loss_value st; running_loss := running_loss st;
     avg_loss := avg_loss st; hiddens := hiddens st;
     opt_idx_to_accumulate_grad_batches := opt_idx_to_accumulate_grad_batches st;
     callback_metrics := callback_metrics st; world := world st;
     grad_norm_dic := grad_norm_dic st; all_callback_metrics := v;
     all_log_metrics := all_log_metrics st |}.

Definition set_all_log_metrics (v : list (gmap string Q)) (st : Trainer) : Trainer :=
  {| current_epoch := current_epoch st; global_step := global_step st;
     total_batch_nb := total_batch_nb st; batch_nb := batch_nb st; split_nb := split_nb st;
     total_batches := total_batches st; accumulate_grad_batches := accumulate_grad_batches st;
     batch_loss_value := batch_loss_value st; running_loss := running_loss st;
     avg_loss := avg_loss st; hiddens := hiddens st;
     opt_idx_to_accumulate_grad_batches := opt_idx_to_accumulate_grad_batches st;
     callback_metrics := callback_metrics st; world := world st;
     grad_norm_dic := grad_norm_dic st; all_callback_metrics := all_callback_metrics st;
     all_log_metrics := v |}.

Record ForwardCall : Type := mkForwardCall {
  fc_batch : Batch;
  fc_batch_idx : Z;
  fc_opt_idx : Z;
  fc_hiddens_in : option Hidden;
  fc_output : Output
}.

End Types.

(** ** A small concrete model

    Batches, hidden states and optimizers are numbers, the world counts the
    calls made so far, a forward call on batch [b] has loss [b], logs it
    under a key of its optimizer and produces the current count as hidden
    state. *)

Definition demo_output (w batch : nat) (opt_idx : Z) : @Output nat :=
  mkOutput (inject_Z (Z.of_nat batch)) ∅
    {[ (if opt_idx =? 0 then "g_loss" else "d_loss") := inject_Z (Z.of_nat batch) ]}
    ∅ (Some w).

(** [response] is what the batch-start hook answers, [reevaluate] whether
    [model.optimizer_step] evaluates the closure once (as it does for an
    optimizer such as LBFGS). *)
Definition demo_model (response : option Z) (reevaluate : bool)
    : @Collaborators nat nat nat nat (@Output nat) :=
  {| notify := fun w _ => S w;
     on_batch_start := fun _ _ => response;
     tbptt_split_batch := fun _ b _ => [b; S b];
     model_call := fun w _ args =>
       match args with
       | ArgBatch b :: ArgInt _ :: ArgInt j :: _ => demo_output w b j
       | ArgBatch b :: _ => demo_output w b 0
       | _ => demo_output w 0 0
       end;
     transfer_batch_to_gpu := fun _ b _ => b;
     training_end := fun _ raw => raw;
     process_output := fun _ raw => raw;
     grad_norm := fun _ _ => ∅;
     optimizer_step := fun w _ _ _ _ =>
       if reevaluate then StepClosure w (fun w' _ => StepReturn w') else StepReturn w;
     early_stop_on_epoch_end := fun _ _ _ => true;
     accumulation_on_epoch_begin := fun _ _ k => Z.max 1 k |}.

Definition no_hooks : string -> bool := fun _ => false.

Definition demo_config (fast : bool) (min_epochs : Z) (tbptt : option Z)
    (opts : list nat) (loader : list (option nat)) (hooks : string -> bool)
    : @Config nat nat :=
  {| max_nb_epochs := 2; min_nb_epochs := min_epochs;
     check_val_every_n_epoch := 1; val_check_batch := 2;
     log_save_interval := 100; row_log_interval := 10;
     nb_training_batches := Z.of_nat (length loader); nb_val_batches := 1;
     fast_dev_run := fast; enable_early_stop := true; use_ddp := false; use_ddp2 := false;
     use_dp := false; single_gpu := false; data_parallel_device_ids := None; use_amp := false;
     sampler_has_set_epoch := false; is_iterable_train_dataloader := false;
     progress_bar_disable := false; truncated_bptt_steps := tbptt;
     track_grad_norm := -1; print_nan_grads := false; proc_rank := 0;
     has_logger := true; testing := false; optimizers := opts;
     lr_schedulers := Some [0%nat]; train_dataloader := loader;
     is_function_implemented := hooks; is_overriden := no_hooks |}.

(** A trainer that has not trained yet, with [accumulate_grad_batches = K]. *)
Definition fresh_trainer (K : Z) : @Trainer nat nat :=
  {| current_epoch := 0; global_step := 0; total_batch_nb := 0; batch_nb := 0;
     split_nb := 0; total_batches := 0; accumulate_grad_batches := K;
     batch_loss_value := 0; running_loss := []; avg_loss := 0; hiddens := Some 99%nat;
     opt_idx_to_accumulate_grad_batches := ∅; callback_metrics := ∅; world := 0%nat;
     grad_norm_dic := ∅; all_callback_metrics := []; all_log_metrics := [] |}.

Definition batch_start_hook : string -> bool := fun name => String.eqb name "on_batch_start".

Definition four_batches : list (option nat) := [Some 1; Some 2; Some 3; Some 4]%nat.

(** A configuration of four batches with [val_check_batch = 0]. *)
Definition zero_interval_config : @Config nat nat :=
  {| max_nb_epochs := 2; min_nb_epochs := 1;
     check_val_every_n_epoch := 1; val_check_batch := 0;
     log_save_interval := 100; row_log_interval := 10;
     nb_training_batches := 4; nb_val_batches := 1;
     fast_dev_run := false; enable_early_stop := true; use_ddp := false; use_ddp2 := false;
     use_dp := false; single_gpu := false; data_parallel_device_ids := None; use_amp := false;
     sampler_has_set_epoch := false; is_iterable_train_dataloader := false;
     progress_bar_disable := false; truncated_bptt_steps := None;
     track_grad_norm := -1; print_nan_grads := false; proc_rank := 0;
     has_logger := true; testing := false; optimizers := [0%nat];
     lr_schedulers := Some [0%nat]; train_dataloader := four_batches;
     is_function_implemented := no_hooks; is_overriden := no_hooks |}.

(** ** The loop *)

Section TrainLoop.

Context {World Batch Hidden Optimizer Raw : Type}.

Abbreviation Output := (@Output Hidden) (only parsing).
Abbreviation Event := (@Event Batch Hidden Optimizer) (only parsing).
Abbreviation StepPlan := (@StepPlan World) (only parsing).
Abbreviation Collaborators :=
  (@Collaborators World Batch Hidden Optimizer Raw) (only parsing).
Abbreviation Arg := (@Arg Batch Hidden) (only parsing).
Abbreviation Config := (@Config Batch Optimizer) (only parsing).
Abbreviation Trainer := (@Trainer World Hidden) (only parsing).
Abbreviation ForwardCall := (@ForwardCall Batch Hidden) (only parsing).
Abbreviation M := (Prog Trainer Event).

Variable C : Collaborators.
Variable cfg : Config.

(** A call that returns nothing: the world moves and the call is recorded. *)
Definition call (ev : Event) : M unit :=
  fun st => Ok (tt, set_world (notify C (world st) ev) st, [ev]).

(** A call whose answer the loop reads. *)
Definition ask {A} (answer : World -> A) (ev : A -> Event) : M A :=
  fun st =>
    let a := answer (world st) in
    Ok (a, set_world (notify C (world st) (ev a)) st, [ev a]).

(** [self.opt_idx_to_accumulate_grad_batches[opt_idx]].

    Modelled from the spec: the container of accumulation counters is created
    outside this file; it holds one fractional counter per optimizer slot, and
    a slot that was never written reads [0.0]. *)
Definition accumulated (opt_idx : Z) (st : Trainer) : Q :=
  default 0%Q (opt_idx_to_accumulate_grad_batches st !! opt_idx).

Definition set_accumulated (opt_idx : Z) (v : Q) (st : Trainer) : Trainer :=
  set_opt_idx_to_accumulate_grad_batches
    (<[opt_idx := v]> (opt_idx_to_accumulate_grad_batches st)) st.

(** [{k: v for d in ds for k, v in d.items()}]: a later dictionary overrides
    an earlier one ([∪] on [gmap] keeps the left operand on a collision). *)
Definition collapse (ds : list (gmap string Q)) : gmap string Q :=
  foldl (fun acc d => d ∪ acc) ∅ ds.

(** *** training_forward

    The forward computation for each training case.  [data_parallel_device_ids]
    is either not a list ([None]) or a list given by its first id and the rest.
    The world moves once, when the whole call has returned. *)

Definition forward_args (batch : Batch) (batch_idx opt_idx : Z) (hiddens : option Hidden)
    : list Arg :=
  [ArgBatch batch; ArgInt batch_idx]
  ++ (if 1 <? Z.of_nat (length (optimizers cfg)) then [ArgInt opt_idx] else [])
  ++ (match truncated_bptt_steps cfg with Some _ => [ArgHiddens hiddens] | None => [] end).

Definition training_forward (w : World) (batch : Batch) (batch_idx opt_idx : Z)
    (hiddens : option Hidden) : Output :=
  let args := forward_args batch batch_idx opt_idx hiddens in
  let output :=
    if use_ddp cfg || use_ddp2 cfg || use_dp cfg then model_call C w WrappedModel args
    else if single_gpu cfg then
      let gpu_id := match data_parallel_device_ids cfg with
                    | Some (first, _) => first
                    | None => 0
                    end in
      let batch := transfer_batch_to_gpu C w batch gpu_id in
      let args := <[0%nat := ArgBatch batch]> args in
      model_call C w TrainingStep args
    else model_call C w TrainingStep args in
  let output := if is_overriden cfg "training_end" then training_end C w output else output in
  process_output C w output.

(** *** optimizer_closure *)

Definition optimizer_closure (split_batch : Batch) (batch_idx opt_idx : Z)
    (optimizer : Optimizer) : M Q :=
  h <- gets hiddens ;;
  output <- ask (fun w => training_forward w split_batch batch_idx opt_idx h)
                (TrainingForward split_batch batch_idx opt_idx h) ;;
  let closure_loss := out_loss output in
  let progress_bar_metrics := out_progress_bar output in
  let log_metrics := out_log output in
  let callback_metrics := out_callback output in
  modify (set_hiddens (out_hiddens output)) ;;
  let batch_loss_efficiency_ratio :=
    default 1%Q (callback_metrics !! "batch_loss_efficiency_ratio") in
  modify (fun st =>
    set_accumulated opt_idx (accumulated opt_idx st + batch_loss_efficiency_ratio)%Q st) ;;
  k <- gets accumulate_grad_batches ;;
  closure_loss_weight <- py_truediv batch_loss_efficiency_ratio k ;;
  let closure_loss := (closure_loss * closure_loss_weight)%Q in
  call (Backward (use_amp cfg) closure_loss optimizer) ;;
  modify (fun st => set_all_callback_metrics (all_callback_metrics st ++ [callback_metrics]) st) ;;
  call (AddTqdmMetrics progress_bar_metrics) ;;
  modify (fun st => set_all_log_metrics (all_log_metrics st ++ [log_metrics]) st) ;;
  when (is_function_implemented cfg "on_after_backward") (call OnAfterBackward) ;;
  ret closure_loss.

(** *** model.optimizer_step(epoch, batch_nb, optimizer, opt_idx, closure) *)

Fixpoint run_step_plan (closure : M Q) (p : StepPlan) : M unit :=
  match p with
  | StepReturn w => modify (set_world w)
  | StepClosure w k =>
      modify (set_world w) ;;
      loss <- closure ;;
      w' <- gets world ;;
      run_step_plan closure (k w' loss)
  end.

Definition model_optimizer_step (epoch batch_idx : Z) (optimizer : Optimizer)
    (opt_idx : Z) (closure : M Q) : M unit :=
  emit (OptimizerStep epoch batch_idx optimizer opt_idx) ;;
  w <- gets world ;;
  run_step_plan closure (optimizer_step C w epoch batch_idx optimizer opt_idx).

(** *** run_training_batch *)

(** The gradient update once the accumulation counter has reached the
    threshold (the body of the [if] at the end of the optimizer loop). *)
Definition gradient_update (batch_idx opt_idx : Z) (optimizer : Optimizer)
    (closure : M Q) : M unit :=
  modify (set_accumulated opt_idx 0%Q) ;;
  m <- py_mod batch_idx (row_log_interval cfg) ;;
  (if (m =? 0) && (0 <? track_grad_norm cfg) then
     norms <- ask (fun w => grad_norm C w (track_grad_norm cfg))
                  (GradNorm (track_grad_norm cfg)) ;;
     modify (set_grad_norm_dic norms)
   else ret tt) ;;
  call ClipGradients ;;
  epoch <- gets current_epoch ;;
  model_optimizer_step epoch batch_idx optimizer opt_idx closure ;;
  modify (fun st => set_running_loss (running_loss st ++ [batch_loss_value st]) st) ;;
  modify (set_batch_loss_value 0%Q) ;;
  modify (fun st => set_avg_loss (np_mean (last_entries 100 (running_loss st))) st).

(** One turn of [for opt_idx, optimizer in enumerate(self.optimizers)]. *)
Definition optimizer_iteration (split_batch : Batch) (batch_idx : Z)
    (slot : Z * Optimizer) : M unit :=
  let '(opt_idx, optimizer) := slot in
  let closure := optimizer_closure split_batch batch_idx opt_idx optimizer in
  loss <- closure ;;
  when (print_nan_grads cfg) (call PrintNanGradients) ;;
  modify (fun st => set_batch_loss_value (batch_loss_value st + loss)%Q st) ;;
  reached <- gets (fun st =>
    Qle_bool (inject_Z (accumulate_grad_batches st)) (accumulated opt_idx st)) ;;
  if (reached : bool) then gradient_update batch_idx opt_idx optimizer closure else ret tt.

(** One turn of [for split_nb, split_batch in enumerate(splits)]. *)
Definition split_iteration (batch_idx : Z) (split : Z * Batch) : M unit :=
  let '(split_idx, split_batch) := split in
  modify (set_split_nb split_idx) ;;
  for_each (enumerate (optimizers cfg)) (optimizer_iteration split_batch batch_idx).

(** [run_training_batch] from the splitting on, once the batch is known to be
    there and the batch-start hook has not asked to skip it. *)
Definition process_batch (batch : Batch) (batch_idx : Z)
    : M (Z * gmap string Q * gmap string Q) :=
  splits <- match truncated_bptt_steps cfg with
            | None => ret [batch]
            | Some steps =>
                ask (fun w => tbptt_split_batch C w batch steps) (TbpttSplitBatch batch steps)
            end ;;
  modify (set_hiddens None) ;;
  for_each (enumerate splits) (split_iteration batch_idx) ;;
  when (is_function_implemented cfg "on_batch_end") (call OnBatchEnd) ;;
  call (ProgressUpdate 1) ;;
  call ProgressSetPostfix ;;
  logs <- gets all_log_metrics ;;
  let all_log_metrics := collapse logs in
  modify (fun st =>
    set_callback_metrics (collapse (all_callback_metrics st) ∪ callback_metrics st) st) ;;
  norms <- gets grad_norm_dic ;;
  ret (0, norms, all_log_metrics).

Definition run_training_batch (batch : option Batch) (batch_idx : Z)
    : M (Z * gmap string Q * gmap string Q) :=
  modify (set_grad_norm_dic ∅) ;;
  modify (set_all_callback_metrics []) ;;
  modify (set_all_log_metrics []) ;;
  match batch with
  | None => norms <- gets grad_norm_dic ;; ret (0, norms, ∅)
  | Some batch =>
      if is_function_implemented cfg "on_batch_start" then
        response <- ask (fun w => on_batch_start C w batch) (OnBatchStart batch) ;;
        match response with
        | Some (-1) => norms <- gets grad_norm_dic ;; ret (-1, norms, ∅)
        | _ => process_batch batch batch_idx
        end
      else process_batch batch batch_idx
  end.

(** *** run_training_epoch *)

(** One turn of [for batch_nb, batch in enumerate(self.get_train_dataloader())];
    the answer is [true] when the turn ends in [break]. *)
Definition training_iteration (item : Z * option Batch) : M bool :=
  let '(batch_idx, batch) := item in
  modify (set_batch_nb batch_idx) ;;
  step <- gets global_step ;;
  call (ModelSetGlobalStep step) ;;
  output <- run_training_batch batch batch_idx ;;
  let '(batch_result, norms, batch_step_metrics) := output in
  let early_stop_epoch := batch_result =? -1 in
  m_val <- py_mod (batch_idx + 1) (val_check_batch cfg) ;;
  let is_val_check_batch := m_val =? 0 in
  epoch <- gets current_epoch ;;
  m_epoch <- py_mod (epoch + 1) (check_val_every_n_epoch cfg) ;;
  let can_check_epoch := m_epoch =? 0 in
  let should_check_val := (is_val_check_batch || early_stop_epoch) && can_check_epoch in
  when (fast_dev_run cfg || should_check_val) (call (RunEvaluation (testing cfg))) ;;
  m_save <- py_mod (batch_idx + 1) (log_save_interval cfg) ;;
  let should_save_log := (m_save =? 0) || early_stop_epoch in
  when ((should_save_log || fast_dev_run cfg) && ((proc_rank cfg =? 0) && has_logger cfg))
    (call LoggerSave) ;;
  m_log <- py_mod batch_idx (row_log_interval cfg) ;;
  let should_log_metrics := (m_log =? 0) || early_stop_epoch in
  when (should_log_metrics || fast_dev_run cfg) (call (LogMetrics batch_step_metrics norms)) ;;
  modify (fun st => set_global_step (global_step st + 1) st) ;;
  modify (fun st => set_total_batch_nb (total_batch_nb st + 1) st) ;;
  if early_stop_epoch || fast_dev_run cfg then ret true
  else
    let met_batch_limit := nb_training_batches cfg <=? batch_idx in
    if met_batch_limit then ret true else ret false.

Definition run_training_epoch : M unit :=
  when (is_function_implemented cfg "on_epoch_start") (call OnEpochStart) ;;
  for_break (enumerate (train_dataloader cfg)) training_iteration ;;
  when (is_function_implemented cfg "on_epoch_end") (call OnEpochEnd).

(** *** train *)

(** The early-stopping step that ends an epoch; the answer is [true] when
    [train] returns from inside the loop. *)
Definition early_stopping (epoch_nb : Z) : M bool :=
  let met_min_epochs := min_nb_epochs cfg <? epoch_nb in
  if enable_early_stop cfg && (met_min_epochs || fast_dev_run cfg) then
    logs <- gets callback_metrics ;;
    should_stop <- ask (fun w => early_stop_on_epoch_end C w epoch_nb logs)
                       (EarlyStopOnEpochEnd epoch_nb logs) ;;
    let stop := should_stop && met_min_epochs in
    if stop then call ProgressClose ;; ret true else ret false
  else ret false.

(** [self.accumulation_scheduler.on_epoch_begin(epoch_nb, self)].

    Modelled from the spec: the scheduler is not in this file; it is handed
    the trainer and updates the gradient-accumulation threshold per epoch, so
    the call may change [accumulate_grad_batches] and no other attribute. *)
Definition accumulation_scheduler_on_epoch_begin (epoch_nb : Z) : M unit :=
  k <- gets accumulate_grad_batches ;;
  k' <- ask (fun w => accumulation_on_epoch_begin C w epoch_nb k)
            (fun _ => AccumulationOnEpochBegin epoch_nb) ;;
  modify (set_accumulate_grad_batches k').

(** One turn of [for epoch_nb in range(self.current_epoch, self.max_nb_epochs)]. *)
Definition train_epoch (epoch_nb : Z) : M bool :=
  when (use_ddp cfg && sampler_has_set_epoch cfg) (call (SamplerSetEpoch epoch_nb)) ;;
  call (ModelSetCurrentEpoch epoch_nb) ;;
  modify (set_current_epoch epoch_nb) ;;
  epoch <- gets current_epoch ;;
  m_epoch <- py_mod (epoch + 1) (check_val_every_n_epoch cfg) ;;
  let is_val_epoch := m_epoch =? 0 in
  val_checks_per_epoch <- py_floordiv (nb_training_batches cfg) (val_check_batch cfg) ;;
  let val_checks_per_epoch := if is_val_epoch then val_checks_per_epoch else 0 in
  modify (set_total_batches
            (nb_training_batches cfg + nb_val_batches cfg * val_checks_per_epoch)) ;;
  modify (set_batch_loss_value 0%Q) ;;
  total <- gets total_batches ;;
  let nb_iterations :=
    if fast_dev_run cfg then Some 2
    else if is_iterable_train_dataloader cfg then None
    else Some total in
  when (negb (progress_bar_disable cfg)) (call (ProgressReset nb_iterations)) ;;
  call (ProgressSetDescription
          (if is_iterable_train_dataloader cfg then None else Some (epoch_nb + 1))) ;;
  accumulation_scheduler_on_epoch_begin epoch_nb ;;
  run_training_epoch ;;
  match lr_schedulers cfg with
  | Some schedulers =>
      for_each schedulers (fun s => e <- gets current_epoch ;; call (LrSchedulerStep s e))
  | None => ret tt
  end ;;
  early_stopping epoch_nb.

Definition train : M unit :=
  first_epoch <- gets current_epoch ;;
  returned <- for_break (range first_epoch (max_nb_epochs cfg)) train_epoch ;;
  if (returned : bool) then ret tt
  else
    call ProgressClose ;;
    when (has_logger cfg) (call (LoggerFinalize "success")).

(** ** What a trace shows *)

Definition forward_calls (t : list Event) : list ForwardCall :=
  omap (fun ev => match ev with
                  | TrainingForward b i j h o => Some (mkForwardCall b i j h o)
                  | _ => None
                  end) t.

Definition backward_losses (t : list Event) : list Q :=
  omap (fun ev => match ev with Backward _ loss _ => Some loss | _ => None end) t.

(** The batch indices at which [model.optimizer_step] was called. *)
Definition step_batches (t : list Event) : list Z :=
  omap (fun ev => match ev with OptimizerStep _ i _ _ => Some i | _ => None end) t.

(** The values of [global_step] handed to the model, one per batch turn. *)
Definition steps_seen (t : list Event) : list Z :=
  omap (fun ev => match ev with ModelSetGlobalStep g => Some g | _ => None end) t.

Definition evaluations (t : list Event) : list bool :=
  omap (fun ev => match ev with RunEvaluation test => Some test | _ => None end) t.

Definition finalizations (t : list Event) : list string :=
  omap (fun ev => match ev with LoggerFinalize status => Some status | _ => None end) t.

(** The verdicts of the early-stop evaluator, with the epoch it was asked at. *)
Definition verdicts (t : list Event) : list (Z * bool) :=
  omap (fun ev => match ev with
                  | EarlyStopOnEpochEnd epoch _ stop => Some (epoch, stop)
                  | _ => None
                  end) t.

(** The epochs [train] has begun, as told to the model. *)
Definition epochs_begun (t : list Event) : list Z :=
  omap (fun ev => match ev with ModelSetCurrentEpoch epoch => Some epoch | _ => None end) t.

(** The early-stop evaluator has halted training: it signalled stop at an
    epoch beyond [min_nb_epochs]. *)
Definition halts (t : list Event) : bool :=
  existsb (fun v => v.2 && (min_nb_epochs cfg <? v.1)) (verdicts t).

(** The batch-start hook answered [-1] somewhere in the trace. *)
Definition skipped (t : list Event) : bool :=
  existsb (fun ev => match ev with OnBatchStart _ (Some (-1)) => true | _ => false end) t.

(** The calls [run_training_batch] can make once the batch-start hook has let
    the batch through, and the calls it can make in all. *)
Definition inner_event (ev : Event) : bool :=
  match ev with
  | OnBatchEnd | OnAfterBackward | TbpttSplitBatch _ _ _
  | TrainingForward _ _ _ _ _ | Backward _ _ _ | AddTqdmMetrics _ | PrintNanGradients
  | GradNorm _ _ | ClipGradients | OptimizerStep _ _ _ _ | ProgressUpdate _
  | ProgressSetPostfix => true
  | _ => false
  end.

Definition batch_event (ev : Event) : bool :=
  match ev with
  | OnBatchStart _ _ => true
  | _ => inner_event ev
  end.

(** The calls [run_training_epoch] can make. *)
Definition epoch_event (ev : Event) : bool :=
  match ev with
  | OnEpochStart | OnEpochEnd | ModelSetGlobalStep _ | RunEvaluation _ | LoggerSave
  | LogMetrics _ _ => true
  | _ => batch_event ev
  end.

(** The calls that neither begin an epoch, nor ask the early-stop evaluator,
    nor close the progress bar, nor finalize the logger. *)
Definition quiet_event (ev : Event) : bool :=
  match ev with
  | ModelSetCurrentEpoch _ | EarlyStopOnEpochEnd _ _ _ | ProgressClose | LoggerFinalize _ => false
  | _ => true
  end.

(** ** Statements used in the proofs *)

(** What a batch leaves alone: the epoch and step counters and the
    accumulation threshold; and the kind of calls it makes. *)
Definition frame (kind : Event -> bool) (st st' : Trainer) (t : list Event) : Prop :=
  current_epoch st' = current_epoch st /\
  global_step st' = global_step st /\
  total_batch_nb st' = total_batch_nb st /\
  accumulate_grad_batches st' = accumulate_grad_batches st /\
  Forall (fun ev => kind ev = true) t.

Abbreviation batch_frame := (frame inner_event).

Definition divisors_ok : Prop :=
  check_val_every_n_epoch cfg <> 0 /\ val_check_batch cfg <> 0 /\
  log_save_interval cfg <> 0 /\ row_log_interval cfg <> 0.

(** The gate of [run_evaluation], as [run_training_epoch] computes it. *)
Definition should_check_val (epoch batch_idx : Z) (early_stop_epoch : bool) : bool :=
  (((batch_idx + 1) mod val_check_batch cfg =? 0) || early_stop_epoch)
  && ((epoch + 1) mod check_val_every_n_epoch cfg =? 0).

Definition iteration_post (i : Z) (st : Trainer) (stop : bool) (st' : Trainer)
    (t : list Event) : Prop :=
  current_epoch st' = current_epoch st /\
  accumulate_grad_batches st' = accumulate_grad_batches st /\
  global_step st' = global_step st + 1 /\
  total_batch_nb st' = total_batch_nb st + 1 /\
  Forall (fun ev => epoch_event ev = true) t /\
  steps_seen t = [global_step st] /\
  evaluations t =
    (if fast_dev_run cfg || should_check_val (current_epoch st) i (skipped t)
     then [testing cfg] else []) /\
  stop = skipped t || fast_dev_run cfg || (nb_training_batches cfg <=? i).

Definition epoch_post (len : nat) (i : Z) (st : Trainer) (st' : Trainer)
    (t : list Event) : Prop :=
  current_epoch st' = current_epoch st /\
  accumulate_grad_batches st' = accumulate_grad_batches st /\
  global_step st' = global_step st + Z.of_nat (length (steps_seen t)) /\
  total_batch_nb st' = total_batch_nb st + Z.of_nat (length (steps_seen t)) /\
  steps_seen t = range (global_step st) (global_step st') /\
  Forall (fun ev => epoch_event ev = true) t /\
  (length (steps_seen t) <= len)%nat /\
  (skipped t = false -> fast_dev_run cfg = false ->
   i + Z.of_nat len <= nb_training_batches cfg + 1 ->
   length (steps_seen t) = len).

(** The accumulation scheduler never sets the threshold to zero. *)
Definition schedule_ok : Prop :=
  forall w epoch k, accumulation_on_epoch_begin C w epoch k <> 0.

Definition train_epoch_post (epoch_nb : Z) (stop : bool) (st' : Trainer)
    (t : list Event) : Prop :=
  epochs_begun t = [epoch_nb] /\
  finalizations t = [] /\
  (exists should_stop,
     verdicts t =
       if enable_early_stop cfg && ((min_nb_epochs cfg <? epoch_nb) || fast_dev_run cfg)
       then [(epoch_nb, should_stop)] else []) /\
  stop = halts t /\
  (stop = true -> last t = Some ProgressClose).

Definition train_loop_post (epochs : list Z) (stop : bool) (t : list Event) : Prop :=
  finalizations t = [] /\
  stop = halts t /\
  (stop = true -> last t = Some ProgressClose) /\
  (stop = false -> epochs_begun t = epochs) /\
  (exists later, epochs = epochs_begun t ++ later).

(** The trainer as [run_training_batch] finds it in a turn of the epoch loop:
    [self.batch_nb] is set and the model has been told [global_step]. *)
Definition batch_entry (i : Z) (st : Trainer) : Trainer :=
  set_world (notify C (world (set_batch_nb i st)) (ModelSetGlobalStep (global_step st)))
    (set_batch_nb i st).

(** The log metrics the closures produced, in the order they ran. *)
Definition closure_logs (t : list Event) : list (gmap string Q) :=
  map (fun f => out_log (fc_output f)) (forward_calls t).

(** A sequence of forward calls is threaded from [h]: the first call is
    handed [h], and each later one what the call before it produced. *)
Fixpoint threaded (h : option Hidden) (fs : list ForwardCall) : Prop :=
  match fs with
  | [] => True
  | f :: fs' => fc_hiddens_in f = h /\ threaded (out_hiddens (fc_output f)) fs'
  end.

(** [self.hiddens] after the calls [fs], when it was [h] before them. *)
Definition hiddens_after (h : option Hidden) (fs : list ForwardCall) : option Hidden :=
  foldl (fun _ f => out_hiddens (fc_output f)) h fs.

Definition calls_inv (sb : Batch) (i : Z) (st st' : Trainer) (t : list Event) : Prop :=
  all_log_metrics st' = all_log_metrics st ++ closure_logs t /\
  threaded (hiddens st) (forward_calls t) /\
  hiddens st' = hiddens_after (hiddens st) (forward_calls t) /\
  Forall (fun f => fc_batch f = sb /\ fc_batch_idx f = i) (forward_calls t).

(** The splits of a batch: the batch itself, or what the model's
    [tbptt_split_batch] makes of it. *)
Definition batch_splits (st : Trainer) (batch : Batch) : list Batch :=
  match truncated_bptt_steps cfg with
  | None => [batch]
  | Some steps => tbptt_split_batch C (world st) batch steps
  end.

(** [model.optimizer_step] does not call the closure it is handed. *)
Definition no_reevaluation : Prop :=
  forall w epoch i o j, exists w', optimizer_step C w epoch i o j = StepReturn w'.

(** The forward calls of a batch, split by split: [segs] holds the calls of
    each split in order, all on that split's sub-batch (one call per
    optimizer when the optimizer step does not re-evaluate the closure); the
    calls are threaded from [None] across the whole batch, and the log
    metrics collected are those of the calls. *)
Definition segment_of (i : Z) (split : Batch) (seg : list ForwardCall) : Prop :=
  Forall (fun f => fc_batch f = split /\ fc_batch_idx f = i) seg /\
  (no_reevaluation -> length seg = length (optimizers cfg)).

Definition splits_inv (i : Z) (logs0 : list (gmap string Q)) (done : list Batch)
    (st' : Trainer) (t : list Event) : Prop :=
  (exists segs, forward_calls t = concat segs /\ Forall2 (segment_of i) done segs) /\
  threaded None (forward_calls t) /\
  hiddens st' = hiddens_after None (forward_calls t) /\
  all_log_metrics st' = logs0 ++ closure_logs t.

(** What a closure, and an optimizer step that re-evaluates it, leave alone. *)
Definition loss_frame (st st' : Trainer) (t : list Event) : Prop :=
  batch_loss_value st' = batch_loss_value st /\
  running_loss st' = running_loss st /\
  avg_loss st' = avg_loss st /\
  step_batches t = [].

(** One turn of the optimizer loop either takes an optimizer step, appends
    the accumulated loss to [running_loss], resets it and recomputes the
    average over the last hundred entries, or takes no step and only adds
    the closure's loss to the accumulated loss. *)
Definition loss_bookkeeping (i : Z) (st st' : Trainer) (t : list Event) : Prop :=
  exists loss,
    head (backward_losses t) = Some loss /\
    ((step_batches t = [i] /\
      running_loss st' = running_loss st ++ [(batch_loss_value st + loss)%Q] /\
      batch_loss_value st' = 0%Q /\
      avg_loss st' = np_mean (last_entries 100 (running_loss st')))
     \/
     (step_batches t = [] /\
      running_loss st' = running_loss st /\
      batch_loss_value st' = (batch_loss_value st + loss)%Q /\
      avg_loss st' = avg_loss st)).

(** [callback_metrics.get('batch_loss_efficiency_ratio', 1.0)]. *)
Definition efficiency_ratio (output : Output) : Q :=
  default 1%Q (out_callback output !! "batch_loss_efficiency_ratio").

(** Every closure reports the efficiency ratio [1.0]. *)
Definition unit_ratio : Prop :=
  forall w sb i j h, (efficiency_ratio (training_forward w sb i j h) == 1)%Q.

(** The batch-start hook, if there is one, never answers [-1]. *)
Definition never_skips : Prop :=
  is_function_implemented cfg "on_batch_start" = true ->
  forall w b, on_batch_start C w b <> Some (-1).

Definition accumulation_post (sb : Batch) (i K c : Z) (st' : Trainer) (t : list Event) : Prop :=
  (accumulated 0 st' == inject_Z ((c + 1) mod K))%Q /\
  step_batches t = (if (c + 1) mod K =? 0 then [i] else []) /\
  exists f loss,
    forward_calls t = [f] /\ fc_batch_idx f = i /\
    backward_losses t = [loss] /\
    (loss == out_loss (fc_output f) / inject_Z K)%Q.

(** The schedule of optimizer steps over the turns [i .. i + n - 1] of the
    epoch loop, [n] being the number of turns the trace shows. *)
Definition schedule_post (K i : Z) (st st' : Trainer) (t : list Event) : Prop :=
  let n := Z.of_nat (length (steps_seen t)) in
  global_step st' = global_step st + n /\
  map fc_batch_idx (forward_calls t) = range i (i + n) /\
  step_batches t = filter (fun k => (k + 1) mod K = 0) (range i (i + n)) /\
  Forall2 (fun f loss => (loss == out_loss (fc_output f) / inject_Z K)%Q)
    (forward_calls t) (backward_losses t) /\
  (accumulated 0 st' == inject_Z ((i + n) mod K))%Q.

(** Gradient accumulation over an epoch: the setting (one optimizer, one
    split per batch, every batch processed, efficiency ratio 1.0, a counter
    that starts at zero), and the schedule of optimizer steps and of the
    losses handed to [backward]. *)
Definition accumulation_setting (st : Trainer) : Prop :=
  (exists o, optimizers cfg = [o]) /\
  truncated_bptt_steps cfg = None /\
  unit_ratio /\
  never_skips /\
  Forall is_Some (train_dataloader cfg) /\
  divisors_ok /\
  0 < accumulate_grad_batches st /\
  (accumulated 0 st == 0)%Q.

Definition accumulation_schedule (st : Trainer) : Prop :=
  exists st' t,
    run_training_epoch st = Ok (tt, st', t) /\
    let K := accumulate_grad_batches st in
    let n := global_step st' - global_step st in
    map fc_batch_idx (forward_calls t) = range 0 n /\
    step_batches t = filter (fun i => (i + 1) mod K = 0) (range 0 n) /\
    Forall2 (fun f loss => (loss == out_loss (fc_output f) / inject_Z K)%Q)
      (forward_calls t) (backward_losses t) /\
    (accumulated 0 st' == inject_Z (n mod K))%Q.

(** ** Further observations and statements *)



(** The loss a closure hands to [backward]: the loss of the forward call,
    weighted by the efficiency ratio over the accumulation threshold. *)
Definition scaled_loss (K : Z) (f : ForwardCall) : Q :=
  (out_loss (fc_output f) * (efficiency_ratio (fc_output f) / inject_Z K))%Q.

Definition scaling_inv (st st' : Trainer) (t : list Event) : Prop :=
  accumulate_grad_batches st' = accumulate_grad_batches st /\
  backward_losses t = map (scaled_loss (accumulate_grad_batches st)) (forward_calls t).

(** [running_loss] only grows, by one entry per optimizer step. *)
Definition growth_inv (st st' : Trainer) (t : list Event) : Prop :=
  exists new,
    running_loss st' = running_loss st ++ new /\
    length new = length (step_batches t).

(** The calls of [model.grad_norm]: the norm type asked for and the answer. *)
Definition grad_norm_calls (t : list Event) : list (Z * gmap string Q) :=
  omap (fun ev => match ev with GradNorm n norms => Some (n, norms) | _ => None end) t.

(** The gradient norms tracked for the batch [i] are those of the last call
    of [model.grad_norm]; the call is made with [track_grad_norm], once per
    optimizer step when [i % row_log_interval == 0] and [track_grad_norm > 0]
    and never otherwise. *)
Definition norms_inv (i : Z) (st st' : Trainer) (t : list Event) : Prop :=
  grad_norm_dic st' = default (grad_norm_dic st) (snd <$> last (grad_norm_calls t)) /\
  Forall (fun c => c.1 = track_grad_norm cfg) (grad_norm_calls t) /\
  length (grad_norm_calls t) =
    if (i mod row_log_interval cfg =? 0) && (0 <? track_grad_norm cfg)
    then length (step_batches t) else 0%nat.

(** The calls that close a processed batch: the batch-end hook and the
    update of the progress bar. *)
Definition closing_event (ev : Event) : bool :=
  match ev with
  | OnBatchEnd | ProgressUpdate _ | ProgressSetPostfix => true
  | _ => false
  end.

Definition no_closing (st st' : Trainer) (t : list Event) : Prop :=
  Forall (fun ev => closing_event ev = false) t.

(** The end of the trace of a processed batch. *)
Definition batch_closing : list Event :=
  (if is_function_implemented cfg "on_batch_end" then [OnBatchEnd] else [])
  ++ [ProgressUpdate 1; ProgressSetPostfix].

(** The calls of [logger.save] and of [log_metrics], the latter with the
    metrics and the gradient norms it is handed. *)
Definition logger_saves (t : list Event) : list unit :=
  omap (fun ev => match ev with LoggerSave => Some tt | _ => None end) t.

Definition logged_metrics (t : list Event) : list (gmap string Q * gmap string Q) :=
  omap (fun ev => match ev with LogMetrics m g => Some (m, g) | _ => None end) t.



(** The steps of the learning-rate schedulers, with the epoch they are handed. *)
Definition lr_steps (t : list Event) : list (nat * Z) :=
  omap (fun ev => match ev with LrSchedulerStep s e => Some (s, e) | _ => None end) t.

(** The schedulers stepped at the end of the epoch [e]. *)
Definition scheduler_steps (e : Z) : list (nat * Z) :=
  match lr_schedulers cfg with
  | Some schedulers => map (fun s => (s, e)) schedulers
  | None => []
  end.

(** The counters of batches over any stretch of the run: [global_step] and
    [total_batch_nb] grow by the number of turns of the epoch loop, and the
    model is handed consecutive values of [global_step]. *)
Definition counters_inv (st st' : Trainer) (t : list Event) : Prop :=
  global_step st' = global_step st + Z.of_nat (length (steps_seen t)) /\
  total_batch_nb st' = total_batch_nb st + Z.of_nat (length (steps_seen t)) /\
  steps_seen t = range (global_step st) (global_step st').

(** The loss bookkeeping replayed on a trace: a [backward] call adds its loss
    to [batch_loss_value]; an optimizer step appends [batch_loss_value] to
    [running_loss] and resets it.  The pair is
    [(batch_loss_value, running_loss)]. *)
Fixpoint replay_losses (t : list Event) (acc : Q * list Q) : Q * list Q :=
  match t with
  | [] => acc
  | Backward _ loss _ :: t' => replay_losses t' ((acc.1 + loss)%Q, acc.2)
  | OptimizerStep _ _ _ _ :: t' => replay_losses t' (0%Q, acc.2 ++ [acc.1])
  | _ :: t' => replay_losses t' acc
  end.

(** What any stretch of whole optimizer turns does to the loss attributes:
    [running_loss] gains one entry per optimizer step and loses none; with
    no step the losses handed to [backward] are added to [batch_loss_value]
    and [avg_loss] stays; after a step [avg_loss] is the mean of the last
    hundred entries. *)
Definition losses_inv (st st' : Trainer) (t : list Event) : Prop :=
  (exists new, running_loss st' = running_loss st ++ new /\
               length new = length (step_batches t)) /\
  (step_batches t = [] ->
   batch_loss_value st' = foldl Qplus (batch_loss_value st) (backward_losses t) /\
   avg_loss st' = avg_loss st) /\
  (step_batches t <> [] ->
   avg_loss st' = np_mean (last_entries 100 (running_loss st'))).

(** The same stretch when [model.optimizer_step] makes no call of its own:
    the attributes are the replay of the trace. *)
Definition replay_inv (st st' : Trainer) (t : list Event) : Prop :=
  (batch_loss_value st', running_loss st')
  = replay_losses t (batch_loss_value st, running_loss st).

(** The forward calls of one optimizer on one split: at least the call of
    the closure, every call on that split and with that optimizer's index;
    exactly one call when [model.optimizer_step] makes no call of its own. *)
Definition slot_calls (i : Z) (split : Batch) (slot : Z * Optimizer)
    (seg : list ForwardCall) : Prop :=
  seg <> [] /\
  Forall (fun f => fc_batch f = split /\ fc_batch_idx f = i /\ fc_opt_idx f = slot.1) seg /\
  (no_reevaluation -> length seg = 1%nat).

(** The forward calls of a batch: one group per split and in it one segment
    per optimizer, in the order they are processed. *)
Definition batch_calls (i : Z) (splits : list Batch) (fs : list ForwardCall) : Prop :=
  exists segss : list (list (list ForwardCall)),
    fs = concat (concat segss) /\
    Forall2 (fun split segs =>
               Forall2 (slot_calls i split) (enumerate (optimizers cfg)) segs)
      splits segss.

(** The trainer when a batch that is not skipped is split: the one
    [run_training_batch] was entered with, its world moved by the
    batch-start hook when there is one. *)
Definition after_batch_start (st : Trainer) (batch : Batch) : Trainer :=
  if is_function_implemented cfg "on_batch_start"
  then set_world (notify C (world st) (OnBatchStart batch (on_batch_start C (world st) batch))) st
  else st.

(** * Proofs

    First the rules of the two judgements, then the loop from the inside
    out. *)

Section Rules.

Context {S E : Type}.

Implicit Types (st : S) (e : Prop).

Lemma wp_returns {A} (m : Prog S E A) st (Q : A -> S -> list E -> Prop) :
  wp m st Q -> exists a st' t, m st = Ok (a, st', t) /\ Q a st' t.
Proof.
  unfold wpg. destruct (m st) as [[[a st'] t]|]; [eauto 6 | tauto].
Qed.

Lemma wlp_returned {A} (m : Prog S E A) st (Q : A -> S -> list E -> Prop) a st' t :
  wlp m st Q -> m st = Ok (a, st', t) -> Q a st' t.
Proof. unfold wpg. intros H Hm. now rewrite Hm in H. Qed.

Lemma wpg_of_run {A} e (m : Prog S E A) st (Q : A -> S -> list E -> Prop) a st' t :
  m st = Ok (a, st', t) -> Q a st' t -> wpg e m st Q.
Proof. unfold wpg. intros ->. auto. Qed.

Lemma wp_wlp {A} (m : Prog S E A) st (Q : A -> S -> list E -> Prop) : wp m st Q -> wlp m st Q.
Proof. unfold wpg. destruct (m st) as [[[a st'] t]|]; tauto. Qed.

Lemma wpg_mono {A} e (m : Prog S E A) st (Q Q' : A -> S -> list E -> Prop) :
  wpg e m st Q -> (forall a st' t, Q a st' t -> Q' a st' t) -> wpg e m st Q'.
Proof. unfold wpg. destruct (m st) as [[[a st'] t]|]; auto. Qed.

(** A computation that returns satisfies what it satisfies whenever it
    returns. *)
Lemma wp_and_wlp {A} (m : Prog S E A) st (Q Q' : A -> S -> list E -> Prop) :
  wp m st Q -> wlp m st Q' -> wp m st (fun a st' t => Q a st' t /\ Q' a st' t).
Proof. unfold wpg. destruct (m st) as [[[a st'] t]|]; tauto. Qed.

Lemma wpg_and {A} e (m : Prog S E A) st (Q Q' : A -> S -> list E -> Prop) :
  wpg e m st Q -> wpg e m st Q' -> wpg e m st (fun a st' t => Q a st' t /\ Q' a st' t).
Proof. unfold wpg. destruct (m st) as [[[a st'] t]|]; tauto. Qed.

Lemma wpg_ret {A} e (a : A) st (Q : A -> S -> list E -> Prop) : Q a st [] -> wpg e (ret a) st Q.
Proof. easy. Qed.

Lemma wpg_bind {A B} e (m : Prog S E A) (f : A -> Prog S E B) st
    (Q : B -> S -> list E -> Prop) :
  wpg e m st (fun a st1 t1 => wpg e (f a) st1 (fun b st2 t2 => Q b st2 (t1 ++ t2))) ->
  wpg e (bind m f) st Q.
Proof.
  unfold wpg, bind. destruct (m st) as [[[a st1] t1]|]; [|easy].
  destruct (f a st1) as [[[b st2] t2]|]; easy.
Qed.

Lemma wpg_raise {A} e st (Q : A -> S -> list E -> Prop) : e -> wpg e raise st Q.
Proof. easy. Qed.

Lemma wpg_gets {A} e (f : S -> A) st (Q : A -> S -> list E -> Prop) : Q (f st) st [] -> wpg e (gets f) st Q.
Proof. easy. Qed.

Lemma wpg_modify e (f : S -> S) st (Q : unit -> S -> list E -> Prop) : Q tt (f st) [] -> wpg e (modify f) st Q.
Proof. easy. Qed.

Lemma wpg_emit e (ev : E) st (Q : unit -> S -> list E -> Prop) : Q tt st [ev] -> wpg e (emit ev) st Q.
Proof. easy. Qed.

Lemma wpg_when e (b : bool) (m : Prog S E unit) st (Q : unit -> S -> list E -> Prop) :
  (b = true -> wpg e m st Q) -> (b = false -> Q tt st []) -> wpg e (when b m) st Q.
Proof.
  intros Hm Hskip. destruct b; simpl; [now apply Hm | now apply wpg_ret, Hskip].
Qed.

Lemma wpg_py_mod e (a b : Z) st (Q : Z -> S -> list E -> Prop) :
  (b = 0 -> e) -> (b <> 0 -> Q (a mod b) st []) -> wpg e (py_mod a b) st Q.
Proof.
  unfold py_mod. intros He HQ. destruct (Z.eqb_spec b 0); [apply He | apply HQ]; easy.
Qed.

Lemma wpg_py_floordiv e (a b : Z) st (Q : Z -> S -> list E -> Prop) :
  (b = 0 -> e) -> (b <> 0 -> Q (a / b) st []) -> wpg e (py_floordiv a b) st Q.
Proof.
  unfold py_floordiv. intros He HQ. destruct (Z.eqb_spec b 0); [apply He | apply HQ]; easy.
Qed.

Lemma wpg_py_truediv e (a : Q) (b : Z) st (Q' : Q -> S -> list E -> Prop) :
  (b = 0 -> e) -> (b <> 0 -> Q' (a / inject_Z b)%Q st []) -> wpg e (py_truediv a b) st Q'.
Proof.
  unfold py_truediv. intros He HQ. destruct (Z.eqb_spec b 0); [apply He | apply HQ]; easy.
Qed.

(** Loops: an invariant on the state and on the trace recorded so far. *)
Lemma wpg_for_each {A} e (I : S -> list E -> Prop) (l : list A)
    (body : A -> Prog S E unit) st t0 :
  I st t0 ->
  (forall x st1 t1, In x l -> I st1 t1 ->
     wpg e (body x) st1 (fun _ st2 t2 => I st2 (t1 ++ t2))) ->
  wpg e (for_each l body) st (fun _ st' t => I st' (t0 ++ t)).
Proof.
  revert st t0. induction l as [|x l IH]; intros st t0 HI Hbody; simpl.
  - apply wpg_ret. now rewrite app_nil_r.
  - apply wpg_bind. eapply wpg_mono; [apply Hbody; [now left | exact HI]|].
    intros u st1 t1 H1. simpl in H1. eapply wpg_mono.
    + apply (IH st1 (t0 ++ t1)); [exact H1|]. intros y st2 t2 Hy. apply Hbody. now right.
    + intros u' st2 t2 H2. simpl in H2. now rewrite app_assoc.
Qed.

Lemma wpg_for_each_nil {A} e (I : S -> list E -> Prop) (l : list A)
    (body : A -> Prog S E unit) st :
  I st [] ->
  (forall x st1 t1, In x l -> I st1 t1 ->
     wpg e (body x) st1 (fun _ st2 t2 => I st2 (t1 ++ t2))) ->
  wpg e (for_each l body) st (fun _ st' t => I st' t).
Proof. intros HI Hbody. exact (wpg_for_each e I l body st [] HI Hbody). Qed.

(** The same for a loop that can be left early: the invariant holds as long
    as no turn left the loop, and [Q] is what a leaving turn establishes. *)
Lemma wpg_for_break {A} e (I Q : S -> list E -> Prop) (l : list A)
    (body : A -> Prog S E bool) st t0 :
  I st t0 ->
  (forall x st1 t1, In x l -> I st1 t1 ->
     wpg e (body x) st1 (fun stop st2 t2 =>
       if stop then Q st2 (t1 ++ t2) else I st2 (t1 ++ t2))) ->
  wpg e (for_break l body) st (fun stop st' t =>
    if stop then Q st' (t0 ++ t) else I st' (t0 ++ t)).
Proof.
  revert st t0. induction l as [|x l IH]; intros st t0 HI Hbody; simpl.
  - apply wpg_ret. now rewrite app_nil_r.
  - apply wpg_bind. eapply wpg_mono; [apply Hbody; [now left | exact HI]|].
    intros [] st1 t1 H1; simpl in H1.
    + apply wpg_ret. now rewrite app_nil_r.
    + eapply wpg_mono.
      * apply (IH st1 (t0 ++ t1)); [exact H1|]. intros y st2 t2 Hy. apply Hbody. now right.
      * intros stop st2 t2 H2. simpl in H2. now rewrite app_assoc.
Qed.

(** A loop invariant that knows which turns are done. *)
Lemma wpg_for_each_prefix {A} e (I : list A -> S -> list E -> Prop) (l : list A)
    (body : A -> Prog S E unit) st :
  I [] st [] ->
  (forall done x todo st1 t1, l = done ++ x :: todo -> I done st1 t1 ->
     wpg e (body x) st1 (fun _ st2 t2 => I (done ++ [x]) st2 (t1 ++ t2))) ->
  wpg e (for_each l body) st (fun _ st' t => I l st' t).
Proof.
  intros HI Hbody.
  enough (H : forall todo done st1 t1, l = done ++ todo -> I done st1 t1 ->
            wpg e (for_each todo body) st1 (fun _ st2 t2 => I l st2 (t1 ++ t2))).
  { exact (H l [] st [] eq_refl HI). }
  induction todo as [|x todo IH]; intros done st1 t1 Hl H1; simpl.
  - apply wpg_ret. rewrite !app_nil_r in *. now subst.
  - apply wpg_bind. eapply wpg_mono; [exact (Hbody done x todo st1 t1 Hl H1)|].
    intros u st2 t2 H2. simpl in H2. eapply wpg_mono.
    + apply (IH (done ++ [x]) st2 (t1 ++ t2)); [|exact H2].
      now rewrite <- app_assoc.
    + intros u' st3 t3 H3. simpl in H3. now rewrite app_assoc.
Qed.

Lemma wpg_for_break_nil {A} e (I Q : S -> list E -> Prop) (l : list A)
    (body : A -> Prog S E bool) st :
  I st [] ->
  (forall x st1 t1, In x l -> I st1 t1 ->
     wpg e (body x) st1 (fun stop st2 t2 =>
       if stop then Q st2 (t1 ++ t2) else I st2 (t1 ++ t2))) ->
  wpg e (for_break l body) st (fun stop st' t => if stop then Q st' t else I st' t).
Proof. intros HI Hbody. exact (wpg_for_break e I Q l body st [] HI Hbody). Qed.

End Rules.

Section Keeps.

Context {S E : Type} (R : S -> S -> list E -> Prop).

Hypothesis R_refl : forall st, R st st [].

Hypothesis R_trans : forall st st1 st2 t1 t2,
  R st st1 t1 -> R st1 st2 t2 -> R st st2 (t1 ++ t2).

Lemma keeps_ret {A} (a : A) : keeps R (ret a).
Proof. intros st. apply wpg_ret, R_refl. Qed.

Lemma keeps_raise {A} : keeps R (raise : Prog S E A).
Proof. intros st. exact I. Qed.

Lemma keeps_gets {A} (f : S -> A) : keeps R (gets f).
Proof. intros st. apply wpg_gets, R_refl. Qed.

Lemma keeps_bind {A B} (m : Prog S E A) (f : A -> Prog S E B) :
  keeps R m -> (forall a, keeps R (f a)) -> keeps R (bind m f).
Proof.
  intros Hm Hf st. apply wpg_bind. eapply wpg_mono; [apply Hm|].
  intros a st1 t1 H1. simpl in H1. eapply wpg_mono; [apply Hf|].
  intros b st2 t2 H2. simpl in H2. eapply R_trans; eassumption.
Qed.

Lemma keeps_when (b : bool) (m : Prog S E unit) : keeps R m -> keeps R (when b m).
Proof. intros Hm. destruct b; [exact Hm | apply keeps_ret]. Qed.

Lemma keeps_py_mod (a b : Z) : keeps R (py_mod a b).
Proof. unfold py_mod. destruct (b =? 0); [apply keeps_raise | apply keeps_ret]. Qed.

Lemma keeps_py_floordiv (a b : Z) : keeps R (py_floordiv a b).
Proof. unfold py_floordiv. destruct (b =? 0); [apply keeps_raise | apply keeps_ret]. Qed.

Lemma keeps_py_truediv (a : Q) (b : Z) : keeps R (py_truediv a b).
Proof. unfold py_truediv. destruct (b =? 0); [apply keeps_raise | apply keeps_ret]. Qed.

Lemma keeps_for_each {A} (l : list A) (body : A -> Prog S E unit) :
  (forall x, keeps R (body x)) -> keeps R (for_each l body).
Proof.
  intros Hbody. induction l as [|x l IH]; simpl.
  - apply keeps_ret.
  - apply keeps_bind; [apply Hbody | intros _; exact IH].
Qed.

Lemma keeps_for_break {A} (l : list A) (body : A -> Prog S E bool) :
  (forall x, keeps R (body x)) -> keeps R (for_break l body).
Proof.
  intros Hbody. induction l as [|x l IH]; simpl.
  - apply keeps_ret.
  - apply keeps_bind; [apply Hbody|]. intros []; [apply keeps_ret | exact IH].
Qed.

End Keeps.

Lemma inner_event_batch_event ev : inner_event ev = true -> batch_event ev = true.
Proof. destruct ev; simpl; congruence. Qed.

Lemma batch_event_epoch_event ev : batch_event ev = true -> epoch_event ev = true.
Proof. destruct ev; simpl; congruence. Qed.

Lemma epoch_event_quiet ev : epoch_event ev = true -> quiet_event ev = true.
Proof. destruct ev; simpl; congruence. Qed.

Lemma inner_events_not_skipped t :
  Forall (fun ev => inner_event ev = true) t -> skipped t = false.
Proof.
  induction 1 as [|ev t Hev _ IH]; [reflexivity|].
  simpl. rewrite IH. destruct ev; simpl in *; congruence.
Qed.

(** ** Stepping through a computation *)

Lemma wpg_call e ev st (Q : unit -> Trainer -> list Event -> Prop) :
  Q tt (set_world (notify C (world st) ev) st) [ev] -> wpg e (call ev) st Q.
Proof. easy. Qed.

Lemma wpg_ask {A} e (answer : World -> A) (ev : A -> Event) st
    (Q : A -> Trainer -> list Event -> Prop) :
  Q (answer (world st)) (set_world (notify C (world st) (ev (answer (world st)))) st)
    [ev (answer (world st))] ->
  wpg e (ask answer ev) st Q.
Proof. easy. Qed.

Ltac wp_step :=
  lazymatch goal with
  | |- wpg _ (bind _ _) _ _ => apply wpg_bind
  | |- wpg _ (ret _) _ _ => apply wpg_ret
  | |- wpg _ (gets _) _ _ => apply wpg_gets
  | |- wpg _ (modify _) _ _ => apply wpg_modify
  | |- wpg _ (emit _) _ _ => apply wpg_emit
  | |- wpg _ (call _) _ _ => apply wpg_call
  | |- wpg _ (ask _ _) _ _ => apply wpg_ask
  | |- wpg _ (when _ _) _ _ => apply wpg_when; intros ?
  | |- wpg _ (py_mod _ _) _ _ => apply wpg_py_mod; intros ?
  | |- wpg _ (py_floordiv _ _) _ _ => apply wpg_py_floordiv; intros ?
  | |- wpg _ (py_truediv _ _) _ _ => apply wpg_py_truediv; intros ?
  | |- wpg _ (if ?b then _ else _) _ _ => destruct b eqn:?
  end; cbv beta; cbn [app].

Ltac wp_steps := repeat wp_step.

(** ** The frame of [run_training_batch]

    Whatever the collaborators do, a batch leaves the epoch and step counters
    and the accumulation threshold alone and only makes batch-level calls; it
    returns as soon as the divisors it meets are not zero. *)

(** Every event of a trace built from literal events and traces already known
    to be of the right kind is of that kind. *)
Ltac forall_solve :=
  repeat lazymatch goal with
         | |- Forall _ nil => apply Forall_nil_2
         | |- Forall _ (cons _ _) => apply Forall_cons_2; [reflexivity|]
         | |- Forall _ (app _ _) => apply Forall_app; split
         | |- Forall _ _ => assumption
         end.

Ltac frame_solve :=
  repeat match goal with
         | H : frame _ _ _ _ |- _ => destruct H as (?&?&?&?&?)
         end;
  repeat split; simpl in *; try congruence; forall_solve.

(** Use a lemma already proved about the computation at the head of the goal. *)
Ltac wp_use lem :=
  eapply wpg_mono; [eapply lem; eauto | intros ? ? ? ?; cbv beta in *; cbn [app]].

Lemma optimizer_closure_frame sb i j o st :
  accumulate_grad_batches st <> 0 ->
  wp (optimizer_closure sb i j o) st (fun _ st' t => batch_frame st st' t).
Proof.
  intros HK. unfold optimizer_closure. wp_steps; try (simpl in *; congruence); frame_solve.
Qed.

Lemma run_step_plan_frame (closure : M Q) p st :
  (forall st1, accumulate_grad_batches st1 = accumulate_grad_batches st ->
     wp closure st1 (fun _ st' t => batch_frame st1 st' t)) ->
  wp (run_step_plan closure p) st (fun _ st' t => batch_frame st st' t).
Proof.
  intros Hc. revert st Hc. induction p as [w|w k IH]; intros st Hc; simpl.
  - wp_steps. frame_solve.
  - wp_steps. wp_use Hc. wp_steps. wp_use IH.
    + intros st1 H1. apply Hc. frame_solve.
    + frame_solve.
Qed.

Lemma gradient_update_frame i j o (closure : M Q) st :
  row_log_interval cfg <> 0 ->
  (forall st1, accumulate_grad_batches st1 = accumulate_grad_batches st ->
     wp closure st1 (fun _ st' t => batch_frame st1 st' t)) ->
  wp (gradient_update i j o closure) st (fun _ st' t => batch_frame st st' t).
Proof.
  intros Hrow Hc. unfold gradient_update, model_optimizer_step.
  wp_steps; try congruence.
  all: wp_use run_step_plan_frame.
  all: try (intros st1 H1; apply Hc; simpl in H1; congruence).
  all: wp_steps; frame_solve.
Qed.

Lemma optimizer_iteration_frame sb i slot st :
  row_log_interval cfg <> 0 -> accumulate_grad_batches st <> 0 ->
  wp (optimizer_iteration sb i slot) st (fun _ st' t => batch_frame st st' t).
Proof.
  intros Hrow HK. destruct slot as [j o]. unfold optimizer_iteration.
  wp_step. wp_use optimizer_closure_frame. wp_steps.
  all: try (wp_use gradient_update_frame;
            [intros st1 H1; apply optimizer_closure_frame;
             destruct H as (?&?&?&?&?); simpl in *; congruence|]).
  all: frame_solve.
Qed.

Lemma split_iteration_frame i split st :
  row_log_interval cfg <> 0 -> accumulate_grad_batches st <> 0 ->
  wp (split_iteration i split) st (fun _ st' t => batch_frame st st' t).
Proof.
  intros Hrow HK. destruct split as [s sb]. unfold split_iteration. wp_steps.
  apply (wpg_for_each_nil False (fun st' t => batch_frame st st' t)); [frame_solve|].
  intros slot st1 t1 _ H1. wp_use optimizer_iteration_frame; frame_solve.
Qed.

Lemma process_batch_frame b i st :
  row_log_interval cfg <> 0 -> accumulate_grad_batches st <> 0 ->
  wp (process_batch b i) st (fun r st' t =>
    batch_frame st st' t /\ r.1.1 = 0 /\ skipped t = false).
Proof.
  intros Hrow HK. unfold process_batch. wp_step.
  destruct (truncated_bptt_steps cfg) as [steps|]; wp_steps.
  all: eapply wpg_mono;
    [apply (wpg_for_each_nil False (fun st' t => batch_frame st st' t)); [frame_solve|];
     intros split st1 t1 _ H1; wp_use split_iteration_frame; frame_solve|].
  all: intros ? ? ? ?; cbv beta in *; wp_steps.
  all: split; [frame_solve | split; [reflexivity|]].
  all: apply inner_events_not_skipped; frame_solve.
Qed.

Lemma frame_inner_batch st st' t : batch_frame st st' t -> frame batch_event st st' t.
Proof.
  intros (?&?&?&?&Hev). repeat split; try assumption.
  eapply Forall_impl; [exact Hev|]. apply inner_event_batch_event.
Qed.

(** [run_training_batch] answers [-1] exactly when the batch-start hook did. *)
Lemma run_training_batch_frame b i st :
  row_log_interval cfg <> 0 -> accumulate_grad_batches st <> 0 ->
  wp (run_training_batch b i) st (fun r st' t =>
    frame batch_event st st' t /\ (r.1.1 =? -1) = skipped t).
Proof.
  intros Hrow HK. unfold run_training_batch. wp_steps.
  destruct b as [b|]; [|wp_steps; (split; [frame_solve | reflexivity])].
  wp_steps.
  - simpl. destruct (on_batch_start C (world st) b) as [[|p|[p|p|]]|] eqn:Hresp.
    all: try (wp_use process_batch_frame;
              match goal with H : _ /\ _ /\ _ |- _ => destruct H as (Hf & Hr & Hs) end;
              apply frame_inner_batch in Hf; simpl; rewrite Hr, Hs;
              split; [frame_solve | reflexivity]).
    wp_steps. split; [frame_solve | reflexivity].
  - wp_use process_batch_frame.
    match goal with H : _ /\ _ /\ _ |- _ => destruct H as (Hf & Hr & Hs) end.
    apply frame_inner_batch in Hf. rewrite Hr, Hs. split; [frame_solve | reflexivity].
Qed.

(** ** What batch-level traces do not contain *)

Lemma omap_none {A B} (f : A -> option B) (l : list A) :
  Forall (fun x => f x = None) l -> omap f l = [].
Proof. induction 1 as [|x l Hx _ IH]; simpl; [reflexivity|]. now rewrite Hx. Qed.

Lemma batch_events_no_step t :
  Forall (fun ev => batch_event ev = true) t -> steps_seen t = [].
Proof.
  intros H. apply omap_none. eapply Forall_impl; [exact H|].
  intros ev; destruct ev; simpl; congruence.
Qed.

Lemma batch_events_no_evaluation t :
  Forall (fun ev => batch_event ev = true) t -> evaluations t = [].
Proof.
  intros H. apply omap_none. eapply Forall_impl; [exact H|].
  intros ev; destruct ev; simpl; congruence.
Qed.

Lemma skipped_app t1 t2 : skipped (t1 ++ t2) = skipped t1 || skipped t2.
Proof. apply existsb_app. Qed.

Lemma steps_seen_app t1 t2 : steps_seen (t1 ++ t2) = steps_seen t1 ++ steps_seen t2.
Proof. apply omap_app. Qed.

Lemma evaluations_app t1 t2 : evaluations (t1 ++ t2) = evaluations t1 ++ evaluations t2.
Proof. apply omap_app. Qed.

(** ** One turn of the epoch loop *)

Lemma training_iteration_spec i b st :
  divisors_ok -> accumulate_grad_batches st <> 0 ->
  wp (training_iteration (i, b)) st (iteration_post i st).
Proof.
  intros (Hcv & Hvb & Hls & Hrl) HK. unfold training_iteration. wp_steps.
  wp_use run_training_batch_frame.
  destruct a as [[r norms] metrics]. destruct H as [Hf Hr]. simpl in Hr.
  destruct Hf as (He & Hg & Htb & Hacc & Hev). simpl in He, Hg, Htb, Hacc.
  pose proof (batch_events_no_step _ Hev) as Hsteps.
  pose proof (batch_events_no_evaluation _ Hev) as Hevals.
  pose proof (Forall_impl _ _ _ Hev batch_event_epoch_event) as Hev'.
  wp_steps; try congruence.
  all: unfold iteration_post, should_check_val; simpl.
  all: rewrite ?steps_seen_app, ?evaluations_app, ?skipped_app, Hsteps, Hevals; simpl.
  all: rewrite ?orb_false_r, <- ?Hr, ?He.
  all: repeat split; try congruence; try lia; try forall_solve.
  all: rewrite <- ?He.
  all: repeat match goal with
              | H : _ = true |- _ => rewrite H
              | H : _ = false |- _ => rewrite H
              end; reflexivity.
Qed.

(** ** The epoch loop *)

Lemma range_nil a b : b <= a -> range a b = [].
Proof. intros H. unfold range. now replace (Z.to_nat (b - a)) with 0%nat by lia. Qed.

Lemma range_cons a b : a < b -> range a b = a :: range (a + 1) b.
Proof.
  intros H. unfold range.
  replace (Z.to_nat (b - a)) with (S (Z.to_nat (b - (a + 1)))) by lia.
  simpl. f_equal; [lia|]. rewrite <- seq_shift, map_map.
  apply map_ext. intros k. lia.
Qed.

Lemma length_range a b : length (range a b) = Z.to_nat (b - a).
Proof. unfold range. now rewrite length_map, length_seq. Qed.

Lemma batch_loop_spec (l : list (option Batch)) i st :
  divisors_ok -> accumulate_grad_batches st <> 0 ->
  wp (for_break (enumerate_from i l) training_iteration) st
     (fun _ st' t => epoch_post (length l) i st st' t).
Proof.
  intros Hdiv. revert i st. induction l as [|b l IH]; intros i st HK; simpl.
  - apply wpg_ret. unfold epoch_post. simpl. rewrite Z.add_0_r, range_nil by lia.
    repeat split; auto; lia.
  - apply wpg_bind. wp_use training_iteration_spec.
    destruct H as (He & Hacc & Hg & Htb & Hev & Hsteps & _ & Hstop).
    destruct a.
    + apply wpg_ret. rewrite app_nil_r. unfold epoch_post. rewrite Hsteps. simpl.
      rewrite Hg, range_cons, range_nil by lia.
      repeat split; auto; try lia.
      intros Hskip Hfast Hlen. rewrite Hskip, Hfast in Hstop. simpl in Hstop.
      symmetry in Hstop. apply Z.leb_le in Hstop. f_equal.
      destruct l; [reflexivity | simpl in Hlen; lia].
    + wp_use IH; [congruence|].
      destruct H as (He' & Hacc' & Hg' & Htb' & Hsteps' & Hev' & Hlen' & Hfull).
      unfold epoch_post. rewrite steps_seen_app, skipped_app, Hsteps. simpl.
      repeat split; try congruence; try lia.
      * rewrite Hsteps', Hg'. rewrite (range_cons (global_step st)) by lia.
        now rewrite <- Hg.
      * apply Forall_app; split; assumption.
      * intros Hskip Hfast Hlen. apply orb_false_elim in Hskip as [_ Hskip].
        f_equal. apply Hfull; auto. lia.
Qed.

Lemma run_training_epoch_spec st :
  divisors_ok -> accumulate_grad_batches st <> 0 ->
  wp run_training_epoch st
     (fun _ st' t => epoch_post (length (train_dataloader cfg)) 0 st st' t).
Proof.
  intros Hdiv HK. unfold run_training_epoch, enumerate. wp_steps.
  all: wp_use batch_loop_spec.
  all: destruct H0 as (He & Hacc & Hg & Htb & Hsteps & Hev & Hlen & Hfull).
  all: wp_steps; unfold epoch_post; simpl.
  all: rewrite ?steps_seen_app, ?skipped_app, ?app_nil_r; simpl.
  all: rewrite ?app_nil_r, ?orb_false_r.
  all: repeat split; try assumption; forall_solve.
Qed.

(** ** The loop over epochs *)

Lemma verdicts_app t1 t2 : verdicts (t1 ++ t2) = verdicts t1 ++ verdicts t2.
Proof. apply omap_app. Qed.

Lemma finalizations_app t1 t2 :
  finalizations (t1 ++ t2) = finalizations t1 ++ finalizations t2.
Proof. apply omap_app. Qed.

Lemma epochs_begun_app t1 t2 : epochs_begun (t1 ++ t2) = epochs_begun t1 ++ epochs_begun t2.
Proof. apply omap_app. Qed.

Lemma halts_app t1 t2 : halts (t1 ++ t2) = halts t1 || halts t2.
Proof. unfold halts. rewrite verdicts_app. apply existsb_app. Qed.

Lemma quiet_events t :
  Forall (fun ev => quiet_event ev = true) t ->
  verdicts t = [] /\ finalizations t = [] /\ epochs_begun t = [] /\ halts t = false.
Proof.
  intros H. assert (Hv : verdicts t = []).
  { apply omap_none. eapply Forall_impl; [exact H|].
    intros ev; destruct ev; simpl; congruence. }
  repeat split.
  - exact Hv.
  - apply omap_none. eapply Forall_impl; [exact H|].
    intros ev; destruct ev; simpl; congruence.
  - apply omap_none. eapply Forall_impl; [exact H|].
    intros ev; destruct ev; simpl; congruence.
  - unfold halts. now rewrite Hv.
Qed.

Lemma last_cons_some {A} (x y : A) l : last l = Some y -> last (x :: l) = Some y.
Proof. intros H. rewrite last_cons. now rewrite H. Qed.

Lemma last_app_some {A} (y : A) l1 l2 : last l2 = Some y -> last (l1 ++ l2) = Some y.
Proof. intros H. rewrite last_app. now rewrite H. Qed.

Ltac last_solve :=
  repeat lazymatch goal with
         | |- last (cons _ (cons _ _)) = _ => apply last_cons_some
         | |- last (cons _ (app _ _)) = _ => apply last_cons_some
         | |- last (app _ _) = _ => apply last_app_some
         end;
  reflexivity.

Lemma train_epoch_spec epoch_nb st :
  divisors_ok -> schedule_ok ->
  wp (train_epoch epoch_nb) st (fun stop st' t => train_epoch_post epoch_nb stop st' t).
Proof.
  intros Hdiv Hsched. pose proof Hdiv as (Hcv & Hvb & Hls & Hrl).
  unfold train_epoch, accumulation_scheduler_on_epoch_begin. wp_steps; try congruence.
  all: wp_use run_training_epoch_spec; try (simpl; apply Hsched).
  all: match goal with H : epoch_post _ _ _ _ _ |- _ =>
         destruct H as (_ & _ & _ & _ & _ & Hev & _ & _) end.
  all: pose proof (Forall_impl _ _ _ Hev epoch_event_quiet) as Hq.
  all: wp_step.
  all: eapply wpg_mono with
         (Q := fun _ _ t' => Forall (fun ev => quiet_event ev = true) t').
  all: try (destruct (lr_schedulers cfg) as [schedulers|];
            [apply (wpg_for_each_nil False
                      (fun _ t' => Forall (fun ev => quiet_event ev = true) t'));
             [apply Forall_nil_2|];
             intros s st1 t1 _ Hinv; wp_steps; cbv beta in *; forall_solve
            | wp_steps; apply Forall_nil_2]).
  all: intros ? ? tl Hl; cbv beta in *; unfold early_stopping.
  all: wp_steps.
  all: destruct (quiet_events _ Hq) as (Hv1 & Hf1 & Hb1 & Hh1).
  all: destruct (quiet_events _ Hl) as (Hv2 & Hf2 & Hb2 & Hh2).
  all: unfold train_epoch_post, halts, epochs_begun, finalizations, verdicts in *.
  all: cbn [omap list_omap]; rewrite ?omap_app, ?Hv1, ?Hv2, ?Hf1, ?Hf2, ?Hb1, ?Hb2.
  all: cbn [omap list_omap app existsb fst snd].
  all: rewrite ?Heqb, ?Heqb0.
  all: refine (conj _ (conj _ (conj _ (conj _ _)))).
  all: try reflexivity; try discriminate.
  all: try (exists true; reflexivity); try (eexists; reflexivity).
  all: intros _; last_solve.
Qed.

Lemma train_loop_spec epochs st :
  divisors_ok -> schedule_ok ->
  wp (for_break epochs train_epoch) st (fun stop _ t => train_loop_post epochs stop t).
Proof.
  intros Hdiv Hsched. revert st. induction epochs as [|e epochs IH]; intros st; simpl.
  - apply wpg_ret. repeat split; try discriminate. now exists [].
  - apply wpg_bind. wp_use train_epoch_spec.
    destruct H as (Hb & Hf & _ & Hstop & Hlast). destruct a.
    + apply wpg_ret. rewrite app_nil_r. repeat split; auto; try discriminate.
      exists epochs. now rewrite Hb.
    + wp_use IH. destruct H as (Hf' & Hstop' & Hlast' & Hb' & later & Hlater).
      unfold train_loop_post.
      rewrite finalizations_app, halts_app, epochs_begun_app, Hf, Hf', Hb, <- Hstop.
      repeat split; auto.
      * intros Ha. apply last_app_some. auto.
      * intros Ha. simpl. f_equal. auto.
      * exists later. simpl. now f_equal.
Qed.

Lemma train_spec st :
  divisors_ok -> schedule_ok ->
  wp train st (fun _ _ t =>
    finalizations t = (if has_logger cfg && negb (halts t) then ["success"] else []) /\
    (halts t = true -> last t = Some ProgressClose) /\
    (halts t = false ->
       epochs_begun t = range (current_epoch st) (max_nb_epochs cfg) /\
       exists t0, t = t0 ++ ProgressClose ::
                        (if has_logger cfg then [LoggerFinalize "success"] else []))).
Proof.
  intros Hdiv Hsched. unfold train. wp_steps. wp_use train_loop_spec.
  destruct H as (Hf & Hstop & Hlast & Hb & _). destruct a.
  - wp_steps. rewrite app_nil_r, <- Hstop, andb_false_r.
    repeat split; auto. discriminate.
  - specialize (Hb eq_refl). wp_steps.
    all: rewrite finalizations_app, halts_app, Hf, <- Hstop.
    all: match goal with H : has_logger cfg = _ |- _ => rewrite H end.
    all: unfold halts; simpl; repeat split; try discriminate.
    all: try (rewrite epochs_begun_app, Hb; simpl; apply app_nil_r).
    all: eexists; reflexivity.
Qed.

(** ** A batch the batch-start hook skips *)

Lemma run_training_batch_skip b i st :
  is_function_implemented cfg "on_batch_start" = true ->
  on_batch_start C (world st) b = Some (-1) ->
  exists st', run_training_batch (Some b) i st
              = Ok ((-1, ∅, ∅), st', [OnBatchStart b (Some (-1))]).
Proof.
  intros Himpl Hresp. unfold run_training_batch, bind, modify, ask, gets, ret.
  simpl. rewrite Himpl. simpl. rewrite Hresp. simpl. eexists. reflexivity.
Qed.

Lemma skip_iteration_spec b i st :
  divisors_ok ->
  is_function_implemented cfg "on_batch_start" = true ->
  on_batch_start C (world (batch_entry i st)) b = Some (-1) ->
  wp (training_iteration (i, Some b)) st (fun stop st' t =>
    stop = true /\ global_step st' = global_step st + 1 /\
    total_batch_nb st' = total_batch_nb st + 1 /\
    forward_calls t = [] /\ backward_losses t = [] /\
    steps_seen t = [global_step st] /\ skipped t = true).
Proof.
  intros (Hcv & Hvb & Hls & Hrl) Himpl Hresp. unfold training_iteration. wp_steps.
  destruct (run_training_batch_skip b i _ Himpl Hresp) as [st1 Hrun].
  eapply wpg_of_run; [exact Hrun|].
  assert (Hg : global_step st1 = global_step st /\ total_batch_nb st1 = total_batch_nb st).
  { revert Hrun. unfold run_training_batch, bind, modify, ask, gets, ret. simpl.
    rewrite Himpl. simpl. unfold batch_entry in Hresp. simpl in Hresp. rewrite Hresp.
    simpl. intros [= <-]. split; reflexivity. }
  destruct Hg as [Hg Htb].
  wp_steps; try congruence; try discriminate.
  all: simpl; rewrite Hg, Htb; repeat split; reflexivity.
Qed.

(** ** What the closures of a batch leave behind *)

Lemma keeps_modify (R : Trainer -> Trainer -> list Event -> Prop) (f : Trainer -> Trainer) :
  (forall st, R st (f st) []) -> keeps R (modify f).
Proof. intros H st. apply wpg_modify, H. Qed.

Lemma keeps_emit (R : Trainer -> Trainer -> list Event -> Prop) (ev : Event) :
  (forall st, R st st [ev]) -> keeps R (emit ev).
Proof. intros H st. apply wpg_emit, H. Qed.

Lemma keeps_call (R : Trainer -> Trainer -> list Event -> Prop) (ev : Event) :
  (forall st, R st (set_world (notify C (world st) ev) st) [ev]) -> keeps R (call ev).
Proof. intros H st. apply wpg_call, H. Qed.

Lemma keeps_ask {A} (R : Trainer -> Trainer -> list Event -> Prop)
    (answer : World -> A) (ev : A -> Event) :
  (forall st, R st (set_world (notify C (world st) (ev (answer (world st)))) st)
                [ev (answer (world st))]) ->
  keeps R (ask answer ev).
Proof. intros H st. apply wpg_ask, H. Qed.

Lemma keeps_run_step_plan (R : Trainer -> Trainer -> list Event -> Prop)
    (closure : M Q) (p : StepPlan) :
  (forall st, R st st []) ->
  (forall st st1 st2 t1 t2, R st st1 t1 -> R st1 st2 t2 -> R st st2 (t1 ++ t2)) ->
  (forall w st, R st (set_world w st) []) ->
  keeps R closure ->
  keeps R (run_step_plan closure p).
Proof.
  intros Hrefl Htrans Hworld Hc. induction p as [w|w k IH]; simpl.
  - apply keeps_modify. intros st. apply Hworld.
  - apply (keeps_bind _ Htrans); [apply keeps_modify; intros st; apply Hworld|].
    intros _. apply (keeps_bind _ Htrans); [exact Hc|].
    intros loss. apply (keeps_bind _ Htrans); [apply (keeps_gets _ Hrefl)|].
    intros w'. apply IH.
Qed.

Ltac keeps_step Hrefl Htrans :=
  lazymatch goal with
  | |- keeps _ (bind _ _) => apply (keeps_bind _ Htrans); [|intros ?]
  | |- keeps _ (ret _) => apply (keeps_ret _ Hrefl)
  | |- keeps _ (gets _) => apply (keeps_gets _ Hrefl)
  | |- keeps _ (when _ _) => apply (keeps_when _ Hrefl)
  | |- keeps _ (py_mod _ _) => apply (keeps_py_mod _ Hrefl)
  | |- keeps _ (py_floordiv _ _) => apply (keeps_py_floordiv _ Hrefl)
  | |- keeps _ (py_truediv _ _) => apply (keeps_py_truediv _ Hrefl)
  | |- keeps _ (for_each _ _) => apply (keeps_for_each _ Hrefl Htrans); intros ?
  | |- keeps _ (modify _) => apply keeps_modify; intros ?
  | |- keeps _ (emit _) => apply keeps_emit; intros ?
  | |- keeps _ (call _) => apply keeps_call; intros ?
  | |- keeps _ (ask _ _) => apply keeps_ask; intros ?
  | |- keeps _ (if ?b then _ else _) => destruct b
  | |- keeps _ (match ?x with _ => _ end) => destruct x
  end.

Lemma forward_calls_app t1 t2 :
  forward_calls (t1 ++ t2) = forward_calls t1 ++ forward_calls t2.
Proof. apply omap_app. Qed.

Lemma closure_logs_app t1 t2 : closure_logs (t1 ++ t2) = closure_logs t1 ++ closure_logs t2.
Proof. unfold closure_logs. now rewrite forward_calls_app, map_app. Qed.

Lemma hiddens_after_app h fs1 fs2 :
  hiddens_after h (fs1 ++ fs2) = hiddens_after (hiddens_after h fs1) fs2.
Proof. apply foldl_app. Qed.

Lemma threaded_app h fs1 fs2 :
  threaded h (fs1 ++ fs2) <-> threaded h fs1 /\ threaded (hiddens_after h fs1) fs2.
Proof.
  revert h. induction fs1 as [|f fs1 IH]; intros h; simpl.
  - tauto.
  - rewrite IH. tauto.
Qed.

Lemma calls_inv_refl sb i st : calls_inv sb i st st [].
Proof. unfold calls_inv. simpl. rewrite app_nil_r. repeat split. constructor. Qed.

Lemma calls_inv_trans sb i st st1 st2 t1 t2 :
  calls_inv sb i st st1 t1 -> calls_inv sb i st1 st2 t2 -> calls_inv sb i st st2 (t1 ++ t2).
Proof.
  intros (Hl1 & Ht1 & Hh1 & Hf1) (Hl2 & Ht2 & Hh2 & Hf2). unfold calls_inv.
  rewrite closure_logs_app, forward_calls_app, hiddens_after_app, threaded_app.
  rewrite Hl2, Hl1, Hh2, Hh1, app_assoc. rewrite Hh1 in Ht2.
  repeat split; auto. apply Forall_app; auto.
Qed.

(** A step that is not a forward call and leaves [self.hiddens] and the list
    of log metrics alone. *)
Ltac calls_neutral :=
  unfold calls_inv; simpl; rewrite ?app_nil_r; repeat split; apply Forall_nil_2.

Lemma optimizer_closure_calls sb i j o : keeps (calls_inv sb i) (optimizer_closure sb i j o).
Proof.
  intros st. unfold optimizer_closure. wp_steps; try exact I.
  all: unfold calls_inv, closure_logs; simpl; repeat split; repeat constructor.
Qed.

Lemma optimizer_iteration_calls sb i slot : keeps (calls_inv sb i) (optimizer_iteration sb i slot).
Proof.
  unfold optimizer_iteration, gradient_update, model_optimizer_step.
  repeat keeps_step (calls_inv_refl sb i) (calls_inv_trans sb i).
  all: try apply optimizer_closure_calls; try calls_neutral.
  all: apply keeps_run_step_plan;
    [apply calls_inv_refl | apply calls_inv_trans | intros; calls_neutral
    | apply optimizer_closure_calls].
Qed.

Lemma split_iteration_calls i s sb : keeps (calls_inv sb i) (split_iteration i (s, sb)).
Proof.
  unfold split_iteration.
  repeat keeps_step (calls_inv_refl sb i) (calls_inv_trans sb i).
  - calls_neutral.
  - apply optimizer_iteration_calls.
Qed.

Lemma enumerate_from_snd {A} (l : list A) i : (enumerate_from i l).*2 = l.
Proof. revert i. induction l as [|x l IH]; intros i; simpl; [|rewrite IH]; reflexivity. Qed.

Lemma enumerate_from_length {A} (l : list A) i : length (enumerate_from i l) = length l.
Proof. revert i. induction l as [|x l IH]; intros i; simpl; [|rewrite IH]; reflexivity. Qed.

(** Without re-evaluation a turn of the optimizer loop makes one forward
    call, so a split makes one per optimizer. *)
Lemma optimizer_closure_one_call sb i j o st :
  wlp (optimizer_closure sb i j o) st (fun _ _ t => length (forward_calls t) = 1%nat).
Proof. unfold optimizer_closure. wp_steps; try exact I; reflexivity. Qed.

Lemma gradient_update_no_call i j o (closure : M Q) st :
  no_reevaluation ->
  wlp (gradient_update i j o closure) st (fun _ _ t => forward_calls t = []).
Proof.
  intros Hnr. unfold gradient_update, model_optimizer_step. wp_steps; try exact I.
  all: match goal with
       | |- context [optimizer_step C ?w ?e ?b ?o' ?k] =>
           destruct (Hnr w e b o' k) as [w' Hw]; rewrite Hw; simpl run_step_plan
       end.
  all: wp_steps; reflexivity.
Qed.

Lemma optimizer_iteration_one_call sb i slot st :
  no_reevaluation ->
  wlp (optimizer_iteration sb i slot) st (fun _ _ t => length (forward_calls t) = 1%nat).
Proof.
  intros Hnr. destruct slot as [j o]. unfold optimizer_iteration. wp_step.
  eapply wpg_mono; [apply optimizer_closure_one_call|].
  intros loss st1 t1 H1. cbv beta in *. wp_steps.
  all: try (eapply wpg_mono; [apply gradient_update_no_call; exact Hnr|];
            intros u st2 t2 H2; cbv beta in * ).
  all: rewrite ?forward_calls_app; simpl; rewrite ?forward_calls_app, ?H2; simpl.
  all: now rewrite ?app_nil_r.
Qed.

Lemma split_iteration_call_count i split st :
  no_reevaluation ->
  wlp (split_iteration i split) st
      (fun _ _ t => length (forward_calls t) = length (optimizers cfg)).
Proof.
  intros Hnr. destruct split as [s sb]. unfold split_iteration. wp_steps.
  eapply wpg_mono.
  - apply (wpg_for_each_prefix True
             (fun done _ t => length (forward_calls t) = length done)); [reflexivity|].
    intros done slot todo st1 t1 _ H1.
    eapply wpg_mono; [apply optimizer_iteration_one_call; exact Hnr|].
    intros u st2 t2 H2. cbv beta in *.
    rewrite forward_calls_app, !length_app, H1, H2. reflexivity.
  - intros u st' t H. cbv beta in *. unfold enumerate in H.
    now rewrite enumerate_from_length in H.
Qed.

Lemma split_iteration_segment i s sb st :
  wlp (split_iteration i (s, sb)) st (fun _ st' t =>
    calls_inv sb i st st' t /\
    (no_reevaluation -> length (forward_calls t) = length (optimizers cfg))).
Proof.
  destruct (split_iteration i (s, sb) st) as [[[u st'] t]|] eqn:Hrun;
    [|unfold wpg; rewrite Hrun; exact I].
  eapply wpg_of_run; [exact Hrun|]. split.
  - exact (wlp_returned _ _ _ _ _ _ (split_iteration_calls i s sb st) Hrun).
  - intros Hnr.
    exact (wlp_returned _ _ _ _ _ _ (split_iteration_call_count i (s, sb) st Hnr) Hrun).
Qed.

Lemma split_loop_calls i splits st :
  hiddens st = None ->
  wlp (for_each (enumerate splits) (split_iteration i)) st
      (fun _ st' t => splits_inv i (all_log_metrics st) splits st' t).
Proof.
  intros Hh.
  eapply wpg_mono.
  - apply (wpg_for_each_prefix True
             (fun done st' t => splits_inv i (all_log_metrics st) done.*2 st' t)).
    + unfold splits_inv. simpl. rewrite app_nil_r. repeat split; auto.
      exists []. split; [reflexivity | constructor].
    + intros done [s sb] todo st1 t1 _ ((segs & Hsegs & Hlab) & Hthr & Hhid & Hlogs).
      eapply wpg_mono; [apply split_iteration_segment|].
      intros u st2 t2 ((Hl2 & Ht2 & Hh2 & Hf2) & Hcount). unfold splits_inv.
      rewrite forward_calls_app, closure_logs_app, hiddens_after_app, threaded_app.
      rewrite <- Hhid, Hl2, Hlogs, app_assoc. repeat split; auto.
      exists (segs ++ [forward_calls t2]). split.
      * rewrite concat_app, Hsegs. simpl. now rewrite app_nil_r.
      * rewrite fmap_app. apply Forall2_app; [exact Hlab|]. repeat constructor; assumption.
  - intros u st' t H. unfold enumerate in H. now rewrite enumerate_from_snd in H.
Qed.

Lemma process_batch_calls b i st :
  wlp (process_batch b i) st (fun r st' t =>
    splits_inv i (all_log_metrics st) (batch_splits st b) st' t /\
    r.2 = collapse (all_log_metrics st ++ closure_logs t)).
Proof.
  unfold process_batch, batch_splits. wp_step.
  destruct (truncated_bptt_steps cfg) as [steps|]; wp_steps.
  all: eapply wpg_mono; [apply split_loop_calls; reflexivity|].
  all: intros u st1 t1 (Hsegs & Hthr & Hhid & Hlogs); cbv beta; simpl in Hlogs.
  all: wp_steps.
  all: unfold splits_inv, closure_logs in *; simpl.
  all: rewrite ?forward_calls_app; simpl; rewrite ?app_nil_r.
  all: repeat split; auto; rewrite Hlogs; reflexivity.
Qed.

Lemma run_training_batch_calls b i st :
  wlp (run_training_batch b i) st (fun r _ t => r.2 = collapse (closure_logs t)).
Proof.
  assert (Hinner : forall b' st1, all_log_metrics st1 = [] ->
            wlp (process_batch b' i) st1 (fun r _ t => r.2 = collapse (closure_logs t))).
  { intros b' st1 Hnil. eapply wpg_mono; [apply process_batch_calls|].
    intros r st' t [_ Hr]. simpl in Hr. now rewrite Hnil in Hr. }
  unfold run_training_batch. wp_steps.
  destruct b as [b|]; [|wp_steps; reflexivity].
  wp_steps; [|now apply Hinner].
  simpl. destruct (on_batch_start C (world st) b) as [[|p|[p|p|]]|].
  all: try (eapply wpg_mono; [apply Hinner; reflexivity|]; intros r st' t Hr; exact Hr).
  wp_steps. reflexivity.
Qed.

(** ** The merge of log metrics *)

Lemma collapse_snoc ds d : collapse (ds ++ [d]) = d ∪ collapse ds.
Proof. unfold collapse. now rewrite foldl_app. Qed.

Lemma collapse_lookup_None ds (k : string) :
  collapse ds !! k = None <-> Forall (fun d : gmap string Q => d !! k = None) ds.
Proof.
  induction ds as [|d ds IH] using rev_ind.
  - split; [constructor | reflexivity].
  - rewrite collapse_snoc, lookup_union_None, Forall_app, IH. split.
    + intros [Hd Hds]. split; [exact Hds | now constructor].
    + intros [Hds Hd]. split; [now apply Forall_cons in Hd as [Hd _] | exact Hds].
Qed.

Lemma collapse_lookup_later ds1 d ds2 (k : string) v :
  d !! k = Some v ->
  Forall (fun d' : gmap string Q => d' !! k = None) ds2 ->
  collapse (ds1 ++ d :: ds2) !! k = Some v.
Proof.
  intros Hd. induction ds2 as [|d' ds2 IH] using rev_ind; intros Hnone.
  - rewrite collapse_snoc. now apply lookup_union_Some_l.
  - apply Forall_app in Hnone as [Hnone Hd']. apply Forall_cons in Hd' as [Hk _].
    replace (ds1 ++ d :: ds2 ++ [d']) with ((ds1 ++ d :: ds2) ++ [d'])
      by now rewrite <- app_assoc.
    rewrite collapse_snoc, lookup_union_r by exact Hk. now apply IH.
Qed.

Lemma collapse_lookup_is_Some ds (k : string) :
  is_Some (collapse ds !! k) <-> exists d, d ∈ ds /\ is_Some (d !! k).
Proof.
  rewrite <- not_eq_None_Some, collapse_lookup_None. split.
  - intros Hnot. apply not_Forall_Exists in Hnot; [|intros d; apply _].
    apply Exists_exists in Hnot as (d & Hin & Hd).
    exists d. split; [exact Hin | now apply not_eq_None_Some].
  - intros (d & Hin & Hd) Hall. rewrite Forall_forall in Hall.
    apply not_eq_None_Some in Hd. apply Hd, Hall, Hin.
Qed.

(** ** Threading across the boundary of two splits *)

Lemma threaded_boundary h (segs : list (list ForwardCall)) k seg seg' f g :
  threaded h (concat segs) ->
  segs !! k = Some seg -> segs !! S k = Some seg' ->
  last seg = Some f -> head seg' = Some g ->
  fc_hiddens_in g = out_hiddens (fc_output f).
Proof.
  intros Hthr Hseg Hseg' Hlast Hhead.
  apply last_Some in Hlast as [seg0 ->]. apply head_Some in Hhead as [seg1 ->].
  rewrite <- (take_drop_middle segs k _ Hseg) in Hthr.
  assert (Hdrop : drop (S k) segs = (g :: seg1) :: drop (S (S k)) segs).
  { rewrite <- (take_drop_middle segs (S k) _ Hseg') at 1.
    rewrite drop_app_length'; [reflexivity|].
    rewrite length_take. apply lookup_lt_Some in Hseg'. lia. }
  rewrite Hdrop in Hthr. rewrite concat_app in Hthr. simpl in Hthr.
  apply threaded_app in Hthr as [_ Hthr].
  rewrite <- app_assoc in Hthr. apply threaded_app in Hthr as [_ Hthr].
  simpl in Hthr. destruct Hthr as (_ & Hin & _). exact Hin.
Qed.

(** ** The running loss *)

Lemma step_batches_app t1 t2 : step_batches (t1 ++ t2) = step_batches t1 ++ step_batches t2.
Proof. apply omap_app. Qed.

Lemma backward_losses_app t1 t2 :
  backward_losses (t1 ++ t2) = backward_losses t1 ++ backward_losses t2.
Proof. apply omap_app. Qed.

Lemma loss_frame_refl st : loss_frame st st [].
Proof. repeat split. Qed.

Lemma loss_frame_trans st st1 st2 t1 t2 :
  loss_frame st st1 t1 -> loss_frame st1 st2 t2 -> loss_frame st st2 (t1 ++ t2).
Proof.
  intros (?&?&?&Hs1) (?&?&?&Hs2). unfold loss_frame.
  rewrite step_batches_app, Hs1, Hs2. repeat split; congruence.
Qed.

Lemma optimizer_closure_loss sb i j o st :
  wlp (optimizer_closure sb i j o) st (fun loss st' t =>
    loss_frame st st' t /\ backward_losses t = [loss]).
Proof.
  unfold optimizer_closure. wp_steps; try exact I.
  all: split; [repeat split | reflexivity].
Qed.

Lemma length_last_entries {A} n (l : list A) : (length (last_entries n l) <= n)%nat.
Proof. unfold last_entries. rewrite length_drop. lia. Qed.

Lemma optimizer_iteration_loss sb i j o st :
  wlp (optimizer_iteration sb i (j, o)) st (fun _ st' t => loss_bookkeeping i st st' t).
Proof.
  unfold optimizer_iteration. wp_step.
  eapply wpg_mono; [apply optimizer_closure_loss|].
  intros loss st1 t1 [(Hb1 & Hr1 & Ha1 & Hs1) Hbw]. cbv beta.
  unfold gradient_update, model_optimizer_step. wp_steps; try exact I.
  all: try (eapply wpg_mono;
            [apply (keeps_run_step_plan loss_frame);
             [apply loss_frame_refl | apply loss_frame_trans | intros; repeat split
             | intros st0; eapply wpg_mono; [apply optimizer_closure_loss|];
               intros ? ? ? [? _]; assumption]
            | intros u st2 t2 (Hb2 & Hr2 & Ha2 & Hs2); simpl in Hb2, Hr2, Ha2;
              cbv beta; wp_steps]).
  all: exists loss; unfold loss_bookkeeping.
  all: rewrite ?backward_losses_app, ?step_batches_app, Hbw, Hs1; simpl.
  all: rewrite ?step_batches_app, ?Hs2; simpl.
  all: split; [reflexivity|].
  all: first [ left; repeat split; congruence | right; repeat split; congruence ].
Qed.

(** ** Gradient accumulation *)

Lemma reached_iff (K c : Z) (q : Q) :
  0 <= c < K -> (q == inject_Z (c + 1))%Q ->
  Qle_bool (inject_Z K) q = ((c + 1) mod K =? 0).
Proof.
  intros Hc Hq. rewrite Hq. destruct (Z.eq_dec (c + 1) K) as [He|Hne].
  - rewrite He, Z_mod_same_full. simpl. apply Qle_bool_iff. apply Qle_refl.
  - rewrite Z.mod_small by lia.
    replace (c + 1 =? 0) with false by (symmetry; apply Z.eqb_neq; lia).
    apply not_true_is_false. rewrite Qle_bool_iff, <- Zle_Qle. lia.
Qed.

Lemma accumulated_set_accumulated j v st : accumulated j (set_accumulated j v st) = v.
Proof. unfold accumulated, set_accumulated. simpl. now rewrite lookup_insert_eq. Qed.

Lemma optimizer_closure_accumulation sb i j o st :
  wlp (optimizer_closure sb i j o) st (fun loss st' t =>
    let output := training_forward (world st) sb i j (hiddens st) in
    forward_calls t = [mkForwardCall sb i j (hiddens st) output] /\
    backward_losses t = [loss] /\
    step_batches t = [] /\
    loss = (out_loss output * (efficiency_ratio output / inject_Z (accumulate_grad_batches st)))%Q /\
    accumulated j st' = (accumulated j st + efficiency_ratio output)%Q /\
    accumulate_grad_batches st' = accumulate_grad_batches st).
Proof.
  unfold optimizer_closure. wp_steps; try exact I.
  all: unfold accumulated, set_accumulated; simpl; rewrite lookup_insert_eq; repeat split.
Qed.

Lemma gradient_update_accumulation i j o (closure : M Q) st :
  no_reevaluation ->
  wlp (gradient_update i j o closure) st (fun _ st' t =>
    accumulated j st' = 0%Q /\ step_batches t = [i] /\
    forward_calls t = [] /\ backward_losses t = [] /\
    accumulate_grad_batches st' = accumulate_grad_batches st).
Proof.
  intros Hnr. unfold gradient_update, model_optimizer_step. wp_steps; try exact I.
  all: match goal with
       | |- context [optimizer_step C ?w ?e ?b ?o' ?k] =>
           destruct (Hnr w e b o' k) as [w' Hw]; rewrite Hw; simpl run_step_plan
       end.
  all: wp_steps.
  all: unfold accumulated, set_accumulated; simpl; rewrite lookup_insert_eq; repeat split.
Qed.

Lemma optimizer_iteration_accumulation sb i o st c :
  no_reevaluation -> unit_ratio ->
  0 <= c < accumulate_grad_batches st ->
  (accumulated 0 st == inject_Z c)%Q ->
  wlp (optimizer_iteration sb i (0, o)) st (fun _ st' t =>
    accumulation_post sb i (accumulate_grad_batches st) c st' t /\
    accumulate_grad_batches st' = accumulate_grad_batches st).
Proof.
  intros Hnr Hunit Hc Hacc. unfold optimizer_iteration. wp_step.
  eapply wpg_mono; [apply optimizer_closure_accumulation|].
  intros loss st1 t1 (Hf & Hb & Hs & Hloss & Hacc1 & HK1). cbv beta.
  set (output := training_forward (world st) sb i 0 (hiddens st)) in *.
  assert (Hu : (efficiency_ratio output == 1)%Q) by apply Hunit.
  assert (Hq : (accumulated 0 st1 == inject_Z (c + 1))%Q).
  { rewrite Hacc1, Hacc, Hu, inject_Z_plus. reflexivity. }
  assert (Hl : (loss == out_loss output / inject_Z (accumulate_grad_batches st))%Q).
  { rewrite Hloss, Hu. field. intros H0.
    unfold Qeq in H0. simpl in H0. lia. }
  pose proof (reached_iff (accumulate_grad_batches st) c _ Hc Hq) as Hreached.
  wp_steps.
  all: try (eapply wpg_mono; [apply gradient_update_accumulation; exact Hnr|];
            intros u st2 t2 (Hacc2 & Hs2 & Hf2 & Hb2 & HK2); cbv beta).
  all: simpl in Heqb; rewrite HK1 in Heqb.
  all: change (accumulated 0 _) with (accumulated 0 st1) in Heqb.
  all: unfold accumulation_post.
  all: rewrite ?forward_calls_app, ?backward_losses_app, ?step_batches_app.
  all: simpl; rewrite ?forward_calls_app, ?backward_losses_app, ?step_batches_app.
  all: rewrite ?Hf, ?Hb, ?Hs, ?Hf2, ?Hb2, ?Hs2; simpl.
  all: rewrite Hreached in Heqb; rewrite Heqb.
  all: (split; [split; [|split; [reflexivity|]]|]); try congruence.
  all: try (eexists _, loss; repeat split; try reflexivity; exact Hl).
  all: try (simpl in HK2; congruence).
  all: try (rewrite Hacc2; apply Z.eqb_eq in Heqb; rewrite Heqb; reflexivity).
  all: change (accumulated 0 _) with (accumulated 0 st1); rewrite Hq.
  all: apply Z.eqb_neq in Heqb; rewrite Z.mod_small; [reflexivity|].
  all: destruct (Z.eq_dec (c + 1) (accumulate_grad_batches st)) as [He|Hne]; [|lia].
  all: rewrite He, Z_mod_same_full in Heqb; congruence.
Qed.

Lemma accumulation_post_frame sb i K c st1 t1 st' t :
  accumulation_post sb i K c st1 t1 ->
  accumulated 0 st' = accumulated 0 st1 ->
  forward_calls t = forward_calls t1 ->
  backward_losses t = backward_losses t1 ->
  step_batches t = step_batches t1 ->
  accumulation_post sb i K c st' t.
Proof. unfold accumulation_post. intros H -> -> -> ->. exact H. Qed.

Lemma process_batch_accumulation b i o st c :
  optimizers cfg = [o] -> truncated_bptt_steps cfg = None ->
  no_reevaluation -> unit_ratio ->
  0 <= c < accumulate_grad_batches st ->
  (accumulated 0 st == inject_Z c)%Q ->
  wlp (process_batch b i) st (fun _ st' t =>
    accumulation_post b i (accumulate_grad_batches st) c st' t).
Proof.
  intros Hopt Htb Hnr Hunit Hc Hacc.
  unfold process_batch. rewrite Htb. wp_steps.
  cbn [for_each enumerate enumerate_from]. unfold split_iteration. rewrite Hopt.
  cbn [for_each enumerate enumerate_from]. wp_steps.
  all: eapply wpg_mono;
    [apply (optimizer_iteration_accumulation b i o _ c Hnr Hunit); [exact Hc | exact Hacc]|].
  all: intros u st1 t1 [Hpost HK]; cbv beta; wp_steps.
  all: eapply accumulation_post_frame; [exact Hpost | reflexivity | ..].
  all: rewrite ?forward_calls_app, ?backward_losses_app, ?step_batches_app; simpl.
  all: now rewrite ?app_nil_r.
Qed.

Lemma run_training_batch_accumulation b i o st c :
  optimizers cfg = [o] -> truncated_bptt_steps cfg = None ->
  never_skips -> no_reevaluation -> unit_ratio ->
  0 <= c < accumulate_grad_batches st ->
  (accumulated 0 st == inject_Z c)%Q ->
  wlp (run_training_batch (Some b) i) st (fun _ st' t =>
    accumulation_post b i (accumulate_grad_batches st) c st' t).
Proof.
  intros Hopt Htb Hskip Hnr Hunit Hc Hacc.
  assert (Hinner : forall st1 : Trainer,
            accumulate_grad_batches st1 = accumulate_grad_batches st ->
            accumulated 0 st1 = accumulated 0 st ->
            wlp (process_batch b i) st1 (fun _ st' t =>
              accumulation_post b i (accumulate_grad_batches st) c st' t)).
  { intros st1 HK1 Hacc1. rewrite <- HK1.
    apply (process_batch_accumulation b i o st1 c); auto; congruence. }
  unfold run_training_batch. wp_steps; [|now apply Hinner].
  simpl. destruct (on_batch_start C (world st) b) as [[|p|[p|p|]]|] eqn:Hresp.
  all: try (eapply wpg_mono; [apply Hinner; reflexivity|];
            intros r st' t Hpost; cbv beta;
            eapply accumulation_post_frame; [exact Hpost | reflexivity..]).
  exfalso. eapply Hskip; eauto.
Qed.

Lemma training_iteration_accumulation b i o st c :
  optimizers cfg = [o] -> truncated_bptt_steps cfg = None ->
  never_skips -> no_reevaluation -> unit_ratio ->
  0 <= c < accumulate_grad_batches st ->
  (accumulated 0 st == inject_Z c)%Q ->
  wlp (training_iteration (i, Some b)) st (fun _ st' t =>
    accumulation_post b i (accumulate_grad_batches st) c st' t).
Proof.
  intros Hopt Htb Hskip Hnr Hunit Hc Hacc. unfold training_iteration. wp_steps.
  eapply wpg_mono;
    [apply (run_training_batch_accumulation b i o _ c); auto|].
  intros [[r norms] metrics] st1 t1 Hpost. cbv beta. wp_steps; try exact I.
  all: eapply accumulation_post_frame; [exact Hpost | reflexivity | ..].
  all: simpl; rewrite ?forward_calls_app, ?backward_losses_app, ?step_batches_app; simpl.
  all: now rewrite ?app_nil_r.
Qed.

Lemma batch_loop_accumulation (l : list (option Batch)) o K i st :
  optimizers cfg = [o] -> truncated_bptt_steps cfg = None ->
  never_skips -> no_reevaluation -> unit_ratio -> divisors_ok ->
  Forall is_Some l ->
  accumulate_grad_batches st = K -> 0 < K -> 0 <= i ->
  (accumulated 0 st == inject_Z (i mod K))%Q ->
  wp (for_break (enumerate_from i l) training_iteration) st
     (fun _ st' t => schedule_post K i st st' t).
Proof.
  intros Hopt Htb Hskip Hnr Hunit Hdiv Hl. revert i st.
  induction Hl as [|[b|] l Hb _ IH]; intros i st HK Hpos Hi Hacc; simpl.
  - apply wpg_ret. unfold schedule_post. simpl.
    rewrite !Z.add_0_r, range_nil by lia. repeat split; auto; constructor.
  - apply wpg_bind.
    eapply wpg_mono;
      [apply wp_and_wlp;
       [apply (training_iteration_spec i (Some b) st Hdiv); lia
       |apply (training_iteration_accumulation b i o st (i mod K)); auto;
        rewrite HK; apply Z.mod_pos_bound; exact Hpos]|].
    intros stop st1 t1 [Hspec Hpost]. cbv beta.
    destruct Hspec as (_ & HK1 & Hg1 & _ & _ & Hsteps1 & _ & _).
    rewrite HK in Hpost. destruct Hpost as (Hacc1 & Hsb1 & f & loss & Hf1 & Hidx & Hb1 & Hloss).
    rewrite Z.add_mod_idemp_l in Hacc1, Hsb1 by lia.
    assert (Hfilter : forall rest,
              step_batches t1 ++ filter (fun k => (k + 1) mod K = 0) rest
              = filter (fun k => (k + 1) mod K = 0) (i :: rest)).
    { intros rest. rewrite Hsb1, filter_cons.
      destruct (Z.eqb_spec ((i + 1) mod K) 0); case_decide; try contradiction; reflexivity. }
    destruct stop.
    + apply wpg_ret. rewrite app_nil_r. unfold schedule_post. rewrite Hsteps1. simpl.
      rewrite (range_cons i), range_nil by lia. rewrite <- Hfilter, filter_nil, app_nil_r.
      rewrite Hf1, Hb1. simpl. rewrite Hidx. repeat split; auto; lia.
    + eapply wpg_mono; [apply (IH (i + 1) st1); auto; [congruence | lia]|].
      intros u st2 t2 (Hg2 & Hidx2 & Hsb2 & Hloss2 & Hacc2). unfold schedule_post.
      rewrite steps_seen_app, forward_calls_app, backward_losses_app, step_batches_app.
      rewrite Hsteps1. simpl length.
      replace (i + Z.of_nat (S (length (steps_seen t2))))
        with (i + 1 + Z.of_nat (length (steps_seen t2))) by lia.
      rewrite (range_cons i) by lia. rewrite <- Hfilter, Hsb2, map_app, Hidx2, Hf1, Hb1.
      simpl. rewrite Hidx. repeat split; auto; lia.
  - destruct Hb as [? [=]].
Qed.

(** ** Runs that raise *)

Lemma raises_of_wlp {A} (m : M A) st :
  wlp m st (fun _ _ _ => False) -> m st = ZeroDivisionError.
Proof. unfold wpg. destruct (m st) as [[[a st'] t]|]; [tauto | reflexivity]. Qed.

Lemma set_world_set_world (w w' : World) (st : Trainer) :
  set_world w (set_world w' st) = set_world w st.
Proof. reflexivity. Qed.

(** ** A trainer without optimizers *)

Lemma split_loop_no_optimizers i (splits : list (Z * Batch)) st :
  optimizers cfg = [] ->
  wp (for_each splits (split_iteration i)) st (fun _ st' t =>
    t = [] /\ grad_norm_dic st' = grad_norm_dic st /\
    all_callback_metrics st' = all_callback_metrics st /\
    all_log_metrics st' = all_log_metrics st /\
    callback_metrics st' = callback_metrics st).
Proof.
  intros Hopt.
  apply (wpg_for_each_nil False (fun st' t =>
    t = [] /\ grad_norm_dic st' = grad_norm_dic st /\
    all_callback_metrics st' = all_callback_metrics st /\
    all_log_metrics st' = all_log_metrics st /\
    callback_metrics st' = callback_metrics st)); [now repeat split|].
  intros [s sb] st1 t1 _ (-> & Hg & Hc & Hl & Hm).
  unfold split_iteration. rewrite Hopt. cbn [enumerate enumerate_from for_each].
  wp_steps. now repeat split.
Qed.

(** ** The callback metrics *)










(** ** The loss handed to backward *)

Lemma scaling_inv_refl st : scaling_inv st st [].
Proof. now split. Qed.

Lemma scaling_inv_trans st st1 st2 t1 t2 :
  scaling_inv st st1 t1 -> scaling_inv st1 st2 t2 -> scaling_inv st st2 (t1 ++ t2).
Proof.
  intros (HK1 & Hl1) (HK2 & Hl2). unfold scaling_inv.
  rewrite backward_losses_app, forward_calls_app, map_app, Hl1, Hl2, HK2, HK1. now split.
Qed.

Ltac scaling_neutral := unfold scaling_inv; simpl; split; reflexivity.

Lemma optimizer_closure_scaling sb i j o : keeps scaling_inv (optimizer_closure sb i j o).
Proof.
  intros st. unfold optimizer_closure. wp_steps; try exact I.
  all: unfold scaling_inv, scaled_loss, efficiency_ratio; simpl; split; reflexivity.
Qed.

Lemma optimizer_iteration_scaling sb i slot :
  keeps scaling_inv (optimizer_iteration sb i slot).
Proof.
  destruct slot as [j o].
  unfold optimizer_iteration, gradient_update, model_optimizer_step.
  repeat keeps_step scaling_inv_refl scaling_inv_trans.
  all: try apply optimizer_closure_scaling; try scaling_neutral.
  all: apply keeps_run_step_plan;
    [apply scaling_inv_refl | apply scaling_inv_trans | intros; scaling_neutral
    | apply optimizer_closure_scaling].
Qed.

Lemma run_training_batch_scaling b i : keeps scaling_inv (run_training_batch b i).
Proof.
  assert (Hinner : forall b', keeps scaling_inv (process_batch b' i)).
  { intros b'. unfold process_batch.
    repeat keeps_step scaling_inv_refl scaling_inv_trans.
    all: try scaling_neutral.
    all: destruct x as [s sb]; unfold split_iteration.
    all: repeat keeps_step scaling_inv_refl scaling_inv_trans.
    all: try scaling_neutral; apply optimizer_iteration_scaling. }
  unfold run_training_batch.
  repeat keeps_step scaling_inv_refl scaling_inv_trans.
  all: try scaling_neutral; try apply Hinner.
Qed.

(** ** The running loss over a whole run *)

Lemma growth_inv_refl st : growth_inv st st [].
Proof. exists []. now rewrite app_nil_r. Qed.

Lemma growth_inv_trans st st1 st2 t1 t2 :
  growth_inv st st1 t1 -> growth_inv st1 st2 t2 -> growth_inv st st2 (t1 ++ t2).
Proof.
  intros (new1 & Hr1 & Hn1) (new2 & Hr2 & Hn2). exists (new1 ++ new2).
  rewrite Hr2, Hr1, step_batches_app, !length_app, Hn1, Hn2, app_assoc. now split.
Qed.

Ltac growth_neutral := exists []; simpl; rewrite ?app_nil_r; split; reflexivity.

Lemma optimizer_closure_growth sb i j o : keeps growth_inv (optimizer_closure sb i j o).
Proof.
  unfold optimizer_closure.
  repeat keeps_step growth_inv_refl growth_inv_trans.
  all: growth_neutral.
Qed.

Lemma gradient_update_growth i j o (closure : M Q) :
  keeps growth_inv closure -> keeps growth_inv (gradient_update i j o closure).
Proof.
  intros Hc st. unfold gradient_update, model_optimizer_step. wp_steps; try exact I.
  all: (eapply wpg_mono;
        [apply keeps_run_step_plan;
         [apply growth_inv_refl | apply growth_inv_trans | intros; growth_neutral | exact Hc]|]).
  all: intros u st1 t1 (new & Hr & Hn); cbv beta; simpl in Hr.
  all: wp_steps; simpl.
  all: exists (new ++ [batch_loss_value st1]); rewrite Hr, app_assoc; split; [reflexivity|].
  all: unfold step_batches in *; simpl; rewrite app_nil_r, length_app, Hn; simpl.
  all: rewrite Nat.add_1_r; reflexivity.
Qed.

Lemma optimizer_iteration_growth sb i slot :
  keeps growth_inv (optimizer_iteration sb i slot).
Proof.
  destruct slot as [j o]. unfold optimizer_iteration.
  repeat keeps_step growth_inv_refl growth_inv_trans.
  all: try apply optimizer_closure_growth; try growth_neutral.
  apply gradient_update_growth, optimizer_closure_growth.
Qed.

Lemma run_training_batch_growth b i : keeps growth_inv (run_training_batch b i).
Proof.
  assert (Hinner : forall b', keeps growth_inv (process_batch b' i)).
  { intros b'. unfold process_batch.
    repeat keeps_step growth_inv_refl growth_inv_trans.
    all: try growth_neutral.
    all: destruct x as [s sb]; unfold split_iteration.
    all: repeat keeps_step growth_inv_refl growth_inv_trans.
    all: try growth_neutral; apply optimizer_iteration_growth. }
  unfold run_training_batch.
  repeat keeps_step growth_inv_refl growth_inv_trans.
  all: try growth_neutral; try apply Hinner.
Qed.

Lemma run_training_epoch_growth : keeps growth_inv run_training_epoch.
Proof.
  unfold run_training_epoch.
  repeat keeps_step growth_inv_refl growth_inv_trans.
  all: try growth_neutral.
  apply (keeps_for_break _ growth_inv_refl growth_inv_trans). intros [i b].
  unfold training_iteration.
  repeat keeps_step growth_inv_refl growth_inv_trans.
  all: try growth_neutral; try apply run_training_batch_growth.
Qed.

Lemma train_growth : keeps growth_inv train.
Proof.
  unfold train.
  repeat keeps_step growth_inv_refl growth_inv_trans.
  all: try growth_neutral.
  apply (keeps_for_break _ growth_inv_refl growth_inv_trans). intros e.
  unfold train_epoch, accumulation_scheduler_on_epoch_begin, early_stopping.
  repeat keeps_step growth_inv_refl growth_inv_trans.
  all: try growth_neutral; try apply run_training_epoch_growth.
Qed.

(** ** The gradient norms *)

Lemma grad_norm_calls_app t1 t2 :
  grad_norm_calls (t1 ++ t2) = grad_norm_calls t1 ++ grad_norm_calls t2.
Proof. apply omap_app. Qed.

Lemma norms_inv_refl i st : norms_inv i st st [].
Proof.
  unfold norms_inv. simpl. repeat split; [constructor|].
  now destruct ((i mod row_log_interval cfg =? 0) && (0 <? track_grad_norm cfg)).
Qed.

Lemma norms_inv_trans i st st1 st2 t1 t2 :
  norms_inv i st st1 t1 -> norms_inv i st1 st2 t2 -> norms_inv i st st2 (t1 ++ t2).
Proof.
  intros (Hg1 & Hf1 & Hn1) (Hg2 & Hf2 & Hn2). unfold norms_inv.
  rewrite grad_norm_calls_app, step_batches_app, !length_app, Hn1, Hn2, last_app.
  repeat split.
  - rewrite Hg2, Hg1. now destruct (last (grad_norm_calls t2)).
  - apply Forall_app; auto.
  - now destruct ((i mod row_log_interval cfg =? 0) && (0 <? track_grad_norm cfg)).
Qed.

Lemma norms_inv_quiet i st st' t :
  grad_norm_dic st' = grad_norm_dic st -> grad_norm_calls t = [] -> step_batches t = [] ->
  norms_inv i st st' t.
Proof.
  intros Hg Hc Hs. unfold norms_inv. rewrite Hc, Hs, Hg. simpl.
  repeat split; [constructor|].
  now destruct ((i mod row_log_interval cfg =? 0) && (0 <? track_grad_norm cfg)).
Qed.

Ltac norms_neutral := apply norms_inv_quiet; reflexivity.

Lemma optimizer_closure_norms sb i j o : keeps (norms_inv i) (optimizer_closure sb i j o).
Proof.
  unfold optimizer_closure.
  repeat keeps_step (norms_inv_refl i) (norms_inv_trans i).
  all: norms_neutral.
Qed.

Lemma gradient_update_norms i j o (closure : M Q) :
  keeps (norms_inv i) closure -> keeps (norms_inv i) (gradient_update i j o closure).
Proof.
  intros Hc st. unfold gradient_update, model_optimizer_step. wp_steps; try exact I.
  all: (eapply wpg_mono;
        [apply keeps_run_step_plan;
         [apply norms_inv_refl | apply norms_inv_trans | intros; norms_neutral | exact Hc]|]).
  all: intros u st1 t1 (Hg & Hf & Hn); cbv beta; simpl in Hg.
  all: wp_steps; unfold norms_inv; simpl.
  all: rewrite app_nil_r.
  all: match goal with H : (_ && _) = _ |- _ => rewrite H in *; clear H end.
  all: unfold grad_norm_calls, step_batches in *; simpl.
  all: repeat split; auto.
  rewrite Hg, last_cons. now destruct (last _).
Qed.

Lemma optimizer_iteration_norms sb i slot :
  keeps (norms_inv i) (optimizer_iteration sb i slot).
Proof.
  destruct slot as [j o]. unfold optimizer_iteration.
  repeat keeps_step (norms_inv_refl i) (norms_inv_trans i).
  all: try apply optimizer_closure_norms; try norms_neutral.
  apply gradient_update_norms, optimizer_closure_norms.
Qed.

Lemma run_training_batch_norms b i st :
  wlp (run_training_batch b i) st (fun r _ t =>
    r.1.2 = default ∅ (snd <$> last (grad_norm_calls t)) /\
    Forall (fun c => c.1 = track_grad_norm cfg) (grad_norm_calls t) /\
    length (grad_norm_calls t) =
      if (i mod row_log_interval cfg =? 0) && (0 <? track_grad_norm cfg)
      then length (step_batches t) else 0%nat).
Proof.
  assert (Hloop : forall splits : list (Z * Batch),
            keeps (norms_inv i) (for_each splits (split_iteration i))).
  { intros splits. apply (keeps_for_each _ (norms_inv_refl i) (norms_inv_trans i)).
    intros [s sb]. unfold split_iteration.
    repeat keeps_step (norms_inv_refl i) (norms_inv_trans i).
    - norms_neutral.
    - apply optimizer_iteration_norms. }
  assert (Hinner : forall b' st1,
            grad_norm_dic st1 = ∅ ->
            wlp (process_batch b' i) st1 (fun r _ t =>
              r.1.2 = default ∅ (snd <$> last (grad_norm_calls t)) /\
              Forall (fun c => c.1 = track_grad_norm cfg) (grad_norm_calls t) /\
              length (grad_norm_calls t) =
                if (i mod row_log_interval cfg =? 0) && (0 <? track_grad_norm cfg)
                then length (step_batches t) else 0%nat)).
  { intros b' st1 Hnil. unfold process_batch. wp_step.
    destruct (truncated_bptt_steps cfg) as [steps|]; wp_steps.
    all: (eapply wpg_mono; [apply Hloop|]).
    all: intros u st2 t2 (Hg & Hf & Hn); cbv beta; simpl in Hg.
    all: wp_steps; simpl.
    all: unfold grad_norm_calls, step_batches in *; simpl.
    all: rewrite ?omap_app; simpl; rewrite ?app_nil_r.
    all: rewrite Hg, Hnil; repeat split; assumption. }
  unfold run_training_batch. wp_steps.
  destruct b as [b|];
    [|wp_steps; simpl; repeat split; [constructor|];
      now destruct ((i mod row_log_interval cfg =? 0) && (0 <? track_grad_norm cfg))].
  wp_steps; [|now apply Hinner].
  simpl. destruct (on_batch_start C (world st) b) as [[|p|[p|p|]]|].
  all: try (eapply wpg_mono; [apply Hinner; reflexivity|];
            intros r st' t Hr; exact Hr).
  wp_steps. simpl. repeat split; [constructor|].
  now destruct ((i mod row_log_interval cfg =? 0) && (0 <? track_grad_norm cfg)).
Qed.

(** ** How a batch ends *)

Lemma no_closing_refl st : no_closing st st [].
Proof. constructor. Qed.

Lemma no_closing_trans st st1 st2 t1 t2 :
  no_closing st st1 t1 -> no_closing st1 st2 t2 -> no_closing st st2 (t1 ++ t2).
Proof. intros H1 H2. apply Forall_app; split; assumption. Qed.

Ltac closing_neutral := unfold no_closing; forall_solve.

Lemma optimizer_closure_closing sb i j o : keeps no_closing (optimizer_closure sb i j o).
Proof.
  unfold optimizer_closure.
  repeat keeps_step no_closing_refl no_closing_trans.
  all: closing_neutral.
Qed.

Lemma optimizer_iteration_closing sb i slot : keeps no_closing (optimizer_iteration sb i slot).
Proof.
  destruct slot as [j o].
  unfold optimizer_iteration, gradient_update, model_optimizer_step.
  repeat keeps_step no_closing_refl no_closing_trans.
  all: try apply optimizer_closure_closing; try closing_neutral.
  all: apply keeps_run_step_plan;
    [apply no_closing_refl | apply no_closing_trans | intros; closing_neutral
    | apply optimizer_closure_closing].
Qed.

Lemma split_loop_closing i (splits : list (Z * Batch)) :
  keeps no_closing (for_each splits (split_iteration i)).
Proof.
  apply (keeps_for_each _ no_closing_refl no_closing_trans). intros [s sb].
  unfold split_iteration.
  repeat keeps_step no_closing_refl no_closing_trans.
  - closing_neutral.
  - apply optimizer_iteration_closing.
Qed.

Lemma process_batch_closing b i st :
  wlp (process_batch b i) st (fun _ _ t =>
    exists t0, t = t0 ++ batch_closing /\ Forall (fun ev => closing_event ev = false) t0).
Proof.
  unfold process_batch, batch_closing. wp_step.
  destruct (truncated_bptt_steps cfg) as [steps|]; wp_steps.
  all: (eapply wpg_mono; [apply split_loop_closing|]).
  all: intros u st1 t1 Hf; cbv beta; unfold no_closing in Hf.
  all: wp_steps.
  all: match goal with H : is_function_implemented cfg _ = _ |- _ => rewrite H end.
  all: rewrite ?app_nil_r.
  all: try (exists (TbpttSplitBatch b steps (tbptt_split_batch C (world st) b steps) :: t1);
            split; [reflexivity | forall_solve]).
  all: exists t1; split; [reflexivity | assumption].
Qed.

(** ** Saving the logs and logging the metrics *)

Lemma logger_saves_app t1 t2 : logger_saves (t1 ++ t2) = logger_saves t1 ++ logger_saves t2.
Proof. apply omap_app. Qed.

Lemma logged_metrics_app t1 t2 :
  logged_metrics (t1 ++ t2) = logged_metrics t1 ++ logged_metrics t2.
Proof. apply omap_app. Qed.

Lemma batch_events_no_logging t :
  Forall (fun ev => batch_event ev = true) t -> logger_saves t = [] /\ logged_metrics t = [].
Proof.
  intros H. split; apply omap_none; (eapply Forall_impl; [exact H|]).
  all: intros ev; destruct ev; simpl; congruence.
Qed.

(** ** The hooks around an epoch *)




(** ** The counters over a whole run *)

Lemma lr_steps_app t1 t2 : lr_steps (t1 ++ t2) = lr_steps t1 ++ lr_steps t2.
Proof. apply omap_app. Qed.

Lemma epoch_events_no_lr_step t :
  Forall (fun ev => epoch_event ev = true) t -> lr_steps t = [].
Proof.
  intros H. apply omap_none. eapply Forall_impl; [exact H|].
  intros ev; destruct ev; simpl; congruence.
Qed.

Lemma range_app a b c : a <= b -> b <= c -> range a b ++ range b c = range a c.
Proof.
  intros Hab Hbc. unfold range.
  replace (Z.to_nat (c - a)) with (Z.to_nat (b - a) + Z.to_nat (c - b))%nat by lia.
  rewrite seq_app, map_app. f_equal. cbn [Nat.add].
  replace (seq (Z.to_nat (b - a)) (Z.to_nat (c - b)))
    with (map (Nat.add (Z.to_nat (b - a))) (seq 0 (Z.to_nat (c - b))))
    by (rewrite <- (Nat.add_0_r (Z.to_nat (b - a))) at 2; apply fmap_add_seq).
  rewrite map_map. apply map_ext. intros k. lia.
Qed.

Lemma counters_inv_refl st : counters_inv st st [].
Proof. unfold counters_inv. simpl. rewrite range_nil by lia. repeat split; lia. Qed.

Lemma counters_inv_trans st st1 st2 t1 t2 :
  counters_inv st st1 t1 -> counters_inv st1 st2 t2 -> counters_inv st st2 (t1 ++ t2).
Proof.
  intros (Hg1 & Hb1 & Hs1) (Hg2 & Hb2 & Hs2). unfold counters_inv.
  rewrite steps_seen_app, length_app. repeat split; try lia.
  rewrite Hs1, Hs2. apply range_app; lia.
Qed.

Lemma lr_loop_spec (schedulers : list nat) st :
  wp (for_each schedulers (fun s => e <- gets current_epoch ;; call (LrSchedulerStep s e))) st
     (fun _ st' t =>
        t = map (fun s => LrSchedulerStep s (current_epoch st)) schedulers /\
        current_epoch st' = current_epoch st /\ global_step st' = global_step st /\
        total_batch_nb st' = total_batch_nb st).
Proof.
  revert st. induction schedulers as [|s l IH]; intros st; cbn [for_each].
  - wp_steps. now repeat split.
  - wp_steps. wp_use IH. destruct H as (-> & He & Hg & Hb). simpl in *.
    repeat split; assumption.
Qed.

Lemma lr_trace_observed (schedulers : list nat) e :
  let t := map (fun s => LrSchedulerStep s e) schedulers in
  lr_steps t = map (fun s => (s, e)) schedulers /\
  steps_seen t = [] /\ epochs_begun t = [].
Proof.
  induction schedulers as [|s l (Hl & Hs & He)]; simpl; [now repeat split|].
  unfold lr_steps in *. simpl. rewrite Hl. now repeat split.
Qed.

Lemma train_epoch_counters epoch_nb st :
  divisors_ok -> schedule_ok ->
  wp (train_epoch epoch_nb) st (fun _ st' t =>
    current_epoch st' = epoch_nb /\ epochs_begun t = [epoch_nb] /\
    counters_inv st st' t /\ lr_steps t = scheduler_steps epoch_nb).
Proof.
  intros Hdiv Hsched. pose proof Hdiv as (Hcv & Hvb & Hls & Hrl).
  unfold train_epoch, accumulation_scheduler_on_epoch_begin. wp_steps; try congruence.
  all: wp_use run_training_epoch_spec; try (simpl; apply Hsched).
  all: match goal with H : epoch_post _ _ _ _ _ |- _ =>
         destruct H as (He & _ & Hg & Hb & Hs & Hev & _ & _) end.
  all: simpl in He, Hg, Hb, Hs.
  all: pose proof (epoch_events_no_lr_step _ Hev) as Hlr.
  all: destruct (quiet_events _ (Forall_impl _ _ _ Hev epoch_event_quiet))
         as (_ & _ & Hbegun & _).
  all: wp_step.
  all: unfold scheduler_steps; destruct (lr_schedulers cfg) as [schedulers|].
  all: try (wp_use lr_loop_spec;
            match goal with H : _ = map _ _ /\ _ |- _ =>
              destruct H as (-> & He' & Hg' & Hb') end;
            destruct (lr_trace_observed schedulers (current_epoch st')) as (Hl1 & Hl2 & Hl3);
            cbv zeta in Hl1, Hl2, Hl3).
  all: try wp_step.
  all: unfold early_stopping; wp_steps.
  all: unfold counters_inv; simpl.
  all: rewrite ?epochs_begun_app, ?steps_seen_app, ?lr_steps_app.
  all: rewrite ?Hl1, ?Hl2, ?Hl3, ?Hlr, ?Hbegun; simpl.
  all: rewrite ?epochs_begun_app, ?steps_seen_app, ?lr_steps_app.
  all: rewrite ?Hl1, ?Hl2, ?Hl3, ?Hlr, ?Hbegun; simpl; rewrite ?app_nil_r.
  all: rewrite ?Hg', ?Hb', ?He', ?He.
  all: repeat split; try assumption; try reflexivity.
Qed.

Lemma train_loop_counters epochs st :
  divisors_ok -> schedule_ok ->
  wp (for_break epochs train_epoch) st (fun _ st' t =>
    counters_inv st st' t /\
    current_epoch st' = default (current_epoch st) (last (epochs_begun t)) /\
    lr_steps t = epochs_begun t ≫= scheduler_steps).
Proof.
  intros Hdiv Hsched. eapply wpg_mono.
  - apply (wpg_for_break_nil False
             (fun st' t => counters_inv st st' t /\
                current_epoch st' = default (current_epoch st) (last (epochs_begun t)) /\
                lr_steps t = epochs_begun t ≫= scheduler_steps)
             (fun st' t => counters_inv st st' t /\
                current_epoch st' = default (current_epoch st) (last (epochs_begun t)) /\
                lr_steps t = epochs_begun t ≫= scheduler_steps)).
    + split; [apply counters_inv_refl | now split].
    + intros e st1 t1 _ (Hc1 & He1 & Hl1).
      wp_use train_epoch_counters.
      destruct H as (He2 & Hb2 & Hc2 & Hl2).
      assert (Hgoal : counters_inv st st' (t1 ++ t) /\
                current_epoch st' = default (current_epoch st) (last (epochs_begun (t1 ++ t))) /\
                lr_steps (t1 ++ t) = epochs_begun (t1 ++ t) ≫= scheduler_steps).
      { split; [eapply counters_inv_trans; eassumption|].
        rewrite epochs_begun_app, lr_steps_app, Hb2, Hl1, Hl2, last_snoc, bind_app.
        split; [exact He2|]. simpl. now rewrite app_nil_r. }
      destruct a; exact Hgoal.
  - intros [] st' t H; exact H.
Qed.

Lemma train_counters st :
  divisors_ok -> schedule_ok ->
  wp train st (fun _ st' t =>
    counters_inv st st' t /\
    current_epoch st' = default (current_epoch st) (last (epochs_begun t)) /\
    lr_steps t = epochs_begun t ≫= scheduler_steps).
Proof.
  intros Hdiv Hsched. unfold train. wp_steps. wp_use train_loop_counters.
  destruct H as ((Hg & Hb & Hs) & He & Hl). destruct a; wp_steps.
  all: unfold counters_inv.
  all: rewrite ?steps_seen_app, ?epochs_begun_app, ?lr_steps_app; simpl.
  all: rewrite ?app_nil_r; repeat split; assumption.
Qed.

Lemma last_range a b : a < b -> last (range a b) = Some (b - 1).
Proof.
  intros H. unfold range.
  replace (Z.to_nat (b - a)) with (Z.to_nat (b - a - 1) + 1)%nat by lia.
  rewrite seq_app, map_app. simpl. rewrite last_snoc. f_equal. lia.
Qed.

(** ** How many batches an epoch runs *)

Lemma batch_loop_limit (l : list (option Batch)) i st :
  divisors_ok -> accumulate_grad_batches st <> 0 ->
  wp (for_break (enumerate_from i l) training_iteration) st (fun _ _ t =>
    skipped t = false -> fast_dev_run cfg = false ->
    length (steps_seen t)
    = Nat.min (length l) (Z.to_nat (Z.max 1 (nb_training_batches cfg + 1 - i)))).
Proof.
  intros Hdiv. revert i st.
  induction l as [|b l IH]; intros i st HK; cbn [enumerate_from for_break length].
  - apply wpg_ret. reflexivity.
  - apply wpg_bind. wp_use training_iteration_spec.
    destruct H as (_ & Hacc & _ & _ & _ & Hsteps & _ & Hstop).
    destruct a.
    + apply wpg_ret. rewrite app_nil_r, Hsteps. intros Hskip Hfast.
      rewrite Hskip, Hfast in Hstop. simpl in Hstop. symmetry in Hstop.
      apply Z.leb_le in Hstop. cbn [length]. lia.
    + wp_use IH; [congruence|].
      rewrite steps_seen_app, skipped_app, length_app, Hsteps.
      intros Hskip Hfast. apply orb_false_elim in Hskip as [Hskip1 Hskip2].
      rewrite Hskip1, Hfast in Hstop. simpl in Hstop. symmetry in Hstop.
      apply Z.leb_gt in Hstop. rewrite (H Hskip2 Hfast). cbn [length]. lia.
Qed.

Lemma batch_loop_fast (l : list (option Batch)) i st :
  fast_dev_run cfg = true -> divisors_ok -> accumulate_grad_batches st <> 0 ->
  wp (for_break (enumerate_from i l) training_iteration) st (fun _ st' t =>
    steps_seen t = match l with [] => [] | _ => [global_step st] end /\
    evaluations t = match l with [] => [] | _ => [testing cfg] end).
Proof.
  intros Hfast Hdiv HK. destruct l as [|b l]; simpl.
  - apply wpg_ret. now split.
  - apply wpg_bind. wp_use training_iteration_spec.
    destruct H as (_ & _ & _ & _ & _ & Hsteps & Hevals & Hstop).
    rewrite Hfast in Hstop, Hevals. rewrite orb_true_r in Hstop. simpl in Hstop, Hevals.
    subst a. apply wpg_ret. rewrite app_nil_r. now split.
Qed.

(** ** The threshold test of one optimizer turn *)


(** ** The loss attributes over a batch *)

Lemma replay_losses_app t1 t2 acc :
  replay_losses (t1 ++ t2) acc = replay_losses t2 (replay_losses t1 acc).
Proof.
  revert acc. induction t1 as [|ev t1 IH]; intros acc; [reflexivity|].
  destruct ev; simpl; apply IH.
Qed.

Lemma losses_inv_refl st : losses_inv st st [].
Proof.
  split; [exists []; now rewrite app_nil_r|]. split; [now split | now intros []].
Qed.

Lemma losses_inv_trans st st1 st2 t1 t2 :
  losses_inv st st1 t1 -> losses_inv st1 st2 t2 -> losses_inv st st2 (t1 ++ t2).
Proof.
  intros ((new1 & Hr1 & Hn1) & Hb1 & Ha1) ((new2 & Hr2 & Hn2) & Hb2 & Ha2).
  unfold losses_inv. rewrite step_batches_app, backward_losses_app, foldl_app.
  split; [|split].
  - exists (new1 ++ new2). rewrite Hr2, Hr1, !length_app, Hn1, Hn2, app_assoc. now split.
  - intros Hnil. apply app_eq_nil in Hnil as [Hs1 Hs2].
    destruct (Hb1 Hs1) as [Hv1 Hg1]. destruct (Hb2 Hs2) as [Hv2 Hg2].
    rewrite Hv2, Hv1, Hg2, Hg1. now split.
  - intros Hsome. destruct (step_batches t2) as [|s l] eqn:Hs2.
    + rewrite app_nil_r in Hsome. destruct (Hb2 eq_refl) as [_ Hg2].
      destruct new2; [|discriminate]. rewrite app_nil_r in Hr2.
      rewrite Hg2, Hr2. now apply Ha1.
    + now apply Ha2.
Qed.

Lemma replay_inv_refl st : replay_inv st st [].
Proof. reflexivity. Qed.

Lemma replay_inv_trans st st1 st2 t1 t2 :
  replay_inv st st1 t1 -> replay_inv st1 st2 t2 -> replay_inv st st2 (t1 ++ t2).
Proof.
  unfold replay_inv. intros H1 H2. now rewrite replay_losses_app, <- H1, <- H2.
Qed.

Lemma optimizer_iteration_losses sb i slot :
  keeps losses_inv (optimizer_iteration sb i slot).
Proof.
  destruct slot as [j o]. intros st. unfold optimizer_iteration. wp_step.
  eapply wpg_mono; [apply optimizer_closure_loss|].
  intros loss st1 t1 [(Hb1 & Hr1 & Ha1 & Hs1) Hbw]. cbv beta.
  unfold gradient_update, model_optimizer_step. wp_steps; try exact I.
  all: try (eapply wpg_mono;
            [apply (keeps_run_step_plan loss_frame);
             [apply loss_frame_refl | apply loss_frame_trans | intros; repeat split
             | intros st0; eapply wpg_mono; [apply optimizer_closure_loss|];
               intros ? ? ? [? _]; assumption]
            | intros u st2 t2 (Hb2 & Hr2 & Ha2 & Hs2); simpl in Hb2, Hr2, Ha2;
              cbv beta; wp_steps]).
  all: unfold losses_inv.
  all: rewrite ?backward_losses_app, ?step_batches_app, Hbw, Hs1; simpl.
  all: rewrite ?step_batches_app, ?Hs2; simpl.
  all: split; [|split; [|]].
  all: try (intros; discriminate).
  all: try (intros Hne; now destruct Hne).
  all: try (exists []; rewrite app_nil_r; split; [assumption | reflexivity]).
  all: try (eexists [_]; split; [rewrite Hr2, Hr1; reflexivity | reflexivity]).
  all: try (intros _; split; congruence).
  all: try (intros _; reflexivity).
Qed.

Lemma optimizer_closure_replay sb i j o st :
  wlp (optimizer_closure sb i j o) st (fun loss st' t =>
    batch_loss_value st' = batch_loss_value st /\
    running_loss st' = running_loss st /\
    forall acc, replay_losses t acc = ((acc.1 + loss)%Q, acc.2)).
Proof.
  unfold optimizer_closure. wp_steps; try exact I.
  all: repeat split.
Qed.

Lemma gradient_update_replay i j o (closure : M Q) st :
  no_reevaluation ->
  wlp (gradient_update i j o closure) st (fun _ st' t =>
    batch_loss_value st' = 0%Q /\
    running_loss st' = running_loss st ++ [batch_loss_value st] /\
    forall acc, replay_losses t acc = (0%Q, acc.2 ++ [acc.1])).
Proof.
  intros Hnr. unfold gradient_update, model_optimizer_step. wp_steps; try exact I.
  all: match goal with
       | |- context [optimizer_step C ?w ?e ?b ?o' ?k] =>
           destruct (Hnr w e b o' k) as [w' Hw]; rewrite Hw; simpl run_step_plan
       end.
  all: wp_steps.
  all: repeat split.
Qed.

Lemma optimizer_iteration_replay sb i slot :
  no_reevaluation -> keeps replay_inv (optimizer_iteration sb i slot).
Proof.
  intros Hnr. destruct slot as [j o]. intros st. unfold optimizer_iteration. wp_step.
  eapply wpg_mono; [apply optimizer_closure_replay|].
  intros loss st1 t1 (Hb1 & Hr1 & Hp1). cbv beta.
  wp_steps.
  all: try (eapply wpg_mono; [apply gradient_update_replay; exact Hnr|];
            intros u st2 t2 (Hb2 & Hr2 & Hp2); cbv beta; simpl in Hr2).
  all: unfold replay_inv.
  all: rewrite ?replay_losses_app, Hp1; simpl; rewrite ?replay_losses_app, ?Hp2; simpl.
  all: rewrite ?Hb2, ?Hr2, ?Hb1, ?Hr1; reflexivity.
Qed.

Ltac losses_neutral :=
  unfold losses_inv; simpl; split; [exists []; rewrite app_nil_r; now split|];
  split; [intros _; now split | now intros []].

Ltac replay_neutral := unfold replay_inv; reflexivity.

Lemma run_training_batch_losses b i : keeps losses_inv (run_training_batch b i).
Proof.
  assert (Hinner : forall b', keeps losses_inv (process_batch b' i)).
  { intros b'. unfold process_batch.
    repeat keeps_step losses_inv_refl losses_inv_trans.
    all: try losses_neutral.
    all: destruct x as [s sb]; unfold split_iteration.
    all: repeat keeps_step losses_inv_refl losses_inv_trans.
    all: try losses_neutral; apply optimizer_iteration_losses. }
  unfold run_training_batch.
  repeat keeps_step losses_inv_refl losses_inv_trans.
  all: try losses_neutral; try apply Hinner.
Qed.

Lemma run_training_batch_replay b i :
  no_reevaluation -> keeps replay_inv (run_training_batch b i).
Proof.
  intros Hnr.
  assert (Hinner : forall b', keeps replay_inv (process_batch b' i)).
  { intros b'. unfold process_batch.
    repeat keeps_step replay_inv_refl replay_inv_trans.
    all: try replay_neutral.
    all: destruct x as [s sb]; unfold split_iteration.
    all: repeat keeps_step replay_inv_refl replay_inv_trans.
    all: try replay_neutral; apply optimizer_iteration_replay, Hnr. }
  unfold run_training_batch.
  repeat keeps_step replay_inv_refl replay_inv_trans.
  all: try replay_neutral; try apply Hinner.
Qed.

(** ** The closures of a batch, optimizer by optimizer *)

Lemma optimizer_closure_slot sb i j o st :
  wlp (optimizer_closure sb i j o) st (fun _ _ t =>
    exists f, forward_calls t = [f] /\
              fc_batch f = sb /\ fc_batch_idx f = i /\ fc_opt_idx f = j).
Proof.
  unfold optimizer_closure. wp_steps; try exact I.
  all: eexists; repeat split.
Qed.

Lemma optimizer_iteration_slot sb i slot st :
  wlp (optimizer_iteration sb i slot) st (fun _ _ t =>
    slot_calls i sb slot (forward_calls t)).
Proof.
  destruct slot as [j o].
  set (R := fun (_ _ : Trainer) (t : list Event) =>
              Forall (fun f => fc_batch f = sb /\ fc_batch_idx f = i /\ fc_opt_idx f = j)
                (forward_calls t)).
  assert (Hrefl : forall st0, R st0 st0 []) by (intros; constructor).
  assert (Htrans : forall st0 st1 st2 t1 t2,
            R st0 st1 t1 -> R st1 st2 t2 -> R st0 st2 (t1 ++ t2)).
  { intros st0 st1 st2 t1 t2 H1 H2. unfold R. rewrite forward_calls_app.
    apply Forall_app; split; assumption. }
  assert (Hclosure : keeps R (optimizer_closure sb i j o)).
  { intros st0. eapply wpg_mono; [apply optimizer_closure_slot|].
    intros loss st1 t1 (f & Hf & H). unfold R. rewrite Hf. repeat constructor; apply H. }
  assert (Hupdate : keeps R (gradient_update i j o (optimizer_closure sb i j o))).
  { unfold gradient_update, model_optimizer_step.
    repeat keeps_step Hrefl Htrans.
    all: try (unfold R; simpl; constructor).
    apply keeps_run_step_plan; try assumption. intros; constructor. }
  destruct (optimizer_iteration sb i (j, o) st) as [[[u st'] t]|] eqn:Hrun;
    [|unfold wpg; rewrite Hrun; exact I].
  eapply wpg_of_run; [exact Hrun|].
  assert (Hall : wlp (optimizer_iteration sb i (j, o)) st (fun _ _ t0 =>
            forward_calls t0 <> [] /\ R st st t0)).
  { unfold optimizer_iteration. wp_step.
    eapply wpg_mono; [apply optimizer_closure_slot|].
    intros loss st1 t1 (f & Hf & Hsb & Hi & Hj). cbv beta. wp_steps.
    all: try (eapply wpg_mono; [apply Hupdate|]; intros u2 st2 t2 H2; cbv beta).
    all: unfold R in *; rewrite ?forward_calls_app, Hf; simpl.
    all: rewrite ?forward_calls_app; simpl.
    all: split; [discriminate|].
    all: constructor; [now repeat split|]; try assumption; constructor. }
  destruct (wlp_returned _ _ _ _ _ _ Hall Hrun) as [Hne HF].
  split; [exact Hne|]. split; [exact HF|]. intros Hnr.
  exact (wlp_returned _ _ _ _ _ _ (optimizer_iteration_one_call sb i (j, o) st Hnr) Hrun).
Qed.

Lemma split_iteration_slots i split st :
  wlp (split_iteration i split) st (fun _ _ t =>
    exists segs, forward_calls t = concat segs /\
                 Forall2 (slot_calls i split.2) (enumerate (optimizers cfg)) segs).
Proof.
  destruct split as [s sb]. unfold split_iteration. wp_steps.
  eapply wpg_mono.
  - apply (wpg_for_each_prefix True
             (fun done _ t => exists segs, forward_calls t = concat segs /\
                                           Forall2 (slot_calls i sb) done segs)).
    + exists []. split; [reflexivity | constructor].
    + intros done slot todo st1 t1 _ (segs & Hsegs & Hslots).
      eapply wpg_mono; [apply optimizer_iteration_slot|].
      intros u st2 t2 H2. cbv beta. exists (segs ++ [forward_calls t2]). split.
      * rewrite forward_calls_app, concat_app, Hsegs. simpl. now rewrite app_nil_r.
      * apply Forall2_app; [exact Hslots|]. repeat constructor; apply H2.
  - intros u st' t H. exact H.
Qed.

Lemma split_loop_slots i (splits : list Batch) st :
  wlp (for_each (enumerate splits) (split_iteration i)) st (fun _ _ t =>
    batch_calls i splits (forward_calls t)).
Proof.
  eapply wpg_mono.
  - apply (wpg_for_each_prefix True
             (fun done _ t => batch_calls i done.*2 (forward_calls t))).
    + exists []. split; [reflexivity | constructor].
    + intros done [s sb] todo st1 t1 _ (segss & Hcalls & Hsplits).
      eapply wpg_mono; [apply split_iteration_slots|].
      intros u st2 t2 (segs & Hsegs & Hslots). cbv beta.
      exists (segss ++ [segs]). split.
      * rewrite forward_calls_app, !concat_app, Hcalls, Hsegs. simpl.
        now rewrite !app_nil_r.
      * rewrite fmap_app. apply Forall2_app; [exact Hsplits|].
        repeat constructor. exact Hslots.
  - intros u st' t H. unfold enumerate in H. now rewrite enumerate_from_snd in H.
Qed.

Lemma process_batch_slots b i st :
  wlp (process_batch b i) st (fun _ _ t =>
    batch_calls i (batch_splits st b) (forward_calls t)).
Proof.
  unfold process_batch, batch_splits. wp_step.
  destruct (truncated_bptt_steps cfg) as [steps|]; wp_steps.
  all: (eapply wpg_mono; [apply split_loop_slots|]).
  all: intros u st1 t1 H1; cbv beta; wp_steps.
  all: simpl; rewrite ?forward_calls_app; simpl; rewrite ?app_nil_r; exact H1.
Qed.

Lemma run_training_batch_slots batch i st :
  wlp (run_training_batch (Some batch) i) st (fun _ _ t =>
    skipped t = false ->
    batch_calls i (batch_splits (after_batch_start st batch) batch) (forward_calls t)).
Proof.
  unfold run_training_batch, after_batch_start. wp_steps.
  - simpl. destruct (on_batch_start C (world st) batch) as [[|p|[p|p|]]|].
    all: try (eapply wpg_mono; [apply process_batch_slots|];
              intros r st' t H _; exact H).
    wp_steps. discriminate.
  - eapply wpg_mono; [apply process_batch_slots|]. intros r st' t H _. exact H.
Qed.

Lemma batch_calls_cover i splits fs split slot :
  batch_calls i splits fs ->
  split ∈ splits -> slot ∈ enumerate (optimizers cfg) ->
  exists f, f ∈ fs /\ fc_batch f = split /\ fc_opt_idx f = slot.1.
Proof.
  intros (segss & -> & Hsplits) Hsplit Hslot.
  apply list_elem_of_lookup in Hsplit as [n Hn].
  destruct (Forall2_lookup_l _ _ _ _ _ Hsplits Hn) as (segs & Hsegs & Hslots).
  apply list_elem_of_lookup in Hslot as [m Hm].
  destruct (Forall2_lookup_l _ _ _ _ _ Hslots Hm) as (seg & Hseg & Hne & Hall & _).
  destruct seg as [|f seg]; [contradiction|].
  apply Forall_cons in Hall as [(Hb & _ & Hj) _].
  exists f. split; [|now split].
  apply list_elem_of_In, in_concat. exists (f :: seg). split; [|now left].
  apply in_concat. exists segs. split.
  - apply list_elem_of_In. eapply list_elem_of_lookup_2. exact Hsegs.
  - apply list_elem_of_In. eapply list_elem_of_lookup_2. exact Hseg.
Qed.

(** ** The schedule of optimizer steps over an epoch *)

Lemma run_training_epoch_limit st :
  divisors_ok -> accumulate_grad_batches st <> 0 ->
  wp run_training_epoch st (fun _ _ t =>
    skipped t = false -> fast_dev_run cfg = false ->
    length (steps_seen t)
    = Nat.min (length (train_dataloader cfg))
              (Z.to_nat (Z.max 1 (nb_training_batches cfg + 1)))).
Proof.
  intros Hdiv HK. unfold run_training_epoch, enumerate. wp_steps.
  all: wp_use batch_loop_limit.
  all: wp_steps.
  all: simpl; rewrite ?steps_seen_app, ?skipped_app; simpl.
  all: rewrite ?app_nil_r, ?orb_false_r, ?Z.sub_0_r in *.
  all: assumption.
Qed.

Lemma run_training_epoch_schedule st :
  accumulation_setting st -> no_reevaluation ->
  wp run_training_epoch st (fun _ st' t =>
    schedule_post (accumulate_grad_batches st) 0 st st' t).
Proof.
  intros ([o Hopt] & Htb & Hunit & Hskip & Hl & Hdiv & HK & Hacc) Hnr.
  unfold run_training_epoch, enumerate. wp_steps.
  all: eapply wpg_mono;
    [apply (batch_loop_accumulation _ o (accumulate_grad_batches st) 0); auto;
     try reflexivity; try lia;
     rewrite Z.mod_0_l by lia; exact Hacc|].
  all: intros stop st1 t1 (Hg & Hidx & Hsb & Hloss & Hacc1); cbv beta; wp_steps.
  all: unfold schedule_post; simpl.
  all: rewrite ?steps_seen_app, ?forward_calls_app, ?step_batches_app,
         ?backward_losses_app; simpl.
  all: rewrite ?app_nil_r, ?Nat.add_0_r.
  all: repeat split; auto.
Qed.

(** * The properties of the training loop *)

(** C1 (as amended). At the end of an epoch the early-stop evaluator is asked
    exactly when early stopping is enabled and either the epoch is strictly
    beyond [min_nb_epochs] or [fast_dev_run] is set; [train] returns from
    inside the loop exactly when early stopping is enabled, the evaluator
    signals stop and the epoch is strictly beyond [min_nb_epochs] -- in
    [fast_dev_run] mode too, where the evaluator is asked at every epoch but
    its signal halts nothing before that epoch. *)
Theorem early_stop_needs_min_epochs epoch_nb st :
  divisors_ok -> schedule_ok ->
  exists stop st' t should_stop,
    train_epoch epoch_nb st = Ok (stop, st', t) /\
    verdicts t =
      (if enable_early_stop cfg && ((min_nb_epochs cfg <? epoch_nb) || fast_dev_run cfg)
       then [(epoch_nb, should_stop)] else []) /\
    stop = enable_early_stop cfg && should_stop && (min_nb_epochs cfg <? epoch_nb).
Proof.
  intros Hdiv Hsched.
  destruct (wp_returns _ _ _ (train_epoch_spec epoch_nb st Hdiv Hsched))
    as (stop & st' & t & Hrun & _ & _ & [v Hv] & Hstop & _).
  unfold halts in Hstop. rewrite Hv in Hstop.
  destruct (enable_early_stop cfg && ((min_nb_epochs cfg <? epoch_nb) || fast_dev_run cfg))
    eqn:Hasked.
  - exists stop, st', t, v. repeat split; auto.
    apply andb_true_iff in Hasked as [-> _]. simpl in Hstop.
    now rewrite orb_false_r in Hstop.
  - exists stop, st', t, true. repeat split; auto. simpl in Hstop. subst stop.
    destruct (enable_early_stop cfg), (min_nb_epochs cfg <? epoch_nb); simpl in *; congruence.
Qed.

(** C2. An epoch run returns as soon as no divisor is zero; the model is
    handed [global_step] once per batch turn, and the values it sees are
    consecutive from the value at the start of the epoch up to, not
    including, the value at its end, so [global_step] grows by exactly one
    per turn whatever the optimizers and the splits are.  When no batch is
    skipped, [fast_dev_run] is off and the batch limit does not cut the loop
    short, the turns are the batches of the loader. *)
Theorem global_step_counts_batches st :
  divisors_ok -> accumulate_grad_batches st <> 0 ->
  exists st' t,
    run_training_epoch st = Ok (tt, st', t) /\
    steps_seen t = range (global_step st) (global_step st') /\
    global_step st' = global_step st + Z.of_nat (length (steps_seen t)) /\
    (length (steps_seen t) <= length (train_dataloader cfg))%nat /\
    (skipped t = false -> fast_dev_run cfg = false ->
     Z.of_nat (length (train_dataloader cfg)) <= nb_training_batches cfg + 1 ->
     length (steps_seen t) = length (train_dataloader cfg)).
Proof.
  intros Hdiv HK.
  destruct (wp_returns _ _ _ (run_training_epoch_spec st Hdiv HK))
    as ([] & st' & t & Hrun & _ & _ & Hg & _ & Hsteps & _ & Hlen & Hfull).
  exists st', t. repeat split; auto.
Qed.


(** C5. After a training batch [run_evaluation] is called once when
    [fast_dev_run] is set or when [((batch_nb + 1) % val_check_batch == 0] or
    the batch was skipped by the [-1] sentinel[)] and
    [(current_epoch + 1) % check_val_every_n_epoch == 0], and not at all
    otherwise. *)
Theorem validation_gate i b st :
  divisors_ok -> accumulate_grad_batches st <> 0 ->
  exists stop st' t,
    training_iteration (i, b) st = Ok (stop, st', t) /\
    evaluations t =
      if fast_dev_run cfg
         || ((((i + 1) mod val_check_batch cfg =? 0) || skipped t)
             && ((current_epoch st + 1) mod check_val_every_n_epoch cfg =? 0))
      then [testing cfg] else [].
Proof.
  intros Hdiv HK.
  destruct (wp_returns _ _ _ (training_iteration_spec i b st Hdiv HK))
    as (stop & st' & t & Hrun & _ & _ & _ & _ & _ & _ & Hev & _).
  exists stop, st', t. split; [exact Hrun | exact Hev].
Qed.

(** C9. [train] reports success to the logger exactly when there is a logger
    and the early-stop evaluator did not halt training: then every epoch of
    [range(current_epoch, max_nb_epochs)] was begun, and the run ends with
    the progress bar closed and the logger finalized.  When the evaluator
    halts training the run ends with the progress bar closed and the logger
    is not finalized. *)
Theorem logger_success_iff_not_halted st :
  divisors_ok -> schedule_ok ->
  exists st' t,
    train st = Ok (tt, st', t) /\
    finalizations t = (if has_logger cfg && negb (halts t) then ["success"] else []) /\
    (halts t = true -> last t = Some ProgressClose) /\
    (halts t = false ->
       epochs_begun t = range (current_epoch st) (max_nb_epochs cfg) /\
       exists t0, t = t0 ++ ProgressClose ::
                        (if has_logger cfg then [LoggerFinalize "success"] else [])).
Proof.
  intros Hdiv Hsched.
  destruct (wp_returns _ _ _ (train_spec st Hdiv Hsched)) as ([] & st' & t & Hrun & H).
  exists st', t. split; [exact Hrun | exact H].
Qed.

(** C10. A batch skipped by the [-1] sentinel still advances the counters:
    the turn of the epoch loop returns, asks for the loop to be left, and
    leaves [global_step] and [total_batch_nb] each one higher. *)
Theorem skipped_batch_advances_counters b i st :
  divisors_ok ->
  is_function_implemented cfg "on_batch_start" = true ->
  on_batch_start C (world (batch_entry i st)) b = Some (-1) ->
  exists st' t,
    training_iteration (i, Some b) st = Ok (true, st', t) /\
    skipped t = true /\
    global_step st' = global_step st + 1 /\
    total_batch_nb st' = total_batch_nb st + 1.
Proof.
  intros Hdiv Himpl Hresp.
  destruct (wp_returns _ _ _ (skip_iteration_spec b i st Hdiv Himpl Hresp))
    as (stop & st' & t & Hrun & -> & Hg & Htb & _ & _ & _ & Hskip).
  exists st', t. auto.
Qed.

(** The schedule the documentation of accumulated gradients describes, when
    [model.optimizer_step] makes no call of its own.  With one optimizer, one
    split per batch, every closure reporting the efficiency ratio 1.0 and the
    accumulation counter at zero when the epoch starts, an epoch with
    [accumulate_grad_batches = K] calls the optimizer step exactly on the
    batches whose number [i + 1] is a multiple of [K], and leaves the counter
    at the number of batches run modulo [K]. *)
Theorem accumulation_schedule_without_reevaluation st :
  accumulation_setting st -> no_reevaluation -> accumulation_schedule st.
Proof.
  intros ([o Hopt] & Htb & Hunit & Hskip & Hl & Hdiv & HK & Hacc) Hnr.
  assert (Hwp : wp run_training_epoch st (fun _ st' t =>
            schedule_post (accumulate_grad_batches st) 0 st st' t)).
  { unfold run_training_epoch, enumerate. wp_steps.
    all: eapply wpg_mono;
      [apply (batch_loop_accumulation _ o (accumulate_grad_batches st) 0); auto;
       try reflexivity; try lia;
       rewrite Z.mod_0_l by lia; exact Hacc|].
    all: intros stop st1 t1 (Hg & Hidx & Hsb & Hloss & Hacc1); cbv beta; wp_steps.
    all: unfold schedule_post; simpl.
    all: rewrite ?steps_seen_app, ?forward_calls_app, ?step_batches_app,
           ?backward_losses_app; simpl.
    all: rewrite ?app_nil_r, ?Nat.add_0_r.
    all: repeat split; auto. }
  destruct (wp_returns _ _ _ Hwp) as ([] & st' & t & Hrun & Hg & Hidx & Hsb & Hloss & Hacc').
  exists st', t. split; [exact Hrun|]. cbv zeta.
  replace (global_step st' - global_step st) with (Z.of_nat (length (steps_seen t))) by lia.
  auto.
Qed.

(** C6. For a batch that is processed, the forward calls fall into one
    segment per split, in split order, each segment made of calls on that
    split's sub-batch -- exactly one call per optimizer when the optimizer
    step does not re-evaluate the closure.  The hidden state is threaded
    through the calls in the order they are made, starting from none whatever
    [self.hiddens] held before the batch: the first call of a split is handed
    what the last call of the split before it produced, and [self.hiddens]
    ends as the last call left it. *)
Theorem hidden_state_threading b i st :
  row_log_interval cfg <> 0 -> accumulate_grad_batches st <> 0 ->
  exists r st' t segs,
    process_batch b i st = Ok (r, st', t) /\
    forward_calls t = concat segs /\
    Forall2 (fun split seg =>
               Forall (fun f => fc_batch f = split /\ fc_batch_idx f = i) seg /\
               (no_reevaluation -> length seg = length (optimizers cfg)))
      (batch_splits st b) segs /\
    threaded None (forward_calls t) /\
    (forall k seg seg' f g,
       segs !! k = Some seg -> segs !! S k = Some seg' ->
       last seg = Some f -> head seg' = Some g ->
       fc_hiddens_in g = out_hiddens (fc_output f)) /\
    hiddens st' = hiddens_after None (forward_calls t).
Proof.
  intros Hrow HK.
  destruct (wp_returns _ _ _
              (wp_and_wlp _ _ _ _ (process_batch_frame b i st Hrow HK)
                 (process_batch_calls b i st)))
    as (r & st' & t & Hrun & _ & ((segs & Hsegs & Hlab) & Hthr & Hhid & _) & _).
  exists r, st', t, segs. repeat split; auto.
  intros k seg seg' f g. apply (threaded_boundary None). now rewrite <- Hsegs.
Qed.

(** C7 (as amended). Whatever the batch, the optimizers and the splits are,
    [run_training_batch] never trims [running_loss]: the list keeps every
    entry it had and gains exactly one per optimizer step taken; only the
    window [running_loss[-100:]] that [avg_loss] is the mean of holds at most
    100 values.  [batch_loss_value] is not reset without a step: when the
    batch takes no step it ends as the old value plus the losses handed to
    [backward], and [avg_loss] is left alone; when the batch takes a step
    [avg_loss] ends as the mean of the last hundred entries.  When
    [model.optimizer_step] makes no call of its own, both attributes are the
    replay of the batch's trace: each loss handed to [backward] is added to
    [batch_loss_value], and each optimizer step appends [batch_loss_value]
    to [running_loss] and resets it to 0. *)
Theorem running_loss_over_batch b i st :
  row_log_interval cfg <> 0 -> accumulate_grad_batches st <> 0 ->
  exists r st' t new,
    run_training_batch b i st = Ok (r, st', t) /\
    running_loss st' = running_loss st ++ new /\
    length new = length (step_batches t) /\
    (length (last_entries 100 (running_loss st')) <= 100)%nat /\
    (step_batches t = [] ->
     batch_loss_value st' = foldl Qplus (batch_loss_value st) (backward_losses t) /\
     avg_loss st' = avg_loss st) /\
    (step_batches t <> [] ->
     avg_loss st' = np_mean (last_entries 100 (running_loss st'))) /\
    (no_reevaluation ->
     (batch_loss_value st', running_loss st')
     = replay_losses t (batch_loss_value st, running_loss st)).
Proof.
  intros Hrow HK.
  destruct (wp_returns _ _ _
              (wp_and_wlp _ _ _ _ (run_training_batch_frame b i st Hrow HK)
                 (run_training_batch_losses b i st)))
    as (r & st' & t & Hrun & _ & (new & Hr & Hn) & Hb & Ha).
  exists r, st', t, new. repeat split; auto.
  - apply length_last_entries.
  - now apply Hb.
  - now apply Hb.
  - intros Hnr.
    exact (wlp_returned _ _ _ _ _ _ (run_training_batch_replay b i Hnr st) Hrun).
Qed.

(** C8. The log metrics [run_training_batch] returns are the dictionaries
    the closures produced, merged in the order the closures ran: a key is in
    the result exactly when some closure produced it, and it holds the value
    of the last closure that did.  The closures of a batch that is processed
    are those of its splits and optimizers: the forward calls fall into one
    group per split and in it one segment per optimizer, in processing
    order, each segment not empty (exactly one call when
    [model.optimizer_step] makes no call of its own); so for every split and
    every optimizer there is a call with that optimizer's index on that
    split, and every key it logs is a key of the result. *)
Theorem merged_log_metrics b i st :
  row_log_interval cfg <> 0 -> accumulate_grad_batches st <> 0 ->
  exists r st' t,
    run_training_batch b i st = Ok (r, st', t) /\
    r.2 = collapse (closure_logs t) /\
    (forall k : string,
       is_Some (r.2 !! k) <-> exists d, d ∈ closure_logs t /\ is_Some (d !! k)) /\
    (forall earlier d later (k : string) v,
       closure_logs t = earlier ++ d :: later ->
       d !! k = Some v ->
       Forall (fun d' : gmap string Q => d' !! k = None) later ->
       r.2 !! k = Some v) /\
    (forall batch, b = Some batch -> skipped t = false ->
       let splits := batch_splits (after_batch_start st batch) batch in
       batch_calls i splits (forward_calls t) /\
       forall split slot,
         split ∈ splits -> slot ∈ enumerate (optimizers cfg) ->
         exists f, f ∈ forward_calls t /\ fc_batch f = split /\ fc_opt_idx f = slot.1 /\
                   forall k : string,
                     is_Some (out_log (fc_output f) !! k) -> is_Some (r.2 !! k)).
Proof.
  intros Hrow HK.
  destruct (wp_returns _ _ _
              (wp_and_wlp _ _ _ _ (run_training_batch_frame b i st Hrow HK)
                 (run_training_batch_calls b i st)))
    as (r & st' & t & Hrun & _ & Hr).
  exists r, st', t. split; [exact Hrun|]. split; [exact Hr|]. rewrite Hr.
  split; [|split].
  - intros k. apply collapse_lookup_is_Some.
  - intros earlier d later k v ->. apply collapse_lookup_later.
  - intros batch -> Hskip. cbv zeta.
    pose proof (wlp_returned _ _ _ _ _ _ (run_training_batch_slots batch i st) Hrun Hskip)
      as Hcalls.
    split; [exact Hcalls|]. intros split slot Hsplit Hslot.
    destruct (batch_calls_cover _ _ _ _ _ Hcalls Hsplit Hslot) as (f & Hf & Hb & Hj).
    exists f. repeat split; auto. intros k Hk.
    apply collapse_lookup_is_Some. exists (out_log (fc_output f)). split; [|exact Hk].
    unfold closure_logs. apply list_elem_of_fmap. exists f. now split.
Qed.

(** * Further properties of the training loop *)

(** X1. When no epoch is left to run ([max_nb_epochs <= current_epoch]),
    [train] runs no epoch and computes no interval, so it returns whatever
    the intervals are: it closes the progress bar, reports success to the
    logger when there is one, and changes none of the trainer's attributes. *)
Theorem train_without_epochs st :
  max_nb_epochs cfg <= current_epoch st ->
  exists w,
    train st = Ok (tt, set_world w st,
                   ProgressClose :: (if has_logger cfg then [LoggerFinalize "success"] else [])).
Proof.
  intros Hle. unfold train, bind, gets. rewrite range_nil by lia. cbn [for_break ret].
  unfold call, when. destruct (has_logger cfg); cbn; eexists; reflexivity.
Qed.

(** X2. When an epoch is left to run and [check_val_every_n_epoch] or
    [val_check_batch] is zero, [train] raises [ZeroDivisionError]: the first
    epoch computes [(current_epoch + 1) % check_val_every_n_epoch] and
    [nb_training_batches // val_check_batch] before it runs any batch. *)
Theorem train_zero_interval_raises st :
  current_epoch st < max_nb_epochs cfg ->
  check_val_every_n_epoch cfg = 0 \/ val_check_batch cfg = 0 ->
  train st = ZeroDivisionError.
Proof.
  intros Hlt Hzero. apply raises_of_wlp. unfold train. wp_steps.
  rewrite range_cons by lia. cbn [for_break]. wp_step. unfold train_epoch.
  repeat (wp_step; try exact I); destruct Hzero; congruence.
Qed.

(** X3. One turn of the epoch loop returns exactly when none of
    [val_check_batch], [check_val_every_n_epoch], [log_save_interval] and
    [row_log_interval] is zero: the four remainders are computed in every
    turn, also for a skipped or an empty batch and in [fast_dev_run] mode. *)
Theorem iteration_returns_iff_divisors i b st :
  accumulate_grad_batches st <> 0 ->
  (exists stop st' t, training_iteration (i, b) st = Ok (stop, st', t)) <-> divisors_ok.
Proof.
  intros HK. split.
  - intros (stop & st' & t & Hrun).
    destruct (Z.eq_dec (check_val_every_n_epoch cfg) 0) as [H1|H1];
      [|destruct (Z.eq_dec (val_check_batch cfg) 0) as [H2|H2];
        [|destruct (Z.eq_dec (log_save_interval cfg) 0) as [H3|H3];
          [|destruct (Z.eq_dec (row_log_interval cfg) 0) as [H4|H4];
            [|now repeat split]]]].
    all: exfalso; cut (training_iteration (i, b) st = ZeroDivisionError);
      [congruence|].
    all: apply raises_of_wlp; unfold training_iteration; wp_steps.
    all: (eapply wpg_mono; [apply run_training_batch_calls|]).
    all: intros [[r norms] metrics] st1 t1 _; cbv beta.
    all: repeat (wp_step; try exact I); congruence.
  - intros Hdiv.
    destruct (wp_returns _ _ _ (training_iteration_spec i b st Hdiv HK))
      as (stop & st' & t & Hrun & _).
    eauto.
Qed.

(** X4. A turn of the epoch loop on a batch that is [None] makes no
    batch-level call at all (no hook, no forward or backward call, no update
    of the progress bar) and leaves [hiddens], [callback_metrics],
    [running_loss], [batch_loss_value] and the accumulation counters as they
    were; it still counts as a turn ([global_step] and [total_batch_nb] grow
    by one) and it does not end the epoch unless [fast_dev_run] is set or the
    batch limit is met. *)
Theorem empty_batch_turn i st :
  divisors_ok ->
  exists stop st' t,
    training_iteration (i, None) st = Ok (stop, st', t) /\
    Forall (fun ev => batch_event ev = false) t /\
    hiddens st' = hiddens st /\
    callback_metrics st' = callback_metrics st /\
    running_loss st' = running_loss st /\
    batch_loss_value st' = batch_loss_value st /\
    opt_idx_to_accumulate_grad_batches st' = opt_idx_to_accumulate_grad_batches st /\
    global_step st' = global_step st + 1 /\
    total_batch_nb st' = total_batch_nb st + 1 /\
    stop = fast_dev_run cfg || (nb_training_batches cfg <=? i).
Proof.
  intros (Hcv & Hvb & Hls & Hrl). apply wp_returns.
  unfold training_iteration, run_training_batch.
  wp_steps; try congruence.
  all: cbn [Z.eqb orb] in *; simpl; repeat split; forall_solve.
  all: try match goal with H : fast_dev_run cfg = _ |- _ => rewrite H end.
  all: try match goal with H : (_ <=? _) = _ |- _ => rewrite H end.
  all: reflexivity.
Qed.

(** X5. With an empty list of optimizers [run_training_batch] returns for
    every batch, whatever the accumulation threshold and the intervals are:
    it makes no forward, backward or optimizer-step call, returns empty
    gradient norms and empty log metrics, and leaves [callback_metrics] as
    it was. *)
Theorem batch_without_optimizers b i st :
  optimizers cfg = [] ->
  exists r st' t,
    run_training_batch b i st = Ok (r, st', t) /\
    r.1.2 = ∅ /\ r.2 = ∅ /\
    forward_calls t = [] /\ backward_losses t = [] /\ step_batches t = [] /\
    callback_metrics st' = callback_metrics st.
Proof.
  intros Hopt. apply wp_returns.
  assert (Hinner : forall b' st1,
            grad_norm_dic st1 = ∅ -> all_callback_metrics st1 = [] ->
            all_log_metrics st1 = [] -> callback_metrics st1 = callback_metrics st ->
            wp (process_batch b' i) st1 (fun r st' t =>
              r.1.2 = ∅ /\ r.2 = ∅ /\
              forward_calls t = [] /\ backward_losses t = [] /\ step_batches t = [] /\
              callback_metrics st' = callback_metrics st)).
  { intros b' st1 Hg Hc Hl Hm. unfold process_batch. wp_step.
    destruct (truncated_bptt_steps cfg) as [steps|]; wp_steps.
    all: (eapply wpg_mono; [apply split_loop_no_optimizers; exact Hopt|]).
    all: intros u st2 t2 (-> & Hg2 & Hc2 & Hl2 & Hm2); cbv beta; simpl in Hg2, Hc2, Hl2, Hm2.
    all: wp_steps; simpl.
    all: rewrite Hg2, Hc2, Hl2, Hm2, Hg, Hc, Hl, Hm.
    all: repeat split; apply (left_id ∅ (∪)). }
  unfold run_training_batch. wp_steps.
  destruct b as [b|]; [|wp_steps; now repeat split].
  wp_steps; [|now apply Hinner].
  simpl. destruct (on_batch_start C (world st) b) as [[|p|[p|p|]]|].
  all: try (eapply wpg_mono; [apply Hinner; reflexivity|];
            intros r st' t Hr; cbv beta; simpl;
            destruct Hr as (? & ? & ? & ? & ? & ?); now repeat split).
  wp_steps. now repeat split.
Qed.

(** X6. With [accumulate_grad_batches = 0], at least one optimizer and no
    truncated back-propagation, processing a batch raises
    [ZeroDivisionError] in the first closure, at
    [batch_loss_efficiency_ratio / self.accumulate_grad_batches], when the
    forward call reports no efficiency ratio (the ratio is then the float
    [1.0]). *)
Theorem zero_accumulation_raises b i st o opts :
  accumulate_grad_batches st = 0 ->
  optimizers cfg = o :: opts ->
  truncated_bptt_steps cfg = None ->
  out_callback (training_forward (world st) b i 0 None) !! "batch_loss_efficiency_ratio" = None ->
  process_batch b i st = ZeroDivisionError.
Proof.
  intros HK Hopt Htb Hratio. apply raises_of_wlp.
  unfold process_batch. rewrite Htb. wp_steps.
  cbn [enumerate enumerate_from for_each]. wp_step.
  unfold split_iteration. wp_steps. rewrite Hopt.
  cbn [enumerate enumerate_from for_each]. wp_step.
  unfold optimizer_iteration, optimizer_closure.
  repeat (wp_step; try exact I;
          try match goal with H : _ <> 0 |- _ => simpl in H; congruence end).
Qed.

(** X7. With at most one optimizer and no truncated back-propagation,
    [training_forward] passes neither the optimizer index nor the hidden
    state to the model: its result does not depend on them, in any of the
    distributed, single-GPU and CPU modes. *)
Theorem training_forward_ignores_unused w batch i j j' h h' :
  (length (optimizers cfg) <= 1)%nat ->
  truncated_bptt_steps cfg = None ->
  training_forward w batch i j h = training_forward w batch i j' h'.
Proof.
  intros Hopt Htb. unfold training_forward, forward_args. rewrite Htb.
  destruct (Z.ltb_spec 1 (Z.of_nat (length (optimizers cfg)))); [lia | reflexivity].
Qed.


(** X9. Every loss handed to [backward] during a batch is the loss of the
    forward call before it times [batch_loss_efficiency_ratio /
    accumulate_grad_batches], computed in that order, for any number of
    optimizers and splits and also for the closures [model.optimizer_step]
    evaluates; the forward calls of a processed batch are one segment per
    split and optimizer, none of them empty. *)
Theorem backward_loss_scaling b i st :
  row_log_interval cfg <> 0 -> accumulate_grad_batches st <> 0 ->
  exists r st' t,
    run_training_batch b i st = Ok (r, st', t) /\
    backward_losses t = map (scaled_loss (accumulate_grad_batches st)) (forward_calls t) /\
    (forall batch, b = Some batch -> skipped t = false ->
       batch_calls i (batch_splits (after_batch_start st batch) batch) (forward_calls t)).
Proof.
  intros Hrow HK.
  destruct (wp_returns _ _ _
              (wp_and_wlp _ _ _ _ (run_training_batch_frame b i st Hrow HK)
                 (run_training_batch_scaling b i st)))
    as (r & st' & t & Hrun & _ & _ & Hl).
  exists r, st', t. split; [exact Hrun|]. split; [exact Hl|].
  intros batch -> Hskip.
  exact (wlp_returned _ _ _ _ _ _ (run_training_batch_slots batch i st) Hrun Hskip).
Qed.



(** X12. A batch that is processed ends with the batch-end hook (when the
    model implements it), one update of the progress bar by 1 and the
    progress bar's postfix, in this order, and makes none of these calls
    before; a batch that is [None] or skipped by the batch-start hook makes
    none of them. *)
Theorem batch_closing_calls b i st :
  row_log_interval cfg <> 0 -> accumulate_grad_batches st <> 0 ->
  exists r st' t,
    run_training_batch b i st = Ok (r, st', t) /\
    if bool_decide (is_Some b) && negb (skipped t)
    then exists t0, t = t0 ++ batch_closing /\
                    Forall (fun ev => closing_event ev = false) t0
    else Forall (fun ev => closing_event ev = false) t.
Proof.
  intros Hrow HK. apply wp_returns.
  assert (Hinner : forall b' st1,
            accumulate_grad_batches st1 = accumulate_grad_batches st ->
            wp (process_batch b' i) st1 (fun r _ t =>
              skipped t = false /\
              exists t0, t = t0 ++ batch_closing /\
                         Forall (fun ev => closing_event ev = false) t0)).
  { intros b' st1 HK1. eapply wpg_mono.
    - apply wp_and_wlp; [apply process_batch_frame; congruence|apply process_batch_closing].
    - intros r st' t ((_ & _ & Hs) & Ht). auto. }
  unfold run_training_batch. wp_steps.
  destruct b as [b|]; [|wp_steps; constructor].
  rewrite bool_decide_eq_true_2 by eauto. cbn [andb].
  wp_steps.
  - simpl. destruct (on_batch_start C (world st) b) as [[|p|[p|p|]]|].
    all: try (eapply wpg_mono; [apply Hinner; reflexivity|];
              intros r st' t (Hs & t0 & -> & Hf); cbv beta;
              cbn [skipped existsb orb] in *; rewrite Hs; cbn [negb];
              eexists (_ :: t0); split; [reflexivity | forall_solve]).
    wp_steps. cbn. forall_solve.
  - eapply wpg_mono; [apply Hinner; reflexivity|].
    intros r st' t (Hs & t0 & -> & Hf). cbv beta. rewrite Hs. cbn [negb].
    exists t0. split; [reflexivity | assumption].
Qed.

(** X13. In a turn of the epoch loop [logger.save] is called once when
    [(batch_nb + 1) % log_save_interval == 0], the batch was skipped or
    [fast_dev_run] is set, and the process has rank 0 and a logger, and not
    otherwise; [log_metrics] is called once when
    [batch_nb % row_log_interval == 0], the batch was skipped or
    [fast_dev_run] is set, and not otherwise, with the merged log metrics
    of the batch's closures and the gradient norms of the batch. *)
Theorem logging_gates i b st :
  divisors_ok -> accumulate_grad_batches st <> 0 ->
  exists stop st' t,
    training_iteration (i, b) st = Ok (stop, st', t) /\
    logger_saves t =
      (if ((((i + 1) mod log_save_interval cfg =? 0) || skipped t) || fast_dev_run cfg)
          && ((proc_rank cfg =? 0) && has_logger cfg)
       then [tt] else []) /\
    logged_metrics t =
      (if ((i mod row_log_interval cfg =? 0) || skipped t) || fast_dev_run cfg
       then [(collapse (closure_logs t), default ∅ (snd <$> last (grad_norm_calls t)))]
       else []).
Proof.
  intros (Hcv & Hvb & Hls & Hrl) HK. apply wp_returns.
  unfold training_iteration. wp_steps.
  eapply wpg_mono.
  { apply wp_and_wlp; [apply wp_and_wlp|].
    - apply run_training_batch_frame; [exact Hrl | exact HK].
    - apply run_training_batch_calls.
    - apply run_training_batch_norms. }
  intros [[r norms] metrics] st1 t1 (((Hf & Hr) & Hm) & Hn & _). cbv beta. cbn [app].
  simpl in Hr, Hm, Hn. destruct Hf as (_ & _ & _ & _ & Hev).
  destruct (batch_events_no_logging _ Hev) as [Hsaves Hlogged].
  wp_steps; try congruence.
  all: match goal with
       | |- context [ModelSetGlobalStep ?g :: ?t] =>
           change (ModelSetGlobalStep g :: t) with ([ModelSetGlobalStep g] ++ t)
       end.
  all: rewrite ?logger_saves_app, ?logged_metrics_app, ?closure_logs_app,
         ?grad_norm_calls_app, ?skipped_app, Hsaves, Hlogged, <- Hr.
  all: simpl; rewrite ?app_nil_r, ?orb_false_r, <- ?Hm, <- ?Hn.
  all: repeat match goal with
              | H : _ = true |- _ => rewrite H
              | H : _ = false |- _ => rewrite H
              end.
  all: split; reflexivity.
Qed.


(** X15. With [fast_dev_run] off and no batch skipped, an epoch runs
    [min(len(loader), max(1, nb_training_batches + 1))] turns: the limit
    [batch_nb >= nb_training_batches] is tested after the batch has run, so
    a loader longer than [nb_training_batches] gets one batch more than
    [nb_training_batches]. *)
Theorem batch_limit_bound st :
  divisors_ok -> accumulate_grad_batches st <> 0 ->
  exists st' t,
    run_training_epoch st = Ok (tt, st', t) /\
    (skipped t = false -> fast_dev_run cfg = false ->
     length (steps_seen t)
     = Nat.min (length (train_dataloader cfg))
               (Z.to_nat (Z.max 1 (nb_training_batches cfg + 1)))).
Proof.
  intros Hdiv HK.
  assert (Hwp : wp run_training_epoch st (fun _ _ t =>
            skipped t = false -> fast_dev_run cfg = false ->
            length (steps_seen t)
            = Nat.min (length (train_dataloader cfg))
                      (Z.to_nat (Z.max 1 (nb_training_batches cfg + 1))))).
  { unfold run_training_epoch, enumerate. wp_steps.
    all: wp_use batch_loop_limit.
    all: wp_steps.
    all: simpl; rewrite ?steps_seen_app, ?skipped_app; simpl.
    all: rewrite ?app_nil_r, ?orb_false_r, ?Z.sub_0_r in *.
    all: assumption. }
  destruct (wp_returns _ _ _ Hwp) as ([] & st' & t & Hrun & H).
  exists st', t. auto.
Qed.

(** X16. In [fast_dev_run] mode an epoch runs exactly one turn of the loop
    (none when the loader is empty) and calls [run_evaluation] exactly once
    after it. *)
Theorem fast_dev_run_one_batch st :
  fast_dev_run cfg = true -> divisors_ok -> accumulate_grad_batches st <> 0 ->
  exists st' t,
    run_training_epoch st = Ok (tt, st', t) /\
    steps_seen t = match train_dataloader cfg with [] => [] | _ => [global_step st] end /\
    evaluations t = match train_dataloader cfg with [] => [] | _ => [testing cfg] end.
Proof.
  intros Hfast Hdiv HK.
  assert (Hwp : wp run_training_epoch st (fun _ _ t =>
            steps_seen t = match train_dataloader cfg with [] => [] | _ => [global_step st] end /\
            evaluations t = match train_dataloader cfg with [] => [] | _ => [testing cfg] end)).
  { unfold run_training_epoch, enumerate. wp_steps.
    all: wp_use batch_loop_fast.
    all: wp_steps.
    all: simpl; rewrite ?steps_seen_app, ?evaluations_app; simpl.
    all: rewrite ?app_nil_r.
    all: assumption. }
  destruct (wp_returns _ _ _ Hwp) as ([] & st' & t & Hrun & H).
  exists st', t. auto.
Qed.

(** X17. Over a whole run of [train], [running_loss] keeps every entry it
    had and gains exactly one entry per optimizer step taken, in any number
    of epochs. *)
Theorem running_loss_grows_by_steps st :
  divisors_ok -> schedule_ok ->
  exists st' t new,
    train st = Ok (tt, st', t) /\
    running_loss st' = running_loss st ++ new /\
    length new = length (step_batches t).
Proof.
  intros Hdiv Hsched.
  destruct (wp_returns _ _ _
              (wp_and_wlp _ _ _ _ (train_spec st Hdiv Hsched) (train_growth st)))
    as ([] & st' & t & Hrun & _ & new & Hr & Hn).
  exists st', t, new. auto.
Qed.

(** X18. Over a whole run of [train], [global_step] and [total_batch_nb]
    each grow by the number of turns of the epoch loop, and the model is
    handed consecutive values of [global_step], from the value at the start
    up to, not including, the value at the end: neither counter starts again
    with a new epoch.  When the early-stop callback does not halt the run,
    the epochs run are those of [range(current_epoch, max_nb_epochs)]. *)
Theorem global_step_over_run st :
  divisors_ok -> schedule_ok ->
  exists st' t,
    train st = Ok (tt, st', t) /\
    global_step st' = global_step st + Z.of_nat (length (steps_seen t)) /\
    total_batch_nb st' = total_batch_nb st + Z.of_nat (length (steps_seen t)) /\
    steps_seen t = range (global_step st) (global_step st') /\
    (halts t = false -> epochs_begun t = range (current_epoch st) (max_nb_epochs cfg)).
Proof.
  intros Hdiv Hsched.
  destruct (wp_returns _ _ _
              (wpg_and _ _ _ _ _ (train_spec st Hdiv Hsched) (train_counters st Hdiv Hsched)))
    as ([] & st' & t & Hrun & (_ & _ & Hfull) & (Hg & Hb & Hs) & _).
  exists st', t. repeat split; auto. intros Hh. now destruct (Hfull Hh).
Qed.

(** X19. After [train], [current_epoch] is the last epoch that was begun (it
    is left alone when none was): when the early-stop callback does not halt
    the run and an epoch was left to run, it ends at [max_nb_epochs - 1]. *)
Theorem current_epoch_after_train st :
  divisors_ok -> schedule_ok ->
  exists st' t,
    train st = Ok (tt, st', t) /\
    current_epoch st' = default (current_epoch st) (last (epochs_begun t)) /\
    (halts t = false -> current_epoch st < max_nb_epochs cfg ->
     current_epoch st' = max_nb_epochs cfg - 1).
Proof.
  intros Hdiv Hsched.
  destruct (wp_returns _ _ _
              (wpg_and _ _ _ _ _ (train_spec st Hdiv Hsched) (train_counters st Hdiv Hsched)))
    as ([] & st' & t & Hrun & (_ & _ & Hfull) & _ & He & _).
  exists st', t. repeat split; auto.
  intros Hh Hlt. destruct (Hfull Hh) as [Hb _].
  now rewrite He, Hb, last_range.
Qed.

(** X20. Every learning-rate scheduler is stepped exactly once per epoch
    begun, in the order of [lr_schedulers] and with that epoch's number,
    also in the epoch at whose end the early-stop callback halts the run. *)
Theorem lr_schedulers_step_every_epoch st :
  divisors_ok -> schedule_ok ->
  exists st' t,
    train st = Ok (tt, st', t) /\
    lr_steps t = epochs_begun t ≫= scheduler_steps /\
    (halts t = false -> epochs_begun t = range (current_epoch st) (max_nb_epochs cfg)).
Proof.
  intros Hdiv Hsched.
  destruct (wp_returns _ _ _
              (wpg_and _ _ _ _ _ (train_spec st Hdiv Hsched) (train_counters st Hdiv Hsched)))
    as ([] & st' & t & Hrun & (_ & _ & Hfull) & _ & _ & Hl).
  exists st', t. repeat split; auto. intros Hh. now destruct (Hfull Hh).
Qed.

(** X21. The schedule the documentation of accumulated gradients describes,
    when [model.optimizer_step] makes no call of its own: with one optimizer,
    one split per batch, every batch there and none skipped, every closure
    reporting the efficiency ratio 1.0 and the accumulation counter at zero
    when the epoch starts, an epoch with [accumulate_grad_batches = K] makes
    one forward call per batch turn, takes an optimizer step exactly on the
    turns whose number [i + 1] is a multiple of [K], and leaves the counter
    at the number of turns modulo [K]; with [fast_dev_run] off the turns are
    the first [min(len(loader), max(1, nb_training_batches + 1))] batches
    of the loader. *)
Theorem steps_every_k_batches st :
  accumulation_setting st -> no_reevaluation ->
  exists st' t,
    run_training_epoch st = Ok (tt, st', t) /\
    let K := accumulate_grad_batches st in
    let n := Z.of_nat (length (steps_seen t)) in
    map fc_batch_idx (forward_calls t) = range 0 n /\
    step_batches t = filter (fun i => (i + 1) mod K = 0) (range 0 n) /\
    (accumulated 0 st' == inject_Z (n mod K))%Q /\
    (skipped t = false -> fast_dev_run cfg = false ->
     length (steps_seen t)
     = Nat.min (length (train_dataloader cfg))
               (Z.to_nat (Z.max 1 (nb_training_batches cfg + 1)))).
Proof.
  intros Hset Hnr. pose proof Hset as (_ & _ & _ & _ & _ & Hdiv & HK & _).
  assert (HK' : accumulate_grad_batches st <> 0) by lia.
  destruct (wp_returns _ _ _
              (wpg_and _ _ _ _ _ (run_training_epoch_schedule st Hset Hnr)
                 (run_training_epoch_limit st Hdiv HK')))
    as ([] & st' & t & Hrun & (Hg & Hidx & Hsb & _ & Hacc) & Hlim).
  exists st', t. split; [exact Hrun|]. cbv zeta. auto.
Qed.

End TrainLoop.

(** * The properties on the small concrete model *)

Lemma demo_divisors_ok fast min_epochs tbptt opts loader hooks :
  divisors_ok (demo_config fast min_epochs tbptt opts loader hooks).
Proof. repeat split; discriminate. Defined.

Lemma demo_schedule_ok response reevaluate : schedule_ok (demo_model response reevaluate).
Proof. intros w epoch k. simpl. lia. Defined.

(** C1, counterexample: in [fast_dev_run] mode with early stopping enabled
    and [min_nb_epochs = 1], the evaluator signals stop at the end of epochs
    0 and 1, and training does not halt: both epochs are run and the logger
    is told of success. *)
Lemma fast_dev_run_stop_signal_ignored :
  let cfg := demo_config true 1 None [0%nat] four_batches no_hooks in
  fast_dev_run cfg = true /\ enable_early_stop cfg = true /\
  exists st' t,
    train (demo_model None false) cfg (fresh_trainer 1) = Ok (tt, st', t) /\
    verdicts t = [(0, true); (1, true)] /\
    epochs_begun t = [0; 1] /\
    finalizations t = ["success"].
Proof.
  cbv zeta. split; [reflexivity|]. split; [reflexivity|].
  eexists _, _. split; [vm_compute; reflexivity|].
  repeat split; vm_compute; reflexivity.
Qed.

(** C1 on the small model: epoch 0 of a [fast_dev_run] run with [min_nb_epochs = 1]. *)
Lemma early_stop_needs_min_epochs_witness :
  let cfg := demo_config true 1 None [0%nat] four_batches no_hooks in
  exists stop st' t should_stop,
    train_epoch (demo_model None false) cfg 0 (fresh_trainer 1) = Ok (stop, st', t) /\
    verdicts t =
      (if enable_early_stop cfg && ((min_nb_epochs cfg <? 0) || fast_dev_run cfg)
       then [(0, should_stop)] else []) /\
    stop = enable_early_stop cfg && should_stop && (min_nb_epochs cfg <? 0).
Proof.
  exact (early_stop_needs_min_epochs (demo_model None false) _ 0 (fresh_trainer 1)
           (demo_divisors_ok _ _ _ _ _ _) (demo_schedule_ok _ _)).
Defined.

(** C2 on the small model: four batches, two optimizers, two splits per batch. *)
Lemma global_step_counts_batches_witness :
  let C := demo_model None false in
  let cfg := demo_config false 1 (Some 2) [0; 1]%nat four_batches no_hooks in
  let st := fresh_trainer 2 in
  exists st' t,
    run_training_epoch C cfg st = Ok (tt, st', t) /\
    steps_seen t = range (global_step st) (global_step st') /\
    global_step st' = global_step st + Z.of_nat (length (steps_seen t)) /\
    (length (steps_seen t) <= length (train_dataloader cfg))%nat /\
    (skipped t = false -> fast_dev_run cfg = false ->
     Z.of_nat (length (train_dataloader cfg)) <= nb_training_batches cfg + 1 ->
     length (steps_seen t) = length (train_dataloader cfg)).
Proof.
  refine (global_step_counts_batches (demo_model None false) _ (fresh_trainer 2)
            (demo_divisors_ok _ _ _ _ _ _) _).
  simpl. lia.
Defined.

Lemma demo_unit_ratio response reevaluate fast min_epochs tbptt opts loader hooks :
  unit_ratio (demo_model response reevaluate)
    (demo_config fast min_epochs tbptt opts loader hooks).
Proof.
  intros w sb i j h. unfold efficiency_ratio, training_forward, forward_args. simpl.
  destruct (1 <? Z.of_nat (length opts)), tbptt; reflexivity.
Defined.

Lemma demo_accumulation_setting reevaluate :
  accumulation_setting (demo_model None reevaluate)
    (demo_config false 1 None [0%nat] four_batches no_hooks) (fresh_trainer 2).
Proof.
  split; [exists 0%nat; reflexivity|]. split; [reflexivity|].
  split; [apply demo_unit_ratio|]. split; [intros _ w b; discriminate|].
  split; [repeat constructor; eexists; reflexivity|].
  split; [apply demo_divisors_ok|]. split; [simpl; lia | reflexivity].
Defined.

(** C3. The code where it departs from the claim: in the setting the claim
    names (one optimizer, one split per batch, efficiency ratio 1.0, counter
    at zero), with [accumulate_grad_batches = 2], four batches and a
    [model.optimizer_step] that evaluates the closure it is handed once, the
    steps fall on batches 2, 3 and 4 (indices 1, 2, 3), not on batches 2 and
    4, and the counter ends at 1, not at 0: the closure evaluated inside the
    step raises the counter that the line before the step had reset. *)
Lemma reevaluated_closure_shifts_schedule :
  let C := demo_model None true in
  let cfg := demo_config false 1 None [0%nat] four_batches no_hooks in
  accumulation_setting C cfg (fresh_trainer 2) /\
  (exists st' t, run_training_epoch C cfg (fresh_trainer 2) = Ok (tt, st', t) /\
                 step_batches t = [1; 2; 3] /\
                 steps_seen t = [0; 1; 2; 3] /\
                 (accumulated 0 st' == 1)%Q) /\
  ~ accumulation_schedule C cfg (fresh_trainer 2).
Proof.
  cbv zeta. split; [apply demo_accumulation_setting|]. split.
  - eexists _, _. split; [vm_compute; reflexivity|].
    repeat split; vm_compute; reflexivity.
  - intros (st' & t & Hrun & H). vm_compute in Hrun.
    injection Hrun as <- <-. destruct H as (_ & Hsteps & _).
    vm_compute in Hsteps. discriminate.
Qed.

(** The schedule on the small model when the optimizer step makes no call of
    its own: four batches with [accumulate_grad_batches = 2]. *)
Lemma accumulation_schedule_without_reevaluation_witness :
  accumulation_schedule (demo_model None false)
    (demo_config false 1 None [0%nat] four_batches no_hooks) (fresh_trainer 2).
Proof.
  apply accumulation_schedule_without_reevaluation.
  - apply demo_accumulation_setting.
  - intros w epoch i o j. exists w. reflexivity.
Defined.


(** C5 on the small model: the second batch of an epoch with [val_check_batch = 2]. *)
Lemma validation_gate_witness :
  let C := demo_model None false in
  let cfg := demo_config false 1 None [0%nat] four_batches no_hooks in
  let st := fresh_trainer 1 in
  exists stop st' t,
    training_iteration C cfg (1, Some 2%nat) st = Ok (stop, st', t) /\
    evaluations t =
      if fast_dev_run cfg
         || ((((1 + 1) mod val_check_batch cfg =? 0) || skipped t)
             && ((current_epoch st + 1) mod check_val_every_n_epoch cfg =? 0))
      then [testing cfg] else [].
Proof.
  refine (validation_gate (demo_model None false) _ 1 (Some 2%nat) (fresh_trainer 1)
            (demo_divisors_ok _ _ _ _ _ _) _).
  simpl. lia.
Defined.

(** C6 on the small model: a batch of two splits and two optimizers. *)
Lemma hidden_state_threading_witness :
  let C := demo_model None false in
  let cfg := demo_config false 1 (Some 2) [0; 1]%nat four_batches no_hooks in
  let st := fresh_trainer 1 in
  exists r st' t segs,
    process_batch C cfg 5%nat 0 st = Ok (r, st', t) /\
    forward_calls t = concat segs /\
    Forall2 (fun split seg =>
               Forall (fun f => fc_batch f = split /\ fc_batch_idx f = 0) seg /\
               (no_reevaluation C -> length seg = length (optimizers cfg)))
      (batch_splits C cfg st 5%nat) segs /\
    threaded None (forward_calls t) /\
    (forall k seg seg' f g,
       segs !! k = Some seg -> segs !! S k = Some seg' ->
       last seg = Some f -> head seg' = Some g ->
       fc_hiddens_in g = out_hiddens (fc_output f)) /\
    hiddens st' = hiddens_after None (forward_calls t).
Proof.
  refine (hidden_state_threading (demo_model None false) _ 5%nat 0 (fresh_trainer 1) _ _);
    simpl; lia.
Defined.

(** C7, counterexample: with [accumulate_grad_batches = 1] every batch takes
    an optimizer step, and after an epoch of 101 batches [running_loss],
    empty at the start, holds 101 values. *)
Lemma running_loss_grows_past_100 :
  let cfg := demo_config false 1 None [0%nat] (replicate 101 (Some 1%nat)) no_hooks in
  exists st' t,
    run_training_epoch (demo_model None false) cfg (fresh_trainer 1) = Ok (tt, st', t) /\
    length (step_batches t) = 101%nat /\
    length (running_loss (fresh_trainer 1)) = 0%nat /\
    length (running_loss st') = 101%nat.
Proof.
  cbv zeta. eexists _, _. split; [vm_compute; reflexivity|].
  repeat split; vm_compute; reflexivity.
Qed.

(** C7, outside [run_training_batch]: [train] zeroes [batch_loss_value] at
    the start of every epoch.  With [accumulate_grad_batches = 3] and one
    batch of loss 3 per epoch, two epochs take no optimizer step and hand
    [backward] the loss 1 twice, and [batch_loss_value] ends at 1, not 2. *)
Lemma epoch_start_resets_batch_loss :
  let cfg := demo_config false 5 None [0%nat] [Some 3%nat] no_hooks in
  exists st' t,
    train (demo_model None false) cfg (fresh_trainer 3) = Ok (tt, st', t) /\
    epochs_begun t = [0; 1] /\
    step_batches t = [] /\
    Forall2 Qeq (backward_losses t) [1; 1]%Q /\
    (batch_loss_value st' == 1)%Q.
Proof.
  cbv zeta. eexists _, _. split; [vm_compute; reflexivity|].
  repeat split; vm_compute; try reflexivity.
  repeat constructor.
Qed.

(** C7 on the small model: a batch of two splits with
    [accumulate_grad_batches = 2], which takes one optimizer step. *)
Lemma running_loss_over_batch_witness :
  let C := demo_model None false in
  let cfg := demo_config false 1 (Some 2) [0%nat] four_batches no_hooks in
  let st := fresh_trainer 2 in
  exists r st' t new,
    run_training_batch C cfg (Some 3%nat) 0 st = Ok (r, st', t) /\
    running_loss st' = running_loss st ++ new /\
    length new = length (step_batches t) /\
    (length (last_entries 100 (running_loss st')) <= 100)%nat /\
    (step_batches t = [] ->
     batch_loss_value st' = foldl Qplus (batch_loss_value st) (backward_losses t) /\
     avg_loss st' = avg_loss st) /\
    (step_batches t <> [] ->
     avg_loss st' = np_mean (last_entries 100 (running_loss st'))) /\
    (no_reevaluation C ->
     (batch_loss_value st', running_loss st')
     = replay_losses t (batch_loss_value st, running_loss st)).
Proof.
  refine (running_loss_over_batch (demo_model None false) _ (Some 3%nat) 0
            (fresh_trainer 2) _ _); simpl; lia.
Defined.

(** C8 on the small model: two optimizers logging under different keys. *)
Lemma merged_log_metrics_witness :
  let C := demo_model None false in
  let cfg := demo_config false 1 None [0; 1]%nat four_batches no_hooks in
  let st := fresh_trainer 1 in
  exists r st' t,
    run_training_batch C cfg (Some 3%nat) 0 st = Ok (r, st', t) /\
    r.2 = collapse (closure_logs t) /\
    (forall k : string,
       is_Some (r.2 !! k) <-> exists d, d ∈ closure_logs t /\ is_Some (d !! k)) /\
    (forall earlier d later (k : string) v,
       closure_logs t = earlier ++ d :: later ->
       d !! k = Some v ->
       Forall (fun d' : gmap string Q => d' !! k = None) later ->
       r.2 !! k = Some v) /\
    (forall batch, Some 3%nat = Some batch -> skipped t = false ->
       let splits := batch_splits C cfg (after_batch_start C cfg st batch) batch in
       batch_calls C cfg 0 splits (forward_calls t) /\
       forall split slot,
         split ∈ splits -> slot ∈ enumerate (optimizers cfg) ->
         exists f, f ∈ forward_calls t /\ fc_batch f = split /\ fc_opt_idx f = slot.1 /\
                   forall k : string,
                     is_Some (out_log (fc_output f) !! k) -> is_Some (r.2 !! k)).
Proof.
  refine (merged_log_metrics (demo_model None false) _ (Some 3%nat) 0 (fresh_trainer 1) _ _);
    simpl; lia.
Defined.

(** C9 on the small model: the evaluator halts training after epoch 1. *)
Lemma logger_success_iff_not_halted_witness :
  let C := demo_model None false in
  let cfg := demo_config false 0 None [0%nat] four_batches no_hooks in
  let st := fresh_trainer 1 in
  exists st' t,
    train C cfg st = Ok (tt, st', t) /\
    finalizations t = (if has_logger cfg && negb (halts cfg t) then ["success"] else []) /\
    (halts cfg t = true -> last t = Some ProgressClose) /\
    (halts cfg t = false ->
       epochs_begun t = range (current_epoch st) (max_nb_epochs cfg) /\
       exists t0, t = t0 ++ ProgressClose ::
                        (if has_logger cfg then [LoggerFinalize "success"] else [])).
Proof.
  exact (logger_success_iff_not_halted (demo_model None false) _ (fresh_trainer 1)
           (demo_divisors_ok _ _ _ _ _ _) (demo_schedule_ok _ _)).
Defined.

(** C10 on the small model: the batch-start hook answers [-1]. *)
Lemma skipped_batch_advances_counters_witness :
  let C := demo_model (Some (-1)) false in
  let cfg := demo_config false 1 None [0%nat] four_batches batch_start_hook in
  let st := fresh_trainer 1 in
  exists st' t,
    training_iteration C cfg (0, Some 1%nat) st = Ok (true, st', t) /\
    skipped t = true /\
    global_step st' = global_step st + 1 /\
    total_batch_nb st' = total_batch_nb st + 1.
Proof.
  refine (skipped_batch_advances_counters (demo_model (Some (-1)) false) _ 1%nat 0
            (fresh_trainer 1) (demo_divisors_ok _ _ _ _ _ _) _ _); reflexivity.
Defined.

(** * The further properties on the small concrete model *)

Lemma demo_no_reevaluation response : no_reevaluation (demo_model response false).
Proof. intros w epoch i o j. exists w. reflexivity. Defined.

(** X1 on the small model: a trainer that has already run both epochs. *)
Lemma train_without_epochs_witness :
  let C := demo_model None false in
  let cfg := demo_config false 1 None [0%nat] four_batches no_hooks in
  let st := set_current_epoch 2 (fresh_trainer 1) in
  exists w,
    train C cfg st = Ok (tt, set_world w st,
                         ProgressClose ::
                           (if has_logger cfg then [LoggerFinalize "success"] else [])).
Proof.
  refine (train_without_epochs (demo_model None false) _ (set_current_epoch 2 (fresh_trainer 1)) _).
  simpl. lia.
Defined.

(** X2 on the small model: [val_check_batch = 0]. *)
Lemma train_zero_interval_raises_witness :
  train (demo_model None false) zero_interval_config (fresh_trainer 1) = ZeroDivisionError.
Proof.
  refine (train_zero_interval_raises (demo_model None false) zero_interval_config
            (fresh_trainer 1) _ _).
  - simpl. lia.
  - right. reflexivity.
Defined.

(** X3 on the small model: the first batch of an epoch. *)
Lemma iteration_returns_iff_divisors_witness :
  let C := demo_model None false in
  let cfg := demo_config false 1 None [0%nat] four_batches no_hooks in
  (exists stop st' t, training_iteration C cfg (0, Some 1%nat) (fresh_trainer 1)
                      = Ok (stop, st', t))
  <-> divisors_ok cfg.
Proof.
  refine (iteration_returns_iff_divisors (demo_model None false) _ 0 (Some 1%nat)
            (fresh_trainer 1) _).
  simpl. lia.
Defined.

(** X4 on the small model: a loader that yields [None] first. *)
Lemma empty_batch_turn_witness :
  let C := demo_model None false in
  let cfg := demo_config false 1 None [0%nat] four_batches no_hooks in
  let st := fresh_trainer 1 in
  exists stop st' t,
    training_iteration C cfg (0, None) st = Ok (stop, st', t) /\
    Forall (fun ev => batch_event ev = false) t /\
    hiddens st' = hiddens st /\
    callback_metrics st' = callback_metrics st /\
    running_loss st' = running_loss st /\
    batch_loss_value st' = batch_loss_value st /\
    opt_idx_to_accumulate_grad_batches st' = opt_idx_to_accumulate_grad_batches st /\
    global_step st' = global_step st + 1 /\
    total_batch_nb st' = total_batch_nb st + 1 /\
    stop = fast_dev_run cfg || (nb_training_batches cfg <=? 0).
Proof.
  exact (empty_batch_turn (demo_model None false) _ 0 (fresh_trainer 1)
           (demo_divisors_ok _ _ _ _ _ _)).
Defined.

(** X5 on the small model: no optimizer, and an accumulation threshold of 0. *)
Lemma batch_without_optimizers_witness :
  let C := demo_model None false in
  let cfg := demo_config false 1 (Some 2) [] four_batches no_hooks in
  let st := fresh_trainer 0 in
  exists r st' t,
    run_training_batch C cfg (Some 1%nat) 0 st = Ok (r, st', t) /\
    r.1.2 = ∅ /\ r.2 = ∅ /\
    forward_calls t = [] /\ backward_losses t = [] /\ step_batches t = [] /\
    callback_metrics st' = callback_metrics st.
Proof.
  refine (batch_without_optimizers (demo_model None false) _ (Some 1%nat) 0
            (fresh_trainer 0) _).
  reflexivity.
Defined.

(** X6 on the small model: one optimizer and an accumulation threshold of 0. *)
Lemma zero_accumulation_raises_witness :
  process_batch (demo_model None false)
    (demo_config false 1 None [0%nat] four_batches no_hooks) 1%nat 0 (fresh_trainer 0)
  = ZeroDivisionError.
Proof.
  refine (zero_accumulation_raises (demo_model None false) _ 1%nat 0 (fresh_trainer 0)
            0%nat [] _ _ _ _); reflexivity.
Defined.

(** X7 on the small model: one optimizer, no truncated back-propagation. *)
Lemma training_forward_ignores_unused_witness :
  let C := demo_model None false in
  let cfg := demo_config false 1 None [0%nat] four_batches no_hooks in
  training_forward C cfg 0%nat 1%nat 0 0 None
  = training_forward C cfg 0%nat 1%nat 0 1 (Some 5%nat).
Proof.
  refine (training_forward_ignores_unused (demo_model None false) _ 0%nat 1%nat 0 0 1
            None (Some 5%nat) _ _).
  - simpl. lia.
  - reflexivity.
Defined.


(** X9 on the small model: two optimizers, two splits, a step that evaluates
    the closure again. *)
Lemma backward_loss_scaling_witness :
  let C := demo_model None true in
  let cfg := demo_config false 1 (Some 2) [0; 1]%nat four_batches no_hooks in
  let st := fresh_trainer 2 in
  exists r st' t,
    run_training_batch C cfg (Some 3%nat) 0 st = Ok (r, st', t) /\
    backward_losses t = map (scaled_loss (accumulate_grad_batches st)) (forward_calls t) /\
    (forall batch, Some 3%nat = Some batch -> skipped t = false ->
       batch_calls C cfg 0 (batch_splits C cfg (after_batch_start C cfg st batch) batch)
         (forward_calls t)).
Proof.
  refine (backward_loss_scaling (demo_model None true) _ (Some 3%nat) 0 (fresh_trainer 2) _ _);
    simpl; lia.
Defined.



(** X12 on the small model: a processed batch. *)
Lemma batch_closing_calls_witness :
  let C := demo_model None false in
  let cfg := demo_config false 1 None [0%nat] four_batches no_hooks in
  let st := fresh_trainer 1 in
  exists r st' t,
    run_training_batch C cfg (Some 3%nat) 0 st = Ok (r, st', t) /\
    if bool_decide (is_Some (Some 3%nat)) && negb (skipped t)
    then exists t0, t = t0 ++ batch_closing cfg /\
                    Forall (fun ev => closing_event ev = false) t0
    else Forall (fun ev => closing_event ev = false) t.
Proof.
  refine (batch_closing_calls (demo_model None false) _ (Some 3%nat) 0 (fresh_trainer 1) _ _);
    simpl; lia.
Defined.

(** X13 on the small model: the first batch of an epoch. *)
Lemma logging_gates_witness :
  let C := demo_model None false in
  let cfg := demo_config false 1 None [0%nat] four_batches no_hooks in
  let st := fresh_trainer 1 in
  exists stop st' t,
    training_iteration C cfg (0, Some 3%nat) st = Ok (stop, st', t) /\
    logger_saves t =
      (if ((((0 + 1) mod log_save_interval cfg =? 0) || skipped t) || fast_dev_run cfg)
          && ((proc_rank cfg =? 0) && has_logger cfg)
       then [tt] else []) /\
    logged_metrics t =
      (if ((0 mod row_log_interval cfg =? 0) || skipped t) || fast_dev_run cfg
       then [(collapse (closure_logs t), default ∅ (snd <$> last (grad_norm_calls t)))]
       else []).
Proof.
  refine (logging_gates (demo_model None false) _ 0 (Some 3%nat) (fresh_trainer 1)
            (demo_divisors_ok _ _ _ _ _ _) _).
  simpl. lia.
Defined.


(** X15 on the small model: an epoch of four batches. *)
Lemma batch_limit_bound_witness :
  let C := demo_model None false in
  let cfg := demo_config false 1 None [0%nat] four_batches no_hooks in
  exists st' t,
    run_training_epoch C cfg (fresh_trainer 1) = Ok (tt, st', t) /\
    (skipped t = false -> fast_dev_run cfg = false ->
     length (steps_seen t)
     = Nat.min (length (train_dataloader cfg))
               (Z.to_nat (Z.max 1 (nb_training_batches cfg + 1)))).
Proof.
  refine (batch_limit_bound (demo_model None false) _ (fresh_trainer 1)
            (demo_divisors_ok _ _ _ _ _ _) _).
  simpl. lia.
Defined.

(** X16 on the small model: [fast_dev_run] with a loader of four batches. *)
Lemma fast_dev_run_one_batch_witness :
  let C := demo_model None false in
  let cfg := demo_config true 1 None [0%nat] four_batches no_hooks in
  let st := fresh_trainer 1 in
  exists st' t,
    run_training_epoch C cfg st = Ok (tt, st', t) /\
    steps_seen t = match train_dataloader cfg with [] => [] | _ => [global_step st] end /\
    evaluations t = match train_dataloader cfg with [] => [] | _ => [testing cfg] end.
Proof.
  refine (fast_dev_run_one_batch (demo_model None false) _ (fresh_trainer 1) _
            (demo_divisors_ok _ _ _ _ _ _) _).
  - reflexivity.
  - simpl. lia.
Defined.

(** X17 on the small model: two epochs of four batches. *)
Lemma running_loss_grows_by_steps_witness :
  let C := demo_model None false in
  let cfg := demo_config false 5 None [0%nat] four_batches no_hooks in
  let st := fresh_trainer 2 in
  exists st' t new,
    train C cfg st = Ok (tt, st', t) /\
    running_loss st' = running_loss st ++ new /\
    length new = length (step_batches t).
Proof.
  exact (running_loss_grows_by_steps (demo_model None false) _ (fresh_trainer 2)
           (demo_divisors_ok _ _ _ _ _ _) (demo_schedule_ok _ _)).
Defined.

(** X18 on the small model: two epochs of four batches. *)
Lemma global_step_over_run_witness :
  let C := demo_model None false in
  let cfg := demo_config false 5 None [0%nat] four_batches no_hooks in
  let st := fresh_trainer 2 in
  exists st' t,
    train C cfg st = Ok (tt, st', t) /\
    global_step st' = global_step st + Z.of_nat (length (steps_seen t)) /\
    total_batch_nb st' = total_batch_nb st + Z.of_nat (length (steps_seen t)) /\
    steps_seen t = range (global_step st) (global_step st') /\
    (halts cfg t = false -> epochs_begun t = range (current_epoch st) (max_nb_epochs cfg)).
Proof.
  exact (global_step_over_run (demo_model None false) _ (fresh_trainer 2)
           (demo_divisors_ok _ _ _ _ _ _) (demo_schedule_ok _ _)).
Defined.

(** X19 on the small model: two epochs of four batches. *)
Lemma current_epoch_after_train_witness :
  let C := demo_model None false in
  let cfg := demo_config false 5 None [0%nat] four_batches no_hooks in
  let st := fresh_trainer 2 in
  exists st' t,
    train C cfg st = Ok (tt, st', t) /\
    current_epoch st' = default (current_epoch st) (last (epochs_begun t)) /\
    (halts cfg t = false -> current_epoch st < max_nb_epochs cfg ->
     current_epoch st' = max_nb_epochs cfg - 1).
Proof.
  exact (current_epoch_after_train (demo_model None false) _ (fresh_trainer 2)
           (demo_divisors_ok _ _ _ _ _ _) (demo_schedule_ok _ _)).
Defined.

(** X20 on the small model: a run the early-stop callback halts after its
    second epoch. *)
Lemma lr_schedulers_step_every_epoch_witness :
  let C := demo_model None false in
  let cfg := demo_config false 0 None [0%nat] four_batches no_hooks in
  let st := fresh_trainer 2 in
  exists st' t,
    train C cfg st = Ok (tt, st', t) /\
    lr_steps t = epochs_begun t ≫= scheduler_steps cfg /\
    (halts cfg t = false -> epochs_begun t = range (current_epoch st) (max_nb_epochs cfg)).
Proof.
  exact (lr_schedulers_step_every_epoch (demo_model None false) _ (fresh_trainer 2)
           (demo_divisors_ok _ _ _ _ _ _) (demo_schedule_ok _ _)).
Defined.

(** X21 on the small model: four batches with [accumulate_grad_batches = 2]. *)
Lemma steps_every_k_batches_witness :
  let C := demo_model None false in
  let cfg := demo_config false 1 None [0%nat] four_batches no_hooks in
  let st := fresh_trainer 2 in
  exists st' t,
    run_training_epoch C cfg st = Ok (tt, st', t) /\
    let K := accumulate_grad_batches st in
    let n := Z.of_nat (length (steps_seen t)) in
    map fc_batch_idx (forward_calls t) = range 0 n /\
    step_batches t = filter (fun i => (i + 1) mod K = 0) (range 0 n) /\
    (accumulated 0 st' == inject_Z (n mod K))%Q /\
    (skipped t = false -> fast_dev_run cfg = false ->
     length (steps_seen t)
     = Nat.min (length (train_dataloader cfg))
               (Z.to_nat (Z.max 1 (nb_training_batches cfg + 1)))).
Proof.
  exact (steps_every_k_batches (demo_model None false) _ (fresh_trainer 2)
           (demo_accumulation_setting false) (demo_no_reevaluation None)).
Defined.
